(** * RJD automation tool: date resolution, watermark polling, artifact writer

    A shallow embedding of the JavaScript sources
    - [server/fillFromSheet.js]   (deterministic generator, module [FillFromSheet]),
    - the older generator copy with the heuristic date policy and pruning
      (module [LegacyGenerator]),
    - [server/poll-jotform.js]    (watermark poller, modules [PollJotform] and
      [PollGenerate]),
    - [server/fillTemplate.js]    (the generator that the poller calls, module
      [FillTemplate]),
    - the webhook receiver        (its date normalisation, module [Webhook]),
    together with the fragments of the JavaScript semantics they rely on
    (strings, regular expressions, [Date]).

    Modelling conventions.
    - A JavaScript string is a [string]: a sequence of code units below 256.
    - A JavaScript number that holds an integer is a [Z].
    - [Date] values live in a zone with a constant offset [tza] from UTC.
    - The file system is reduced to the template file and the output folder. *)

From Stdlib Require Import ZArith Ascii String List Bool Lia.
From stdpp Require Import gmap strings list sorting.

Open Scope string_scope.
Open Scope list_scope.
Open Scope Z_scope.

(* ===================================================================== *)
(** ** JavaScript strings *)
(* ===================================================================== *)

Module JsString.

Definition code (c : ascii) : Z := Z.of_nat (nat_of_ascii c).

Definition between (lo hi : Z) (c : ascii) : bool :=
  (lo <=? code c) && (code c <=? hi).

(** [\d] *)
Definition isDigit (c : ascii) : bool := between 48 57 c.

Definition isLower (c : ascii) : bool := between 97 122 c.
Definition isUpper (c : ascii) : bool := between 65 90 c.

(** WhiteSpace and LineTerminator code units below 256: TAB, LF, VT, FF,
    CR, SP and NBSP.  This is the set used by [\s] and by [trim]. *)
Definition isWhiteSpace (c : ascii) : bool :=
  between 9 13 c || (code c =? 32) || (code c =? 160).

Definition shift (c : ascii) (k : Z) : ascii :=
  ascii_of_nat (Z.to_nat (code c + k)).

(** [String.prototype.toLowerCase] on one code unit (ASCII and Latin-1). *)
Definition lowerChar (c : ascii) : ascii :=
  if isUpper c then shift c 32
  else if between 192 222 c && negb (code c =? 215) then shift c 32
  else c.

Definition upperAscii (c : ascii) : ascii :=
  if isLower c then shift c (-32) else c.

Fixpoint mapChars (f : ascii -> ascii) (s : string) : string :=
  match s with
  | EmptyString => EmptyString
  | String c s' => String (f c) (mapChars f s')
  end.

Definition toLowerCase (s : string) : string := mapChars lowerChar s.

Fixpoint trimStart (s : string) : string :=
  match s with
  | String c s' => if isWhiteSpace c then trimStart s' else s
  | EmptyString => EmptyString
  end.

Fixpoint trimEnd (s : string) : string :=
  match s with
  | EmptyString => EmptyString
  | String c s' =>
      match trimEnd s' with
      | EmptyString => if isWhiteSpace c then EmptyString else String c EmptyString
      | t => String c t
      end
  end.

(** [String.prototype.trim] *)
Definition trim (s : string) : string := trimEnd (trimStart s).

(** Truthiness of a string: only the empty string is falsy. *)
Definition truthy (s : string) : bool :=
  match s with EmptyString => false | _ => true end.

(** [a || b] on strings. *)
Definition orElse (a b : string) : string := if truthy a then a else b.

(** [s.replace(/[set]/g, by)] for a one-character pattern. *)
Fixpoint replaceEach (p : ascii -> bool) (by_ : string) (s : string) : string :=
  match s with
  | EmptyString => EmptyString
  | String c s' =>
      if p c then by_ +:+ replaceEach p by_ s' else String c (replaceEach p by_ s')
  end.

(** [s.replace(/[set]+/g, by)]: every maximal run is replaced once. *)
Fixpoint replaceRuns (p : ascii -> bool) (by_ : string) (inRun : bool) (s : string) : string :=
  match s with
  | EmptyString => EmptyString
  | String c s' =>
      if p c then (if inRun then replaceRuns p by_ true s' else by_ +:+ replaceRuns p by_ true s')
      else String c (replaceRuns p by_ false s')
  end.

Definition digitVal (c : ascii) : Z := code c - 48.

Fixpoint numberAcc (acc : Z) (s : string) : Z :=
  match s with
  | EmptyString => acc
  | String c s' => numberAcc (acc * 10 + digitVal c) s'
  end.

(** [Number(s)] for a string of decimal digits (what the capture groups hold). *)
Definition Number (s : string) : Z := numberAcc 0 s.

Fixpoint allChars (p : ascii -> bool) (s : string) : bool :=
  match s with
  | EmptyString => true
  | String c s' => p c && allChars p s'
  end.

Definition digitOfZ (d : Z) : ascii := ascii_of_nat (Z.to_nat (48 + d)).

Fixpoint digitsAcc (fuel : nat) (n : Z) (acc : string) : string :=
  match fuel with
  | O => acc
  | S f =>
      let acc' := String (digitOfZ (n mod 10)) acc in
      if n <? 10 then acc' else digitsAcc f (n / 10) acc'
  end.

(** [String(n)] for a non-negative integer. *)
Definition stringOfNat (n : Z) : string :=
  digitsAcc (S (Z.to_nat (Z.log2 n))) n EmptyString.

(** [String(n)] for an integer. *)
Definition stringOfInt (n : Z) : string :=
  if n <? 0 then String "-" (stringOfNat (- n)) else stringOfNat n.

Fixpoint isPrefix (p s : string) : bool :=
  match p, s with
  | EmptyString, _ => true
  | String a p', String b s' => Ascii.eqb a b && isPrefix p' s'
  | String _ _, EmptyString => false
  end.

Fixpoint firstDiffLt (x y : string) : bool :=
  match x, y with
  | String a x', String b y' =>
      if Ascii.eqb a b then firstDiffLt x' y' else code a <? code b
  | _, _ => false
  end.

(** IsLessThan on two strings (ECMA-262, 7.2.13, steps 3.a to 3.f):
    code units are compared at the first position where they differ. *)
Definition isLessThan (px py : string) : bool :=
  if isPrefix py px then false
  else if isPrefix px py then true
  else firstDiffLt px py.

(** [a <= b] on two strings: the relational operator evaluates
    [IsLessThan(b, a)] and negates the answer. *)
Definition leStr (a b : string) : bool := negb (isLessThan b a).

(** [s.endsWith(suffix)] *)
Definition endsWith (s suffix : string) : bool :=
  let n := String.length s in
  let k := String.length suffix in
  (k <=? n)%nat && String.eqb (substring (n - k) k s) suffix.

End JsString.

(* ===================================================================== *)
(** ** Regular expressions *)
(* ===================================================================== *)

(** A backtracking matcher for the fragment of JavaScript regular
    expressions that the sources use: anchors, literal text, character
    classes, greedy quantifiers on one-character atoms, an optional group,
    alternation and numbered capture groups.  [run] lists the ways a
    pattern can match at a position, in the order in which a backtracking
    matcher tries them; the first one that reaches the end of the whole
    pattern is the match that [String.prototype.match] reports. *)

Module Regex.
Import JsString.

Inductive charset : Type :=
| CsChar (c : ascii)              (* a literal character *)
| CsRange (lo hi : ascii)         (* lo-hi *)
| CsDigit                         (* \d *)
| CsSpace                         (* \s *)
| CsUnion (a b : charset).

Fixpoint inSet (cs : charset) (c : ascii) : bool :=
  match cs with
  | CsChar x => Ascii.eqb x c
  | CsRange lo hi => between (code lo) (code hi) c
  | CsDigit => isDigit c
  | CsSpace => isWhiteSpace c
  | CsUnion a b => inSet a c || inSet b c
  end.

(** The other letter case of an ASCII letter.  Canonicalize (flag [i],
    no flag [u]) never maps a code unit above 127 to one below 128, and
    every class of the sources holds ASCII letters only. *)
Definition swapCase (c : ascii) : ascii :=
  if isLower c then shift c (-32) else if isUpper c then shift c 32 else c.

(** Membership with the [i] flag: some member has the same canonical form. *)
Definition matchesSet (icase : bool) (cs : charset) (c : ascii) : bool :=
  inSet cs c || (icase && inSet cs (swapCase c)).

Inductive regex : Type :=
| RBol                                   (* ^ *)
| REol                                   (* $ *)
| RSet (cs : charset)                    (* one character of a class *)
| RLit (s : string)                      (* literal text *)
| RSeq (a b : regex)
| RAlt (a b : regex)                     (* a|b *)
| RRep (cs : charset) (mn : nat) (mx : option nat)  (* cs{mn,mx}, cs*, cs+ *)
| ROpt (a : regex)                       (* (?:a)? *)
| RGroup (i : nat) (a : regex).          (* the i-th capture group *)

(** A matcher state: whether the match stands at the start of the input,
    the input left, the captures. *)
Record mstate : Type := MState {
  atStart : bool;
  rest : string;
  caps : gmap nat string
}.

Definition isEmpty (s : string) : bool :=
  match s with EmptyString => true | _ => false end.

(** Literal text against the input: the text consumed and the input left. *)
Fixpoint litMatch (icase : bool) (lit s : string) : option (string * string) :=
  match lit, s with
  | EmptyString, _ => Some (EmptyString, s)
  | String a lit', String b s' =>
      if matchesSet icase (CsChar a) b
      then (fun '(w, r) => (String b w, r)) <$> litMatch icase lit' s'
      else None
  | String _ _, EmptyString => None
  end.

(** Greedy repetition of a one-character atom, the longest run first:
    each way gives the text consumed and the input left. *)
Fixpoint repChars (p : ascii -> bool) (mn : nat) (mx : option nat) (s : string)
    : list (string * string) :=
  let stop := if (mn =? 0)%nat then [(EmptyString, s)] else [] in
  match mx with
  | Some O => stop
  | _ =>
      match s with
      | String c s' =>
          if p c
          then ((fun '(w, r) => (String c w, r)) <$>
                  repChars p (Nat.pred mn) (Nat.pred <$> mx) s') ++ stop
          else stop
      | EmptyString => stop
      end
  end.

(** The state after the text [w] was consumed and [r] is left. *)
Definition advance (st : mstate) (w r : string) : mstate :=
  MState (atStart st && isEmpty w) r (caps st).

(** The ways [r] matches at [st], in the order a backtracking matcher
    finds them: the text each consumes and the state it reaches. *)
Fixpoint run (icase : bool) (r : regex) (st : mstate) : list (string * mstate) :=
  match r with
  | RBol => if atStart st then [(EmptyString, st)] else []
  | REol => match rest st with EmptyString => [(EmptyString, st)] | _ => [] end
  | RSet cs =>
      match rest st with
      | String c s' =>
          if matchesSet icase cs c then [(String c EmptyString, advance st (String c EmptyString) s')]
          else []
      | EmptyString => []
      end
  | RLit lit =>
      match litMatch icase lit (rest st) with
      | Some (w, s') => [(w, advance st w s')]
      | None => []
      end
  | RSeq a b =>
      '(w1, st1) ← run icase a st;
      '(w2, st2) ← run icase b st1;
      [(w1 +:+ w2, st2)]
  | RAlt a b => run icase a st ++ run icase b st
  | RRep cs mn mx =>
      (fun '(w, s') => (w, advance st w s')) <$>
        repChars (matchesSet icase cs) mn mx (rest st)
  | ROpt a =>
      List.filter (fun '(w, _) => negb (isEmpty w)) (run icase a st) ++ [(EmptyString, st)]
  | RGroup i a =>
      (fun '(w, st') => (w, MState (atStart st') (rest st') (<[i := w]> (caps st'))))
        <$> run icase a st
  end.

Fixpoint rseq (rs : list regex) : regex :=
  match rs with
  | [] => RLit ""
  | [r] => r
  | r :: rs' => RSeq r (rseq rs')
  end.

(** Attempts start at index 0, then 1, and so on (no flag [g] or [y]). *)
Fixpoint execFrom (icase : bool) (r : regex) (start : bool) (s : string)
    : option (gmap nat string) :=
  match run icase r (MState start s ∅) with
  | (_, st) :: _ => Some (caps st)
  | [] =>
      match s with
      | String _ s' => execFrom icase r false s'
      | EmptyString => None
      end
  end.

(** [s.match(r)]: the captures of the first match, if any. *)
Definition exec (icase : bool) (r : regex) (s : string) : option (gmap nat string) :=
  execFrom icase r true s.

(** [r.test(s)] *)
Definition test (icase : bool) (r : regex) (s : string) : bool :=
  match exec icase r s with Some _ => true | None => false end.

(** [m[i]]; every group of the patterns below takes part in each match. *)
Definition group (m : gmap nat string) (i : nat) : string := default "" (m !! i).

End Regex.

(* ===================================================================== *)
(** ** JavaScript dates *)
(* ===================================================================== *)

Module JsDate.

Definition msPerDay : Z := 86400000.

(** Day number (days since 1970-01-01) of the civil date [y]-[m]-[d] of
    the proleptic Gregorian calendar; [m] ranges over 1..12 and [d] may
    overflow the month, as the arguments of [MakeDay] may. *)
Definition daysFromCivil (y m d : Z) : Z :=
  let y' := if m <=? 2 then y - 1 else y in
  let era := y' / 400 in
  let yoe := y' - era * 400 in
  let mp := (m + 9) mod 12 in
  let doy := (153 * mp + 2) / 5 + d - 1 in
  let doe := yoe * 365 + yoe / 4 - yoe / 100 + doy in
  era * 146097 + doe - 719468.

(** The civil date (year, month 1..12, day 1..31) of a day number. *)
Definition civilFromDays (z : Z) : Z * Z * Z :=
  let z' := z + 719468 in
  let era := z' / 146097 in
  let doe := z' - era * 146097 in
  let yoe := (doe - doe / 1460 + doe / 36524 - doe / 146096) / 365 in
  let doy := doe - (365 * yoe + yoe / 4 - yoe / 100) in
  let mp := (5 * doy + 2) / 153 in
  let d := doy - (153 * mp + 2) / 5 + 1 in
  let m := if mp <? 10 then mp + 3 else mp - 9 in
  (if m <=? 2 then yoe + era * 400 + 1 else yoe + era * 400, m, d).

(** A [Date] object: its time value, milliseconds since the epoch (UTC). *)
Record Date : Type := MkDate { timeValue : Z }.

Definition Day (t : Z) : Z := t / msPerDay.

Definition MakeDay (year month date : Z) : Z :=
  let ym := year + month / 12 in
  let mn := month mod 12 in
  daysFromCivil ym (mn + 1) 1 + date - 1.

Definition MakeDate (day time : Z) : Z := day * msPerDay + time.

Section Zone.

(** Offset of local time from UTC, in milliseconds. *)
Variable tza : Z.

Definition LocalTime (t : Z) : Z := t + tza.
Definition UTC (t : Z) : Z := t - tza.

(** [new Date(year, monthIndex, day)]: local midnight of that day; a year
    in 0..99 stands for 1900 + year.  The arguments the sources pass keep
    the time value far inside the range that TimeClip accepts. *)
Definition newDate (year monthIndex day : Z) : Date :=
  let yr := if (0 <=? year) && (year <=? 99) then 1900 + year else year in
  MkDate (UTC (MakeDate (MakeDay yr monthIndex day) 0)).

Definition getTime (d : Date) : Z := timeValue d.

Definition localCivil (d : Date) : Z * Z * Z :=
  civilFromDays (Day (LocalTime (timeValue d))).

Definition getFullYear (d : Date) : Z := (localCivil d).1.1.
Definition getMonth (d : Date) : Z := (localCivil d).1.2 - 1.
Definition getDate (d : Date) : Z := (localCivil d).2.

End Zone.

End JsDate.

(* ===================================================================== *)
(** ** The file system seen by the generators *)
(* ===================================================================== *)

Module Fs.

(** An entry of the output folder. *)
Inductive node : Type :=
| File (content : string) (mtimeMs : Z)
| Folder (mtimeMs : Z).

Definition mtimeOf (n : node) : Z :=
  match n with File _ t => t | Folder t => t end.

(** The template file (absent or its content) and the output folder
    (absent, or its entries by name). *)
Record FS : Type := MkFS {
  template : option string;
  outdir : option (gmap string node)
}.

(** The outcome of a call that may throw. *)
Inductive completion (A : Type) : Type :=
| Returned (a : A)
| Threw (msg : string).
Arguments Returned {A} a.
Arguments Threw {A} msg.

(** [fs.ensureDirSync(OUTPUT_DIR)] *)
Definition ensureOutputDir (fs : FS) : FS :=
  match outdir fs with
  | Some _ => fs
  | None => MkFS (template fs) (Some ∅)
  end.

(** [fs.existsSync(path.join(OUTPUT_DIR, name))] *)
Definition existsInOutput (fs : FS) (name : string) : bool :=
  match outdir fs with
  | Some entries => bool_decide (is_Some (entries !! name))
  | None => false
  end.

(** [fs.writeFileSync(path.join(OUTPUT_DIR, name), buf)] at time [now]. *)
Definition writeOutputFile (fs : FS) (name buf : string) (now : Z) : completion FS :=
  match outdir fs with
  | None => Threw "ENOENT"
  | Some entries =>
      match entries !! name with
      | Some (Folder _) => Threw "EISDIR"
      | _ => Returned (MkFS (template fs) (Some (<[name := File buf now]> entries)))
      end
  end.

(** [fs.unlinkSync(path.join(OUTPUT_DIR, name))] *)
Definition unlinkOutputFile (fs : FS) (name : string) : completion FS :=
  match outdir fs with
  | None => Threw "ENOENT"
  | Some entries =>
      match entries !! name with
      | Some (File _ _) => Returned (MkFS (template fs) (Some (delete name entries)))
      | Some (Folder _) => Threw "EISDIR"
      | None => Threw "ENOENT"
      end
  end.

(** [path.join(dir, name)] for a one-segment [name]. *)
Definition pathJoin (dir name : string) : string := dir +:+ "/" +:+ name.

End Fs.

(* ===================================================================== *)
(** ** Sheet rows and template fields *)
(* ===================================================================== *)

(** [mapSheetRowToTemplateFields], which [fillFromSheet.js] and the older
    generator copy share word for word. *)

Module SheetRow.
Import JsString.

(** A row object built by [getRows]: the raw cells ([__row]) and the
    string properties in the order of [Object.keys], [__row] left out. *)
Record sheetRow : Type := MkRow {
  cells : list string;
  props : list (string * string)
}.

Record templateFields : Type := MkFields {
  NAME : string;
  DATE : string;
  JOB_NO : string;
  CUSTOMER : string;
  ADDRESS : string;
  WORKS_CARRIED_OUT : string;
  HOURS : string;
  WORK_STILL_TO_DO : string;
  WORKED_WITH : string;
  CERTIFICATE_SHARED : string;
  MATERIALS : string;
  SUPPLIER_O : string;
  EXTRAS : string;
  HOURS_EXTRA : string;
  EXTRA_MATERIALS : string;
  SUPPLIER : string
}.

Definition isAlnumLower (c : ascii) : bool := isLower c || isDigit c.

(** [String(s || '').toLowerCase().replace(/[^a-z0-9]/g, '')] *)
Definition normalize (s : string) : string :=
  replaceEach (fun c => negb (isAlnumLower c)) "" (toLowerCase s).

(** [normRow]: a later key with the same normal form overwrites. *)
Definition normRowOf (row : sheetRow) : gmap string string :=
  fold_left (fun acc kv => <[normalize kv.1 := kv.2]> acc) (props row) ∅.

Fixpoint pickIn (normRow : gmap string string) (names : list string) : string :=
  match names with
  | [] => ""
  | name :: more =>
      match normRow !! normalize name with
      | Some v => if truthy (trim v) then trim v else pickIn normRow more
      | None => pickIn normRow more
      end
  end.

Definition pickByIndex (row : sheetRow) (idx : nat) : string :=
  match cells row !! idx with
  | Some v => trim v
  | None => ""
  end.

(** [parts.filter(Boolean).join(', ')] *)
Fixpoint joinComma (parts : list string) : string :=
  match parts with
  | [] => ""
  | [p] => p
  | p :: more => p +:+ ", " +:+ joinComma more
  end.

Definition mapSheetRowToTemplateFields (row : sheetRow) : templateFields :=
  let normRow := normRowOf row in
  let pick := pickIn normRow in
  let addrParts := filter (fun p => truthy p = true) [
    pick ["Address - Street Address"; "Address - Street Address"; "street address"; "address"];
    pick ["Address - Street Address Line 2"; "Address - Street Address Line 2";
          "street address line 2"; "address line 2"];
    pick ["Address - City"; "Address - City"; "city"];
    pick ["Address - State / Province"; "Address - State / Province"; "state"; "province"];
    pick ["Address - Postal / Zip Code"; "Address - Postal / Zip Code"; "postal"; "zip"; "postcode"]
  ] in
  let supplierFromO := pickByIndex row 14 in
  let supplierFromS := pickByIndex row 18 in
  {| NAME := pick ["Name"; "Full Name"; "full name"; "name"];
     DATE := pick ["Date"; "DATE"; "_created_at"; "date"];
     JOB_NO := pick ["Job Number"; "JOB NUMBER"; "Job No"; "job number"; "job_no"];
     CUSTOMER := pick ["Customer"; "Customer Name"; "CLIENT"; "client"];
     ADDRESS := joinComma addrParts;
     WORKS_CARRIED_OUT := pick ["Works carried out"; "WORKS CARRIED OUT"; "works carried out"; "works"];
     HOURS := pick ["Hours"; "HOURS"; "hour"];
     WORK_STILL_TO_DO := pick ["Work Still to do/Need to go back"; "WORK STILL TO DO/NEED TO GO BACK";
                               "Work Still to do"; "works still to do"; "to go back"];
     WORKED_WITH := pick ["Worked with"; "WORKED WITH"; "worked with"];
     CERTIFICATE_SHARED := pick ["Certificate Shared"; "CERTIFICATE_SHARED"; "certificate shared"];
     MATERIALS := pick ["Materials"; "MATERIALS"];
     SUPPLIER_O := orElse supplierFromO
                     (pick ["First Supplier"; "Supplier O"; "Supplier (1)"; "supplier1"; "supplier"]);
     EXTRAS := pick ["VARIATIONS - Extras (works outside scope of works / specification of job)";
                     "VARIATIONS - Extras"; "Extras"; "EXTRAS"; "variations"; "works outside scope"];
     HOURS_EXTRA := pick ["Hours Extra"; "HOURS EXTRA"; "Hours Extra"; "hours extra"];
     EXTRA_MATERIALS := pick ["Extra Matierials"; "Extra Materials"; "EXTRA MATERIALS";
                              "Extra Materials"; "Extra Matierials"];
     SUPPLIER := orElse supplierFromS
                   (pick ["Supplier"; "SUPPLIER"; "Supplier for Extras"; "Supplier for extras";
                          "supplier for extras"]) |}.

(** [r[key]] on the row object; a missing property is falsy like [""]. *)
Definition rawProp (row : sheetRow) (key : string) : string :=
  default "" (snd <$> last (filter (fun kv => kv.1 = key) (props row))).

(** An array index: the canonical decimal text of an integer from 0 to
    2^32 - 2.  [Object.keys] lists the properties with such a key first,
    by their number, and then the others in the order of their creation. *)
Definition isArrayIndex (k : string) : bool :=
  match k with
  | EmptyString => false
  | String "0"%char EmptyString => true
  | String "0"%char _ => false
  | _ => allChars isDigit k && (Number k <=? 4294967294)
  end.

Definition hasKey (k : string) (o : list (string * string)) : bool :=
  existsb (fun kv : string * string => String.eqb kv.1 k) o.

(** The new value of a property that is there: it keeps its place. *)
Definition setExisting (k v : string) (o : list (string * string)) : list (string * string) :=
  (fun kv : string * string => if String.eqb kv.1 k then (k, v) else kv) <$> o.

(** A new property whose key is an array index: after the indices below
    it and before everything else. *)
Fixpoint insertIndex (k v : string) (o : list (string * string)) : list (string * string) :=
  match o with
  | [] => [(k, v)]
  | kv :: more =>
      if isArrayIndex kv.1 && (Number kv.1 <? Number k)
      then kv :: insertIndex k v more
      else (k, v) :: o
  end.

(** [obj[k] = v] with a string [v] on a plain object, the own properties
    being kept in the order of [Object.keys].  An assignment to the key
    [__proto__] reaches the setter of [Object.prototype], which ignores a
    value that is neither an object nor null: no property is added. *)
Definition setOwn (k v : string) (o : list (string * string)) : list (string * string) :=
  if String.eqb k "__proto__" then o
  else if hasKey k o then setExisting k v o
  else if isArrayIndex k then insertIndex k v o
  else o ++ [(k, v)].

(** The header texts with the cell of their column, [row[i] || '']. *)
Fixpoint columns (header cells : list string) : list (string * string) :=
  match header with
  | [] => []
  | key :: more => (key, default "" (head cells)) :: columns more (tail cells)
  end.

(** [header.reduce((obj, key, i) => { obj[key] = row[i] || ''; return obj; },
    { __row: row })].  A column whose header is [__row] replaces the array
    of the cells by a string, which [pickByIndex] reads as no cells. *)
Definition rowObject (header cells : list string) : sheetRow :=
  let cols := columns header cells in
  MkRow (if hasKey "__row" cols then [] else cells)
        (fold_left
           (fun o (kv : string * string) =>
              if String.eqb kv.1 "__row" then o else setOwn kv.1 kv.2 o)
           cols []).

(** [getRows] once the values of the sheet are there: the first line is
    the header, and every other line becomes a row object. *)
Definition mappedRows (values : list (list string)) : list sheetRow :=
  match values with
  | [] => []
  | header :: rows => rowObject header <$> rows
  end.

End SheetRow.

(* ===================================================================== *)
(** ** server/fillFromSheet.js *)
(* ===================================================================== *)

Module FillFromSheet.
Import JsString Regex JsDate Fs SheetRow.

(** [[\/\-\.\s]] *)
Definition sepSet : charset :=
  CsUnion (CsChar "/") (CsUnion (CsChar "-") (CsUnion (CsChar ".") CsSpace)).

(** [[A-Za-z]] *)
Definition letterSet : charset := CsUnion (CsRange "A" "Z") (CsRange "a" "z").

(** [/^\d{1,2}-\d{1,2}-\d{4}$/] *)
Definition FINAL_DATE_REGEX : regex :=
  rseq [RBol; RRep CsDigit 1 (Some 2%nat); RLit "-"; RRep CsDigit 1 (Some 2%nat); RLit "-";
        RRep CsDigit 4 (Some 4%nat); REol].

(** The class of the pattern of [safeFilename]: slash, backslash, [?],
    [%], [*], [:], [|], the double quote, [<] and [>]. *)
Definition pathHostile (c : ascii) : bool :=
  existsb (Ascii.eqb c)
    ["/"; "\"; "?"; "%"; "*"; ":"; "|"; "034"; "<"; ">"]%char.

(** [String(str || '').replace(/[...]/g, '-').trim()] with that class. *)
Definition safeFilename (str : string) : string :=
  trim (replaceEach pathHostile "-" str).

(** [/^0*(\d{1,2})[\/\-\.\s]0*(\d{1,2})[\/\-\.\s](\d{2,4})$/] *)
Definition numericDmyRe : regex :=
  rseq [RBol;
        RRep (CsChar "0") 0 None; RGroup 1 (RRep CsDigit 1 (Some 2%nat)); RSet sepSet;
        RRep (CsChar "0") 0 None; RGroup 2 (RRep CsDigit 1 (Some 2%nat)); RSet sepSet;
        RGroup 3 (RRep CsDigit 2 (Some 4%nat)); REol].

(** [/^(\d{4})-(\d{1,2})-(\d{1,2})$/] *)
Definition isoRe : regex :=
  rseq [RBol; RGroup 1 (RRep CsDigit 4 (Some 4%nat)); RLit "-";
        RGroup 2 (RRep CsDigit 1 (Some 2%nat)); RLit "-";
        RGroup 3 (RRep CsDigit 1 (Some 2%nat)); REol].

(** [(?:st|nd|rd|th)?] *)
Definition ordinalSuffix : regex :=
  ROpt (RAlt (RLit "st") (RAlt (RLit "nd") (RAlt (RLit "rd") (RLit "th")))).

(** [/^(\d{1,2})(?:st|nd|rd|th)?\s+([A-Za-z]{3,9})\s+(\d{4})$/i] *)
Definition textDayFirstRe : regex :=
  rseq [RBol; RGroup 1 (RRep CsDigit 1 (Some 2%nat)); ordinalSuffix; RRep CsSpace 1 None;
        RGroup 2 (RRep letterSet 3 (Some 9%nat)); RRep CsSpace 1 None;
        RGroup 3 (RRep CsDigit 4 (Some 4%nat)); REol].

(** [/^([A-Za-z]{3,9})\s+(\d{1,2})(?:st|nd|rd|th)?\s+(\d{4})$/i] *)
Definition textMonthFirstRe : regex :=
  rseq [RBol; RGroup 1 (RRep letterSet 3 (Some 9%nat)); RRep CsSpace 1 None;
        RGroup 2 (RRep CsDigit 1 (Some 2%nat)); ordinalSuffix; RRep CsSpace 1 None;
        RGroup 3 (RRep CsDigit 4 (Some 4%nat)); REol].

Definition monthTable : list (string * Z) :=
  [("january", 1); ("february", 2); ("march", 3); ("april", 4); ("may", 5); ("june", 6);
   ("july", 7); ("august", 8); ("september", 9); ("october", 10); ("november", 11);
   ("december", 12);
   ("jan", 1); ("feb", 2); ("mar", 3); ("apr", 4); ("may", 5); ("jun", 6); ("jul", 7);
   ("aug", 8); ("sep", 9); ("sept", 9); ("oct", 10); ("nov", 11); ("dec", 12)].

(** [monthNames[name]]; [None] is [undefined]. *)
Definition monthNames (name : string) : option Z :=
  snd <$> find (fun kv => String.eqb kv.1 name) monthTable.

Inductive dateKind : Type := Kdmy | Kiso | Ktext.

(** The result object [{ date, kind }]; [None] is [null]. *)
Record parsed : Type := MkParsed {
  date : option Date;
  kind : option dateKind
}.

Definition noDate : parsed := MkParsed None None.

Section Zone.

Variable tza : Z.

(** [d.getFullYear() === year && d.getMonth() === month - 1 && d.getDate() === day] *)
Definition sameComponents (d : Date) (year month day : Z) : bool :=
  (getFullYear tza d =? year) && (getMonth tza d =? month - 1) && (getDate tza d =? day).

(** The body shared by the two textual branches, once the three parts are read. *)
Definition textCandidate (day : Z) (month : option Z) (year : Z) : option parsed :=
  match month with
  | Some month =>
      if (1 <=? day) && (day <=? 31) then
        let d := newDate tza year (month - 1) day in
        if sameComponents d year month day then Some (MkParsed (Some d) (Some Ktext)) else None
      else None
  | None => None
  end.

Definition parseDateDeterministic (s : string) : parsed :=
  if negb (truthy s) then noDate else
  let str := trim s in
  (* 1) numeric DMY (allow leading zeros) *)
  match exec false numericDmyRe str with
  | Some m =>
      let day := Number (group m 1) in
      let month := Number (group m 2) in
      let rawYear := Number (group m 3) in
      let year := if rawYear <? 100 then 2000 + rawYear else rawYear in
      if (1 <=? month) && (month <=? 12) && (1 <=? day) && (day <=? 31) then
        let d := newDate tza year (month - 1) day in
        if sameComponents d year month day then MkParsed (Some d) (Some Kdmy) else noDate
      else noDate
  | None =>
  (* 2) ISO yyyy-mm-dd *)
  match exec false isoRe str with
  | Some m =>
      let year := Number (group m 1) in
      let month := Number (group m 2) in
      let day := Number (group m 3) in
      let d := newDate tza year (month - 1) day in
      if sameComponents d year month day then MkParsed (Some d) (Some Kiso) else noDate
  | None =>
  (* 3) textual months *)
  let cleaned :=
    trim (replaceRuns isWhiteSpace " " false (replaceEach (Ascii.eqb ",") " " str)) in
  let dayFirst :=
    match exec true textDayFirstRe cleaned with
    | Some m =>
        textCandidate (Number (group m 1)) (monthNames (toLowerCase (group m 2)))
                      (Number (group m 3))
    | None => None
    end in
  match dayFirst with
  | Some r => r
  | None =>
      let monthFirst :=
        match exec true textMonthFirstRe cleaned with
        | Some m =>
            textCandidate (Number (group m 2)) (monthNames (toLowerCase (group m 1)))
                          (Number (group m 3))
        | None => None
        end in
      match monthFirst with
      | Some r => r
      | None => noDate
      end
  end
  end
  end.

(** [formatDateForFilename]; the argument [None] is [null]. *)
Definition formatDateForFilename (d : option Date) : string :=
  match d with
  | None => ""
  | Some d =>
      stringOfInt (getDate tza d) +:+ "-" +:+ stringOfInt (getMonth tza d + 1) +:+ "-" +:+
      stringOfInt (getFullYear tza d)
  end.

(** [normalizeRawDateForFilename]; the result [None] is [null]. *)
Definition normalizeRawDateForFilename (raw : string) : option string :=
  if negb (truthy raw) then None else
  let s := trim raw in
  match exec false numericDmyRe s with
  | None => None
  | Some parts =>
      let day := Number (group parts 1) in
      let month := Number (group parts 2) in
      let rawYear := Number (group parts 3) in
      let year := if rawYear <? 100 then 2000 + rawYear else rawYear in
      let d := newDate tza year (month - 1) day in
      if sameComponents d year month day
      then Some (stringOfInt day +:+ "-" +:+ stringOfInt month +:+ "-" +:+ stringOfInt year)
      else None
  end.

(** The date token of the file name: the computation of [safeDate] in
    [createDocx], up to the integrity check. *)
Definition safeDateOf (rawDateStr : string) : string :=
  let parsedDate := date (parseDateDeterministic rawDateStr) in
  let formattedDate :=
    match parsedDate with
    | Some _ => formatDateForFilename parsedDate
    | None => ""
    end in
  let formattedDate :=
    if truthy formattedDate then formattedDate
    else match normalizeRawDateForFilename rawDateStr with
         | Some normalized => normalized
         | None => ""
         end in
  orElse formattedDate "nodate".

End Zone.

(** What the run prints; the texts are reduced to their data. *)
Inductive logLine : Type :=
| LogFilenameDebug (raw : string) (k : option dateKind) (final output : string)
| LogFatalFilenameDate (safeDate : string)
| LogSkipping (output : string)
| LogDryRunWouldWrite (output : string)
| LogRowDebug (raw : string) (p : parsed) (keep : bool)
| LogAfterDaysFilter (count : nat).

(** The object [createDocx] returns. *)
Record docxResult : Type := MkResult {
  skipped : bool;
  path : string;
  dry : bool
}.

Section Generator.

Variable tza : Z.

(** [OUTPUT_DIR], [FORCE], [DRY], [DEBUG], [DAYS], [LAST_N]: read once from
    the command line and the environment. *)
Variable OUTPUT_DIR : string.
Variables FORCE DRY DEBUG : bool.
Variables DAYS LAST_N : Z.

(** PizZip and Docxtemplater: from the template content and the data to
    the generated buffer; [None] when rendering throws. *)
Variable renderDocx : string -> templateFields -> option string.

(** The name of the artifact inside [OUTPUT_DIR]. *)
Definition outputName (data : templateFields) : string :=
  let safeDate := safeDateOf tza (DATE data) in
  let safeName := safeFilename (orElse (NAME data) "NONAME") in
  let safeJobNumber := safeFilename (orElse (JOB_NO data) "NOJOBNO") in
  safeDate +:+ "-" +:+ safeName +:+ "-" +:+ safeJobNumber +:+ ".docx".

(** [createDocx(data)], called at time [now] on the file system [fs]. *)
Definition createDocx (now : Z) (fs : FS) (data : templateFields)
    : completion docxResult * FS * list logLine :=
  match template fs with
  | None => (Threw "Template not found", fs, [])
  | Some content =>
      let fs := ensureOutputDir fs in
      match renderDocx content data with
      | None => (Threw "render failed", fs, [])
      | Some buf =>
          let rawDateStr := DATE data in
          let p := parseDateDeterministic tza rawDateStr in
          let safeDate := safeDateOf tza rawDateStr in
          if negb (String.eqb safeDate "nodate") && negb (test false FINAL_DATE_REGEX safeDate)
          then (Threw "Invalid filename date format - aborting", fs,
                [LogFatalFilenameDate safeDate])
          else
            let name := outputName data in
            let outputFile := pathJoin OUTPUT_DIR name in
            let log := [LogFilenameDebug rawDateStr (kind p) safeDate outputFile] in
            if existsInOutput fs name && negb FORCE
            then (Returned (MkResult true outputFile false), fs,
                  log ++ [LogSkipping outputFile])
            else if DRY
            then (Returned (MkResult false outputFile true), fs,
                  log ++ [LogDryRunWouldWrite outputFile])
            else
              match writeOutputFile fs name buf now with
              | Returned fs' => (Returned (MkResult false outputFile false), fs', log)
              | Threw e => (Threw e, fs, log)
              end
      end
  end.

(** [mapped.DATE || r['Date'] || r['_created_at'] || ''] *)
Definition dateStrOf (r : sheetRow) : string :=
  orElse (DATE (mapSheetRowToTemplateFields r))
         (orElse (rawProp r "Date") (orElse (rawProp r "_created_at") "")).

(** The body of the filter loop for one row: what was parsed and [keep]. *)
Definition rowDecision (cutoff : Z) (r : sheetRow) : parsed * bool :=
  let p := parseDateDeterministic tza (dateStrOf r) in
  let keep :=
    match date p with
    | Some chosenDate => cutoff <=? getTime chosenDate
    | None => false
    end in
  (p, keep).

(** [for (const r of rows) { ...; if (keep) kept.push(r); }] *)
Fixpoint filterLoop (cutoff : Z) (rows kept : list sheetRow) (log : list logLine)
    : list sheetRow * list logLine :=
  match rows with
  | [] => (kept, log)
  | r :: more =>
      let '(p, keep) := rowDecision cutoff r in
      let log := if DEBUG then log ++ [LogRowDebug (dateStrOf r) p keep] else log in
      filterLoop cutoff more (if keep then kept ++ [r] else kept) log
  end.

(** The [if (DAYS > 0) { ... }] block of the main function at time [now]. *)
Definition daysFilter (now : Z) (rows : list sheetRow) : list sheetRow * list logLine :=
  if 0 <? DAYS then
    let cutoff := now - DAYS * 24 * 60 * 60 * 1000 in
    let '(kept, log) := filterLoop cutoff rows [] [] in
    (kept, log ++ [LogAfterDaysFilter (length kept)])
  else (rows, []).

(** [rows.slice(-LAST_N)] when [LAST_N > 0]. *)
Definition lastRows (rows : list sheetRow) : list sheetRow :=
  if 0 <? LAST_N then drop (length rows - Z.to_nat LAST_N) rows else rows.

(** The generation loop: the first exception ends the run. *)
Fixpoint generateAll (now : Z) (fs : FS) (rows : list sheetRow) (generatedCount : nat)
    : completion nat * FS * list logLine :=
  match rows with
  | [] => (Returned generatedCount, fs, [])
  | row :: more =>
      let tplData := mapSheetRowToTemplateFields row in
      match createDocx now fs tplData with
      | (Returned out, fs', log) =>
          let '(res, fs'', log') :=
            generateAll now fs' more
              (if skipped out then generatedCount else S generatedCount) in
          (res, fs'', log ++ log')
      | (Threw e, fs', log) => (Threw e, fs', log)
      end
  end.

End Generator.

End FillFromSheet.

(* ===================================================================== *)
(** ** The older generator copy: heuristic dates and pruning *)
(* ===================================================================== *)

Module LegacyGenerator.
Import JsString Regex JsDate Fs SheetRow.

(** [String(str || '').replace(/[...]/g, '-')]: the same class, no [trim]. *)
Definition safeFilename (str : string) : string :=
  replaceEach FillFromSheet.pathHostile "-" str.

(** [/^(\d{1,2})[\/\-\.\s](\d{1,2})[\/\-\.\s](\d{2,4})$/] *)
Definition numericRe : regex :=
  rseq [RBol; RGroup 1 (RRep CsDigit 1 (Some 2%nat)); RSet FillFromSheet.sepSet;
        RGroup 2 (RRep CsDigit 1 (Some 2%nat)); RSet FillFromSheet.sepSet;
        RGroup 3 (RRep CsDigit 2 (Some 4%nat)); REol].

Inductive candKind : Type := Cnative | Cdmy | Cmdy.

Definition candKind_eqb (a b : candKind) : bool :=
  match a, b with
  | Cnative, Cnative | Cdmy, Cdmy | Cmdy, Cmdy => true
  | _, _ => false
  end.

Record candidate : Type := MkCand {
  ckind : candKind;
  cdate : Date
}.

(** The object [{ date, candidates, chosenKind }]. *)
Record candidates : Type := MkCands {
  date : option Date;
  cands : list candidate;
  chosenKind : option candKind
}.

Inductive logLine : Type :=
| LogSkipping (output : string)
| LogDryRunWouldWrite (output : string)
| LogDryRunWouldPrune (full : string)
| LogPruned (full : string)
| WarnFailedToDelete (full msg : string)
| LogRowDebug (raw : string) (cs : list candidate) (k : option candKind)
              (d : option Date) (keep : bool)
| LogAfterDaysFilter (count before : nat).

Record docxResult : Type := MkResult {
  skipped : bool;
  path : string;
  dry : bool
}.

(** A [.docx] entry of the output folder with its modification time. *)
Record entry : Type := MkEntry {
  name : string;
  full : string;
  mtime : Z
}.

(** One step of a stable sort by [(a, b) => b.mtime - a.mtime]. *)
Fixpoint insertNewestFirst (x : entry) (sorted : list entry) : list entry :=
  match sorted with
  | [] => [x]
  | y :: more =>
      if mtime x <? mtime y then y :: insertNewestFirst x more else x :: sorted
  end.

(** [files.sort((a, b) => b.mtime - a.mtime)]; the sort is stable. *)
Definition sortNewestFirst (files : list entry) : list entry :=
  foldr insertNewestFirst [] files.

Section Generator.

Variable tza : Z.

(** [new Date(str)] on free text is left to the engine: [None] is an
    invalid date. *)
Variable nativeParse : string -> option Date.

Variable OUTPUT_DIR : string.
Variables FORCE DRY DEBUG : bool.
Variable DAYS : Z.
Variable renderDocx : string -> templateFields -> option string.

Definition sameComponents (d : Date) (year month day : Z) : bool :=
  (getFullYear tza d =? year) && (getMonth tza d =? month - 1) && (getDate tza d =? day).

Definition findKind (k : candKind) (cs : list candidate) : option candidate :=
  find (fun c => candKind_eqb (ckind c) k) cs.

Definition parseDateCandidates (s : string) : candidates :=
  if negb (truthy s) then MkCands None [] None else
  let str := trim s in
  (* Native parse (may be ambiguous) *)
  let cs :=
    match nativeParse str with
    | Some native => [MkCand Cnative native]
    | None => []
    end in
  let cs :=
    match exec false numericRe str with
    | Some parts =>
        let p1 := Number (group parts 1) in
        let p2 := Number (group parts 2) in
        let p3 := Number (group parts 3) in
        let year := if p3 <? 100 then 2000 + p3 else p3 in
        (* DMY candidate (day = p1, month = p2) *)
        let cs :=
          if (1 <=? p2) && (p2 <=? 12) && (1 <=? p1) && (p1 <=? 31) then
            let dmy := newDate tza year (p2 - 1) p1 in
            if sameComponents dmy year p2 p1 then cs ++ [MkCand Cdmy dmy] else cs
          else cs in
        (* MDY candidate (month = p1, day = p2) *)
        if (1 <=? p1) && (p1 <=? 12) && (1 <=? p2) && (p2 <=? 31) then
          let mdy := newDate tza year (p1 - 1) p2 in
          if sameComponents mdy year p1 p2 then cs ++ [MkCand Cmdy mdy] else cs
        else cs
    | None => cs
    end in
  (* prefer DMY if available, else native if present, else first candidate *)
  match cs with
  | [] => MkCands None cs None
  | first :: _ =>
      match findKind Cdmy cs with
      | Some dmyC => MkCands (Some (cdate dmyC)) cs (Some Cdmy)
      | None =>
          let chosen := default first (findKind Cnative cs) in
          MkCands (Some (cdate chosen)) cs (Some (ckind chosen))
      end
  end.

(** [mapped.DATE || r['Date'] || r['_created_at'] || ''] *)
Definition dateStrOf (r : sheetRow) : string :=
  orElse (DATE (mapSheetRowToTemplateFields r))
         (orElse (rawProp r "Date") (orElse (rawProp r "_created_at") "")).

(** The date and kind the filter loop settles on for a raw string, and
    [keep]: the cutoff breaks the tie between a DMY and an MDY reading. *)
Definition chooseForFilter (cutoff : Z) (dateStr : string)
    : option Date * option candKind * bool :=
  let p := parseDateCandidates dateStr in
  let '(chosenDate, chosenKind) :=
    match findKind Cdmy (cands p), findKind Cmdy (cands p) with
    | Some candDMY, Some candMDY =>
        let dmyOk := cutoff <=? getTime (cdate candDMY) in
        let mdyOk := cutoff <=? getTime (cdate candMDY) in
        if dmyOk && negb mdyOk then (Some (cdate candDMY), Some Cdmy)
        else if mdyOk && negb dmyOk then (Some (cdate candMDY), Some Cmdy)
        else (date p, chosenKind p)
    | _, _ => (date p, chosenKind p)
    end in
  let keep :=
    match chosenDate with
    | Some d => cutoff <=? getTime d
    | None => false
    end in
  (chosenDate, chosenKind, keep).

Fixpoint filterLoop (cutoff : Z) (rows kept : list sheetRow) (log : list logLine)
    : list sheetRow * list logLine :=
  match rows with
  | [] => (kept, log)
  | r :: more =>
      let '(chosenDate, chosenKind, keep) := chooseForFilter cutoff (dateStrOf r) in
      let log :=
        if DEBUG
        then log ++ [LogRowDebug (dateStrOf r) (cands (parseDateCandidates (dateStrOf r)))
                                 chosenKind chosenDate keep]
        else log in
      filterLoop cutoff more (if keep then kept ++ [r] else kept) log
  end.

(** The [if (DAYS > 0) { ... }] block of the main function at time [now]. *)
Definition daysFilter (now : Z) (rows : list sheetRow) : list sheetRow * list logLine :=
  if 0 <? DAYS then
    let cutoff := now - DAYS * 24 * 60 * 60 * 1000 in
    let '(kept, log) := filterLoop cutoff rows [] [] in
    (kept, log ++ [LogAfterDaysFilter (length kept) (length rows)])
  else (rows, []).

Definition outputName (data : templateFields) : string :=
  let safeDate := safeFilename (orElse (DATE data) "nodate") in
  let safeName := safeFilename (orElse (NAME data) "NONAME") in
  let safeJobNumber := safeFilename (orElse (JOB_NO data) "NOJOBNO") in
  safeDate +:+ "-" +:+ safeName +:+ "-" +:+ safeJobNumber +:+ ".docx".

Definition createDocx (now : Z) (fs : FS) (data : templateFields)
    : completion docxResult * FS * list logLine :=
  match template fs with
  | None => (Threw "Template not found", fs, [])
  | Some content =>
      let fs := ensureOutputDir fs in
      match renderDocx content data with
      | None => (Threw "render failed", fs, [])
      | Some buf =>
          let name := outputName data in
          let outputFile := pathJoin OUTPUT_DIR name in
          if existsInOutput fs name && negb FORCE
          then (Returned (MkResult true outputFile false), fs, [LogSkipping outputFile])
          else if DRY
          then (Returned (MkResult false outputFile true), fs, [LogDryRunWouldWrite outputFile])
          else
            match writeOutputFile fs name buf now with
            | Returned fs' => (Returned (MkResult false outputFile false), fs', [])
            | Threw e => (Threw e, fs, [])
            end
      end
  end.

(** [fs.readdirSync(OUTPUT_DIR)]: the names of the entries of the folder
    in the order in which the system lists them, which the program does
    not choose. *)
Variable readdirSync : gmap string node -> list string.

(** The listing with the [.docx] filter and [statSync], in the order of
    the listing; every name that the listing gives is an entry of the
    folder, so [statSync] finds it. *)
Definition docxEntries (entries : gmap string node) : list entry :=
  omap (fun n => (fun nd => MkEntry n (pathJoin OUTPUT_DIR n) (mtimeOf nd)) <$> entries !! n)
    (filter (fun n => endsWith (toLowerCase n) ".docx" = true) (readdirSync entries)).

(** [for (const f of toDelete) { try { ... } catch (err) { ... } }] *)
Fixpoint deleteLoop (toDelete : list entry) (fs : FS) : FS * list logLine :=
  match toDelete with
  | [] => (fs, [])
  | f :: more =>
      if DRY then
        let '(fs', log) := deleteLoop more fs in
        (fs', LogDryRunWouldPrune (full f) :: log)
      else
        match unlinkOutputFile fs (name f) with
        | Returned fs1 =>
            let '(fs', log) := deleteLoop more fs1 in
            (fs', LogPruned (full f) :: log)
        | Threw msg =>
            let '(fs', log) := deleteLoop more fs in
            (fs', WarnFailedToDelete (full f) msg :: log)
        end
  end.

(** [pruneOutputDir(keepN)] *)
Definition pruneOutputDir (keepN : Z) (fs : FS) : FS * list logLine :=
  if keepN <=? 0 then (fs, []) else
  match outdir fs with
  | None => (fs, [])
  | Some entries =>
      let files := sortNewestFirst (docxEntries entries) in
      if Z.of_nat (length files) <=? keepN then (fs, []) else
      let toDelete := drop (Z.to_nat keepN) files in
      deleteLoop toDelete fs
  end.

End Generator.

End LegacyGenerator.

(* ===================================================================== *)
(** ** server/poll-jotform.js *)
(* ===================================================================== *)

Module PollJotform.
Import JsString.

(** One entry of [submission.answers]; [None] is [undefined]. *)
Record answer : Type := MkAnswer {
  aName : option string;
  aText : option string;
  aAnswer : option string;
  aPrettyFormat : option string
}.

(** A submission as the API lists it; [None] is a missing property. *)
Record submission : Type := MkSubmission {
  submission_id : option string;
  id : option string;
  created_at : option string;
  answers : option (list (string * answer))
}.

(** [a || b] on values that may be [undefined]. *)
Definition orOpt (a b : option string) : option string :=
  match a with
  | Some x => if truthy x then a else b
  | None => b
  end.

Definition strOf (a : option string) : string := default "" a.

(** [s.submission_id || s.id]; the empty string stands for a falsy result. *)
Definition sidOf (s : submission) : string := strOf (orOpt (submission_id s) (id s)).

Definition setOpt (k : string) (v : option string) (m : gmap string string)
    : gmap string string :=
  match v with
  | Some x => <[k := x]> m
  | None => delete k m
  end.

(** [mapped[key] = value] with a string value on the plain object
    [mapped], seen through its own properties.  An assignment to the key
    [__proto__] reaches the setter of [Object.prototype], which ignores a
    value that is neither an object nor null: no property is added. *)
Definition setProp (key value : string) (mapped : gmap string string) : gmap string string :=
  if String.eqb key "__proto__" then mapped else <[key := value]> mapped.

(** [mapSubmission] *)
Definition mapSubmission (s : submission) : gmap string string :=
  let mapped :=
    match answers s with
    | Some ans =>
        fold_left
          (fun acc ka =>
             let key := strOf (orOpt (orOpt (aName ka.2) (aText ka.2)) (Some ("q" +:+ ka.1))) in
             let value :=
               match aAnswer ka.2, aPrettyFormat ka.2, aText ka.2 with
               | Some v, _, _ => v
               | None, Some v, _ => v
               | None, None, Some v => v
               | None, None, None => ""
               end in
             setProp key value acc)
          ans ∅
    | None =>
        (* fallback: copy top-level fields *)
        setOpt "created_at" (created_at s)
          (setOpt "id" (id s) (setOpt "submission_id" (submission_id s) ∅))
    end in
  setOpt "_created_at" (created_at s)
    (setOpt "_submission_id" (orOpt (submission_id s) (id s)) mapped).

(** What [await generate(mapped)] does: resolve to a truthy or a falsy
    value, or throw. *)
Inductive genOutcome : Type := GenTrue | GenFalse | GenThrows.

Inductive event : Type :=
| EvProcessing (sid : string)
| EvAppendRow (row : list string)
| WarnGeneratorFalse (sid : string)
| ErrGeneratorFailed (sid : string)
| WarnCouldNotWriteLast
| ErrPoll.

(** [last_submission.txt]: its content when it can be read, and whether a
    write to it succeeds. *)
Record pollState : Type := MkPoll {
  lastFile : option string;
  lastWritable : bool
}.

(** [readLastProcessed] *)
Definition readLastProcessed (st : pollState) : string :=
  match lastFile st with
  | Some content => trim content
  | None => ""
  end.

(** [writeLastProcessed] *)
Definition writeLastProcessed (sid : string) (st : pollState) : pollState * list event :=
  if lastWritable st then (MkPoll (Some sid) true, [])
  else (st, [WarnCouldNotWriteLast]).

Definition firstTruthy (m : gmap string string) (keys : list string) : string :=
  default "" (find truthy (omap (fun k => m !! k) keys)).

(** The row handed to [appendRowToSheet], its time stamp left out. *)
Definition sheetRowOf (mapped : gmap string string) : list string :=
  [ firstTruthy mapped ["name"; "Name"; "Full Name"; "Full name"; "your_name"];
    firstTruthy mapped ["email"; "Email"; "E-mail"; "your_email"];
    firstTruthy mapped ["meeting_date"; "date"; "Date"; "_created_at"];
    firstTruthy mapped ["Work Still to do/Need to go back"; "work still to do/need to go back";
                        "WORK STILL TO DO/NEED TO GO BACK"; "Work Still to do";
                        "works still to do"; "WORK_STILL_TO_DO"; "work_still_to_do";
                        "WORK STILL TO DO"] ].

Section Poller.

(** The generator, seen from the poller. *)
Variable generate : gmap string string -> genOutcome.

(** [if (last && sid <= last) continue;] *)
Definition alreadySeen (last sid : string) : bool := truthy last && leStr sid last.

(** [for (const s of submissions) { ... }]: the value of [newestSeen] at
    the end and what was printed. *)
Fixpoint pollLoop (last : string) (submissions : list submission) (newestSeen : string)
    : string * list event :=
  match submissions with
  | [] => (newestSeen, [])
  | s :: more =>
      let sid := sidOf s in
      if negb (truthy sid) then pollLoop last more newestSeen
      else if alreadySeen last sid then pollLoop last more newestSeen
      else
        let mapped := mapSubmission s in
        match generate mapped with
        | GenTrue =>
            let '(n, evs) := pollLoop last more sid in
            (n, EvProcessing sid :: EvAppendRow (sheetRowOf mapped) :: evs)
        | GenFalse =>
            let '(n, evs) := pollLoop last more newestSeen in
            (n, EvProcessing sid :: WarnGeneratorFalse sid :: evs)
        | GenThrows =>
            (* do not update last processed so it can be retried later *)
            let '(n, evs) := pollLoop last more newestSeen in
            (n, EvProcessing sid :: ErrGeneratorFailed sid :: evs)
        end
  end.

(** [processNew]: one polling cycle.  [listed] is what [listSubmissions]
    gives, newest first; [None] when the request fails. *)
Definition processNew (listed : option (list submission)) (st : pollState)
    : pollState * list event :=
  match listed with
  | None => (st, [ErrPoll])
  | Some [] => (st, [])
  | Some submissions =>
      (* submissions are newest-first; process oldest-first *)
      let submissions := rev submissions in
      let last := readLastProcessed st in
      let '(newestSeen, evs) := pollLoop last submissions last in
      if truthy newestSeen && negb (String.eqb newestSeen last)
      then
        let '(st', evs') := writeLastProcessed newestSeen st in
        (st', evs ++ evs')
      else (st, evs)
  end.

(** The identifiers handed to the generator, in order. *)
Definition offered (evs : list event) : list string :=
  omap (fun e => match e with EvProcessing sid => Some sid | _ => None end) evs.

End Poller.

End PollJotform.

(* ===================================================================== *)
(** ** server/fillFromSheet.js: the lock file and the main function *)
(* ===================================================================== *)

Module GeneratorRun.
Import JsString Fs SheetRow FillFromSheet.

(** The lock file [.generator.lock] (absent or its content) next to the
    template file and the output folder. *)
Record world : Type := MkWorld {
  lock : option string;
  files : FS
}.

Inductive runLine : Type :=
| ErrLockPresent
| LogNoRows
| LogTotalRows (count : nat)
| LogGenerator (line : logLine)
| LogSuccess (generatedCount : nat)
| ErrFailed (msg : string).

Section Run.

Variable tza : Z.
Variable OUTPUT_DIR : string.
Variables FORCE DRY DEBUG : bool.
Variables DAYS LAST_N : Z.
Variable renderDocx : string -> templateFields -> option string.

(** [String(process.pid)] *)
Variable pid : string.

(** Whether the lock file can be written and whether it can be removed:
    both calls sit in a [try] whose [catch] does nothing. *)
Variables lockWritable lockRemovable : bool.

(** [removeLock] *)
Definition removeLock (w : world) : world :=
  match lock w with
  | Some _ => if lockRemovable then MkWorld None (files w) else w
  | None => w
  end.

(** The statements at the top of the file, before the exit handler is
    registered: [None] when the lock is present and the process exits. *)
Definition startup (w : world) : option world :=
  match lock w with
  | Some _ => None
  | None => Some (if lockWritable then MkWorld (Some pid) (files w) else w)
  end.

(** The whole run: the exit code, the files it leaves and what it prints.
    [sheet] is what [getRows] resolves to or throws, [now] is [Date.now()]
    in the filter and [writeTime] the time of the writes.  A normal end
    runs [removeLock] in [finally] and again on exit; [process.exit(1)] in
    [catch] runs it once, on exit. *)
Definition main (sheet : completion (list sheetRow)) (now writeTime : Z) (w : world)
    : Z * world * list runLine :=
  match startup w with
  | None => (1, w, [ErrLockPresent])
  | Some w1 =>
      match sheet with
      | Threw msg => (1, removeLock w1, [ErrFailed msg])
      | Returned rows =>
          if (length rows =? 0)%nat then (0, removeLock (removeLock w1), [LogNoRows])
          else
            let '(rows1, log1) := daysFilter tza DEBUG DAYS now rows in
            let rows2 := lastRows LAST_N rows1 in
            match generateAll tza OUTPUT_DIR FORCE DRY renderDocx writeTime (files w1) rows2 0 with
            | (Returned generatedCount, fs', log2) =>
                (0, removeLock (removeLock (MkWorld (lock w1) fs')),
                 LogTotalRows (length rows) :: (LogGenerator <$> (log1 ++ log2))
                 ++ [LogSuccess generatedCount])
            | (Threw msg, fs', log2) =>
                (1, removeLock (MkWorld (lock w1) fs'),
                 LogTotalRows (length rows) :: (LogGenerator <$> (log1 ++ log2))
                 ++ [ErrFailed msg])
            end
      end
  end.

End Run.

End GeneratorRun.

(* ===================================================================== *)
(** ** Dates as [toISOString] prints them *)
(* ===================================================================== *)

Module JsIso.
Import JsString JsDate.

Fixpoint zeros (n : nat) : string :=
  match n with
  | O => EmptyString
  | S k => String "0" (zeros k)
  end.

(** [s.padStart(n, '0')] *)
Definition padStart (n : nat) (s : string) : string :=
  zeros (n - String.length s) +:+ s.

(** The date part of [new Date(t).toISOString()]: the UTC calendar date,
    the year with four digits, or with a sign and six digits outside
    0..9999. *)
Definition isoDatePart (t : Z) : string :=
  let '(y, m, d) := civilFromDays (Day t) in
  let year :=
    if (0 <=? y) && (y <=? 9999) then padStart 4 (stringOfInt y)
    else (if y <? 0 then "-" else "+") +:+ padStart 6 (stringOfInt (Z.abs y)) in
  year +:+ "-" +:+ padStart 2 (stringOfInt m) +:+ "-" +:+ padStart 2 (stringOfInt d).

(** [new Date(t).toISOString().slice(0, 10)] *)
Definition isoDate10 (t : Z) : string := substring 0 10 (isoDatePart t).

End JsIso.

(* ===================================================================== *)
(** ** The webhook receiver: [normalizeDateToISO] *)
(* ===================================================================== *)

Module Webhook.
Import JsString Regex JsIso.

(** [/^\s*(\d{1,2})[\/\-\.\s](\d{1,2})[\/\-\.\s](\d{2,4})\s*$/] *)
Definition numericRe : regex :=
  rseq [RBol; RRep CsSpace 0 None;
        RGroup 1 (RRep CsDigit 1 (Some 2%nat)); RSet FillFromSheet.sepSet;
        RGroup 2 (RRep CsDigit 1 (Some 2%nat)); RSet FillFromSheet.sepSet;
        RGroup 3 (RRep CsDigit 2 (Some 4%nat)); RRep CsSpace 0 None; REol].

Section Engine.

(** [Date.parse(raw)] on free text is left to the engine: the time value,
    [None] for NaN. *)
Variable nativeParse : string -> option Z.

(** [normalizeDateToISO(raw, preferDM)]; [parseInt(digits, 10)] is the
    number the digits write; the result [None] is [null]. *)
Definition normalizeDateToISO (raw : string) (preferDM : bool) : option string :=
  if negb (truthy raw) then None else
  let raw := trim raw in
  match nativeParse raw with
  | Some ts => Some (isoDate10 ts)
  | None =>
      match exec false numericRe raw with
      | Some parts =>
          let a := Number (group parts 1) in
          let b := Number (group parts 2) in
          let y := Number (group parts 3) in
          let y := if y <? 100 then y + (if 50 <? y then 1900 else 2000) else y in
          let '(day, month) :=
            if 12 <? a then (a, b) else if preferDM then (a, b) else (b, a) in
          if (1 <=? month) && (month <=? 12) && (1 <=? day) && (day <=? 31)
          then Some (padStart 4 (stringOfInt y) +:+ "-" +:+ padStart 2 (stringOfInt month)
                     +:+ "-" +:+ padStart 2 (stringOfInt day))
          else None
      | None => None
      end
  end.

End Engine.

End Webhook.

(* ===================================================================== *)
(** ** fillTemplate.js and the generator call of the poller *)
(* ===================================================================== *)

Module FillTemplate.
Import JsString Fs JsIso.

(** The data object handed to the template. *)
Record worksheetData : Type := MkData {
  NAME : string;
  DATE : string;
  JOB_NO : string;
  CUSTOMER : string;
  ADDRESS : string;
  WORKS_CARRIED_OUT : string;
  HOURS : string;
  WORK_STILL_TO_DO : string;
  WORKED_WITH : string;
  CERTIFICATE_SHARED : string;
  MATERIALS : string;
  EXTRAS : string;
  HOURS_EXTRA : string;
  EXTRA_MATERIALS : string;
  SUPPLIER : string;
  _raw_mapped : gmap string string
}.

(** [k.toUpperCase()]; the keys are the ASCII literals of the source. *)
Definition toUpperCase (s : string) : string := mapChars upperAscii s.

(** [mapped[k]] when it is there and [String(mapped[k]).length] is not 0. *)
Definition filled (mapped : gmap string string) (k : string) : option string :=
  match mapped !! k with
  | Some v => if truthy v then Some v else None
  | None => None
  end.

(** [get(keys, fallback)] *)
Fixpoint get (mapped : gmap string string) (keys : list string) (fallback : string) : string :=
  match keys with
  | [] => fallback
  | k :: more =>
      match filled mapped k with
      | Some v => v
      | None =>
          match filled mapped (toLowerCase k) with
          | Some v => v
          | None =>
              match filled mapped (toUpperCase k) with
              | Some v => v
              | None => get mapped more fallback
              end
          end
      end
  end.

(** The class of the pattern of [safe]: slash, backslash, [:], [?], [<],
    [>], [|] and the double quote. *)
Definition unsafeChar (c : ascii) : bool :=
  existsb (Ascii.eqb c) ["/"; "\"; ":"; "?"; "<"; ">"; "|"; "034"]%char.

(** [String(s).replace(/[...]/g, '-').replace(/\s+/g, '_')] *)
Definition safe (s : string) : string :=
  replaceRuns isWhiteSpace "_" false (replaceEach unsafeChar "-" s).

Inductive logLine : Type :=
| LogGenerated (outputFile : string)
| ErrFillTemplate (msg : string).

Section Main.

Variable OUTPUT_DIR : string.

(** PizZip and Docxtemplater; [None] when rendering throws. *)
Variable renderDocx : string -> worksheetData -> option string.

Definition dataOf (mapped : gmap string string) (now : Z) : worksheetData :=
  {| NAME := get mapped ["NAME"; "name"; "Full Name"; "FullName"] "No name provided";
     DATE := get mapped ["DATE"; "date"; "_created_at"] (isoDate10 now);
     JOB_NO := get mapped ["JOB_NO"; "job_no"; "Job No"; "jobNo"; "JOBNO"] "unknown";
     CUSTOMER := get mapped ["CUSTOMER"; "customer"; "Client"] "";
     ADDRESS := get mapped ["ADDRESS"; "address"] "";
     WORKS_CARRIED_OUT := get mapped ["WORKS_CARRIED_OUT"; "works"; "works_carried_out"] "";
     HOURS := get mapped ["HOURS"; "hours"] "";
     WORK_STILL_TO_DO := get mapped ["WORK_STILL_TO_DO"; "to_do"; "work_still_to_do"] "";
     WORKED_WITH := get mapped ["WORKED_WITH"; "worked_with"] "";
     CERTIFICATE_SHARED := get mapped ["CERTIFICATE_SHARED"; "certificate_shared"] "";
     MATERIALS := get mapped ["MATERIALS"; "materials"] "";
     EXTRAS := get mapped ["EXTRAS"; "extras"] "";
     HOURS_EXTRA := get mapped ["HOURS_EXTRA"; "hours_extra"] "";
     EXTRA_MATERIALS := get mapped ["EXTRA_MATERIALS"; "extra_materials"] "";
     SUPPLIER := get mapped ["SUPPLIER"; "supplier"] "";
     _raw_mapped := mapped |}.

(** The name of the artifact inside [OUTPUT_DIR]. *)
Definition outputName (data : worksheetData) : string :=
  "worksheet_" +:+ safe (JOB_NO data) +:+ "_" +:+ safe (DATE data) +:+ ".docx".

(** [main(mapped)], called at time [now] on the file system [fs]: the
    path of the file written, or the error thrown again after it was
    printed. *)
Definition main (mapped : gmap string string) (now : Z) (fs : FS)
    : completion string * FS * list logLine :=
  match template fs with
  | None => (Threw "Template not found", fs, [ErrFillTemplate "Template not found"])
  | Some content =>
      let data := dataOf mapped now in
      match renderDocx content data with
      | None => (Threw "render failed", fs, [ErrFillTemplate "render failed"])
      | Some buf =>
          let fs := ensureOutputDir fs in
          let outputFile := pathJoin OUTPUT_DIR (outputName data) in
          match writeOutputFile fs (outputName data) buf now with
          | Returned fs' => (Returned outputFile, fs', [LogGenerated outputFile])
          | Threw e => (Threw e, fs, [ErrFillTemplate e])
          end
      end
  end.

(** The script run as a command: it reads the JSON text of [mapped] from
    its standard input, calls [main] and exits with 0, or with 1 when
    [main] throws. *)
Definition runAsCommand (mapped : gmap string string) (now : Z) (fs : FS) : Z * FS :=
  match main mapped now fs with
  | (Returned _, fs', _) => (0, fs')
  | (Threw _, fs', _) => (1, fs')
  end.

End Main.

End FillTemplate.

Module PollGenerate.
Import JsString Fs.

(** A function value: its formal parameters, each with the mark of a
    default value, and what a call does.  The argument [None] is a call
    without arguments. *)
Record jsFunction : Type := MkFn {
  params : list (string * bool);
  call : option (gmap string string) -> Z -> FS -> completion unit * FS
}.

(** [fn.length]: the number of parameters before the first one that has
    a default value. *)
Fixpoint countPlain (ps : list (string * bool)) : nat :=
  match ps with
  | (_, false) :: more => S (countPlain more)
  | _ => O
  end.

Definition fnLength (fn : jsFunction) : nat := countPlain (params fn).

(** What [require(modulePath)] gives: the module itself when it is a
    function, and its properties that are functions. *)
Record moduleExports : Type := MkModule {
  asFunction : option jsFunction;
  property : string -> option jsFunction
}.

Inductive event : Type :=
| WarnNoModule
| WarnCallFailed (msg : string)
| WarnNoCallableExport
| WarnRequireFailed
| WarnSpawnFailed.

Definition exportNames : list string :=
  ["generate"; "fillTemplate"; "fill"; "create"; "run"; "main"; "process"; "createDocument"].

(** [candidates], in the order the source pushes them. *)
Definition candidates (m : moduleExports) : list jsFunction :=
  option_list (asFunction m) ++ option_list (property m "default")
  ++ omap (property m) exportNames.

Section Generate.

(** [server/fillTemplate.js]: [None] when the file does not exist,
    [Some None] when [require] throws. *)
Variable moduleFile : option (option moduleExports).

(** The script spawned as a command with [mapped] on its standard input:
    its exit code, [None] when the process cannot be started. *)
Variable spawn : gmap string string -> Z -> FS -> option Z * FS.

Definition spawnFallback (mapped : gmap string string) (now : Z) (fs : FS)
    (log : list event) : bool * FS * list event :=
  match spawn mapped now fs with
  | (Some code, fs') => (code =? 0, fs', log)
  | (None, fs') => (false, fs', log ++ [WarnSpawnFailed])
  end.

(** [generate(mapped)] of the poller. *)
Definition generate (mapped : gmap string string) (now : Z) (fs : FS)
    : bool * FS * list event :=
  match moduleFile with
  | None => (false, fs, [WarnNoModule])
  | Some None => spawnFallback mapped now fs [WarnRequireFailed]
  | Some (Some m) =>
      match candidates m with
      | [] => spawnFallback mapped now fs [WarnNoCallableExport]
      | fn :: _ =>
          match call fn (if (0 <? fnLength fn)%nat then Some mapped else None) now fs with
          | (Returned _, fs') => (true, fs', [])
          | (Threw msg, fs') => spawnFallback mapped now fs' [WarnCallFailed msg]
          end
      end
  end.

End Generate.

(** [module.exports = main] of [fillTemplate.js], where [main] is
    declared as [async function main(mapped = {})]. *)
Definition fillTemplateModule (OUTPUT_DIR : string)
    (renderDocx : string -> FillTemplate.worksheetData -> option string) : moduleExports :=
  MkModule
    (Some (MkFn [("mapped", true)]
             (fun arg now fs =>
                match FillTemplate.main OUTPUT_DIR renderDocx (default ∅ arg) now fs with
                | (Returned _, fs', _) => (Returned tt, fs')
                | (Threw e, fs', _) => (Threw e, fs')
                end)))
    (fun _ => None).

(** The same script spawned as a command. *)
Definition fillTemplateCommand (OUTPUT_DIR : string)
    (renderDocx : string -> FillTemplate.worksheetData -> option string)
    (mapped : gmap string string) (now : Z) (fs : FS) : option Z * FS :=
  let '(code, fs') := FillTemplate.runAsCommand OUTPUT_DIR renderDocx mapped now fs in
  (Some code, fs').

End PollGenerate.

(* ===================================================================== *)
(** * Vocabulary of the statements *)
(* ===================================================================== *)

(** Definitions that the statements below use: orders and shapes stated on
    their own, the inputs of the examples, and the views of a result that a
    statement compares. *)

(** The lexicographic order on code units, stated on its own. *)
Inductive lexLe : string -> string -> Prop :=
| lexLe_empty (t : string) : lexLe "" t
| lexLe_less (a b : ascii) (s t : string) :
    JsString.code a < JsString.code b -> lexLe (String a s) (String b t)
| lexLe_same (a : ascii) (s t : string) :
    lexLe s t -> lexLe (String a s) (String a t).

(** A submission passes the gate of the loop when it has an identifier
    and the watermark does not cover it. *)
Definition passesGate (last sid : string) : bool :=
  JsString.truthy sid && negb (PollJotform.alreadySeen last sid).

(** A listed submission that carries only its identifier. *)
Definition bareSubmission (sid : string) : PollJotform.submission :=
  PollJotform.MkSubmission (Some sid) None None (Some []).

(** A generator that fails on one submission (it throws when [throws],
    it resolves to [false] otherwise) and succeeds on every other one. *)
Definition failsOn (sid : string) (throws : bool) (mapped : gmap string string)
    : PollJotform.genOutcome :=
  if bool_decide (mapped !! "_submission_id" = Some sid)
  then (if throws then PollJotform.GenThrows else PollJotform.GenFalse)
  else PollJotform.GenTrue.

(** The same wall-clock date seen from the zone [tza]. *)
Definition inZone (tza : Z) (d : JsDate.Date) : JsDate.Date :=
  JsDate.MkDate (JsDate.timeValue d - tza).

Definition parsedInZone (tza : Z) (p : FillFromSheet.parsed) : FillFromSheet.parsed :=
  FillFromSheet.MkParsed (inZone tza <$> FillFromSheet.date p) (FillFromSheet.kind p).

(** The integrity check of the date token lets the name through. *)
Definition tokenAccepted (tza : Z) (data : SheetRow.templateFields) : bool :=
  String.eqb (FillFromSheet.safeDateOf tza (SheetRow.DATE data)) "nodate"
  || Regex.test false FillFromSheet.FINAL_DATE_REGEX
       (FillFromSheet.safeDateOf tza (SheetRow.DATE data)).

(** The record of the scenario: Date 5/1/26, Name J Smith, Job Number 42. *)
Definition scenarioRow : SheetRow.sheetRow :=
  SheetRow.MkRow [] [("Date", "5/1/26"); ("Name", "J Smith"); ("Job Number", "42")].

(** What [safeFilename] does to one character. *)
Definition dashIfHostile (c : ascii) : ascii :=
  if FillFromSheet.pathHostile c then "-"%char else c.

(** A row is inside the window: its date resolves and is not before the cutoff. *)
Definition withinWindow (tza cutoff : Z) (r : SheetRow.sheetRow) : bool :=
  match FillFromSheet.date
          (FillFromSheet.parseDateDeterministic tza (FillFromSheet.dateStrOf r)) with
  | Some d => cutoff <=? JsDate.getTime d
  | None => false
  end.

(** A stand-in for the engine's own parser on the one string used below:
    it reads 05/01/2026 month first, as 1 May 2026. *)
Definition monthFirstNative (tza : Z) (s : string) : option JsDate.Date :=
  if String.eqb s "05/01/2026" then Some (JsDate.newDate tza 2026 4 1) else None.

(** [a] may stand before [b] in the sorted list: it is not older. *)
Definition notOlder (a b : LegacyGenerator.entry) : Prop :=
  LegacyGenerator.mtime b <= LegacyGenerator.mtime a.

(** The texts of a list in the order in which each is first seen. *)
Definition firstSeen (ks : list string) : list string :=
  fold_left (fun acc k => if bool_decide (k ∈ acc) then acc else acc ++ [k]) ks [].

(** The cell of the last column that carries the header text [k]. *)
Definition lastCell (cols : list (string * string)) (k : string) : option string :=
  snd <$> last (filter (fun kv : string * string => kv.1 = k) cols).

(** The columns that a lookup of the normal form [N] can see: their
    header has this normal form and is neither [__row], which
    [mapSheetRowToTemplateFields] leaves out, nor [__proto__], which adds
    no property to the row object. *)
Definition matchingColumns (N : string) (cols : list (string * string))
    : list (string * string) :=
  filter (fun kv : string * string =>
            SheetRow.normalize kv.1 = N /\ kv.1 <> "__row" /\ kv.1 <> "__proto__") cols.

(** The listing gives every name of the folder, each once. *)
Definition listsFolder (readdirSync : gmap string Fs.node -> list string)
    (entries : gmap string Fs.node) : Prop :=
  readdirSync entries ≡ₚ (map_to_list entries).*1.

(** A listing in the order opposite to the one of [map_to_list]. *)
Definition listReversed (entries : gmap string Fs.node) : list string :=
  reverse (map_to_list entries).*1.

(** The entry that [unlinkSync] leaves under a name. *)
Definition afterUnlink (o : option Fs.node) : option Fs.node :=
  match o with
  | Some (Fs.File _ _) => None
  | other => other
  end.

(** A folder with three documents, one text file and one folder whose
    name ends in [.docx]. *)
Definition sampleFolder : gmap string Fs.node :=
  <["a.docx" := Fs.File "A" 10]> (<["b.DOCX" := Fs.File "B" 30]>
  (<["c.docx" := Fs.Folder 5]> (<["d.txt" := Fs.File "D" 1]>
  (<["e.docx" := Fs.File "E" 20]> ∅)))).

(** The separators that the claim lists. *)
Definition isSepChar (c : ascii) : bool :=
  existsb (Ascii.eqb c) ["/"; "-"; "."; " "]%char.

(** A run of [lo] to [hi] decimal digits. *)
Definition isDigits (lo hi : nat) (p : string) : bool :=
  JsString.allChars JsString.isDigit p
  && (lo <=? String.length p)%nat && (String.length p <=? hi)%nat.

(** The last character is not white space. *)
Fixpoint endsNonBlank (s : string) : bool :=
  match s with
  | EmptyString => false
  | String c EmptyString => negb (JsString.isWhiteSpace c)
  | String _ s' => endsNonBlank s'
  end.

(** The input of the textual patterns: commas become blanks, runs of
    white space one blank, and the ends are trimmed. *)
Definition cleanedOf (s : string) : string :=
  JsString.trim
    (JsString.replaceRuns JsString.isWhiteSpace " " false
       (JsString.replaceEach (Ascii.eqb ",") " " (JsString.trim s))).

(** The year of the numeric shape: a year below 100 means 2000 + year. *)
Definition numericYear (rawYear : Z) : Z :=
  if rawYear <? 100 then 2000 + rawYear else rawYear.

(** [shapeRead s day month year]: the day, month and year that the
    resolver reads off [s], by the first shape that applies. *)
Inductive shapeRead (s : string) : Z -> Z -> Z -> Prop :=
| ReadNumeric (m : gmap nat string) :
    Regex.exec false FillFromSheet.numericDmyRe (JsString.trim s) = Some m ->
    shapeRead s (JsString.Number (Regex.group m 1)) (JsString.Number (Regex.group m 2))
              (numericYear (JsString.Number (Regex.group m 3)))
| ReadIso (m : gmap nat string) :
    Regex.exec false FillFromSheet.numericDmyRe (JsString.trim s) = None ->
    Regex.exec false FillFromSheet.isoRe (JsString.trim s) = Some m ->
    shapeRead s (JsString.Number (Regex.group m 3)) (JsString.Number (Regex.group m 2))
              (JsString.Number (Regex.group m 1))
| ReadDayFirst (m : gmap nat string) (month : Z) :
    Regex.exec false FillFromSheet.numericDmyRe (JsString.trim s) = None ->
    Regex.exec false FillFromSheet.isoRe (JsString.trim s) = None ->
    Regex.exec true FillFromSheet.textDayFirstRe (cleanedOf s) = Some m ->
    FillFromSheet.monthNames (JsString.toLowerCase (Regex.group m 2)) = Some month ->
    shapeRead s (JsString.Number (Regex.group m 1)) month (JsString.Number (Regex.group m 3))
| ReadMonthFirst (m : gmap nat string) (month : Z) :
    Regex.exec false FillFromSheet.numericDmyRe (JsString.trim s) = None ->
    Regex.exec false FillFromSheet.isoRe (JsString.trim s) = None ->
    Regex.exec true FillFromSheet.textMonthFirstRe (cleanedOf s) = Some m ->
    FillFromSheet.monthNames (JsString.toLowerCase (Regex.group m 1)) = Some month ->
    shapeRead s (JsString.Number (Regex.group m 2)) month (JsString.Number (Regex.group m 3)).

(** The Gregorian calendar, stated on its own. *)
Definition isLeapYear (y : Z) : bool :=
  ((y mod 4 =? 0) && negb (y mod 100 =? 0)) || (y mod 400 =? 0).

Definition daysInMonth (y m : Z) : Z :=
  if m =? 2 then (if isLeapYear y then 29 else 28)
  else if (m =? 4) || (m =? 6) || (m =? 9) || (m =? 11) then 30
  else 31.

(** The month after [m] of the year [y]. *)
Definition nextMonth (y m : Z) : Z * Z :=
  if m =? 12 then (y + 1, 1) else (y, m + 1).

(** The submissions that a cycle hands to the generator and that the
    generator reports as done. *)
Definition succeeded (generate : gmap string string -> PollJotform.genOutcome)
    (mark : string) (s : PollJotform.submission) : bool :=
  passesGate mark (PollJotform.sidOf s)
  && match generate (PollJotform.mapSubmission s) with
     | PollJotform.GenTrue => true
     | _ => false
     end.

(** The rows handed to [appendRowToSheet], in order. *)
Definition appended (evs : list PollJotform.event) : list (list string) :=
  omap (fun e => match e with PollJotform.EvAppendRow row => Some row | _ => None end) evs.

(** The key and the value that [mapSubmission] takes from one answer. *)
Definition answerKey (ka : string * PollJotform.answer) : string :=
  PollJotform.strOf
    (PollJotform.orOpt (PollJotform.orOpt (PollJotform.aName ka.2) (PollJotform.aText ka.2))
       (Some ("q" +:+ ka.1))).

Definition answerValue (ka : string * PollJotform.answer) : string :=
  match PollJotform.aAnswer ka.2, PollJotform.aPrettyFormat ka.2, PollJotform.aText ka.2 with
  | Some v, _, _ => v
  | None, Some v, _ => v
  | None, None, Some v => v
  | None, None, None => ""
  end.

(** A renderer that accepts every record, and a row dated in the year 100. *)
Definition plainRenderer (content : string) (data : SheetRow.templateFields) : option string :=
  Some ("docx of " +:+ SheetRow.NAME data).

Definition earlyYearRow : SheetRow.sheetRow :=
  SheetRow.MkRow [] [("Date", "5/1/0100"); ("Name", "A Jones"); ("Job Number", "7")].

(** The choice of [parseDateCandidates] among its candidates, stated on
    its own: the day-first one, else the engine's, else the first. *)
Definition chooseOf (cs : list LegacyGenerator.candidate)
    : option JsDate.Date * option LegacyGenerator.candKind :=
  match cs with
  | [] => (None, None)
  | first :: _ =>
      match LegacyGenerator.findKind LegacyGenerator.Cdmy cs with
      | Some c => (Some (LegacyGenerator.cdate c), Some LegacyGenerator.Cdmy)
      | None =>
          let chosen := default first (LegacyGenerator.findKind LegacyGenerator.Cnative cs) in
          (Some (LegacyGenerator.cdate chosen), Some (LegacyGenerator.ckind chosen))
      end
  end.

(** Month [m] and day [d] name a day of the year [y]. *)
Definition inCalendar (y m d : Z) : bool :=
  (1 <=? m) && (m <=? 12) && (1 <=? d) && (d <=? daysInMonth y m).

(** An engine whose own parser rejects every string. *)
Definition noNativeParse (s : string) : option JsDate.Date := None.

(* ===================================================================== *)
(** * Properties *)
(* ===================================================================== *)

(** The calendar arithmetic is kept folded in proofs about symbolic dates;
    concrete dates are computed. *)
Opaque JsDate.civilFromDays JsDate.daysFromCivil.

(** ** Strings: the order that [<=] gives *)

Section StringFacts.
Import JsString.

Lemma code_inj (a b : ascii) : code a = code b -> a = b.
Proof.
  unfold code. intros H. apply Nat2Z.inj in H.
  rewrite <- (ascii_nat_embedding a), <- (ascii_nat_embedding b). by rewrite H.
Qed.

Lemma isLessThan_cons_same (a : ascii) (s t : string) :
  isLessThan (String a s) (String a t) = isLessThan s t.
Proof. unfold isLessThan. simpl. by rewrite Ascii.eqb_refl. Qed.

Lemma isLessThan_cons_diff (a b : ascii) (s t : string) :
  a <> b -> isLessThan (String a s) (String b t) = (code a <? code b).
Proof.
  intros Hne. unfold isLessThan. simpl.
  destruct (Ascii.eqb_spec b a) as [->|_]; [done|].
  destruct (Ascii.eqb_spec a b) as [->|_]; [done|]. done.
Qed.

(** The comparison of the poller is the lexicographic order. *)
Lemma leStr_lexLe (a b : string) : leStr a b = true <-> lexLe a b.
Proof.
  revert b. induction a as [|x a IH]; intros b.
  - split; [constructor|]. intros _. unfold leStr, isLessThan. by destruct b.
  - destruct b as [|y b].
    + split; [|inversion 1]. unfold leStr, isLessThan. simpl. discriminate.
    + destruct (decide (x = y)) as [->|Hne].
      * unfold leStr. rewrite isLessThan_cons_same. fold (leStr a b). rewrite IH.
        split; [by constructor|]. inversion 1; subst; [lia|done].
      * unfold leStr. rewrite isLessThan_cons_diff by congruence.
        rewrite negb_true_iff, Z.ltb_ge. split.
        -- intros Hle. apply lexLe_less.
           assert (code x <> code y) by (intros E; by apply code_inj in E). lia.
        -- inversion 1; subst; [lia|done].
Qed.

Lemma truthy_true (s : string) : truthy s = true <-> s <> "".
Proof. destruct s; simpl; split; congruence. Qed.

End StringFacts.

(** ** The poller: which submissions a cycle hands to the generator *)

Section PollFacts.
Import JsString PollJotform.

Variable generate : gmap string string -> genOutcome.

Lemma pollLoop_offered (last : string) (subs : list submission) (newestSeen : string) :
  offered (pollLoop generate last subs newestSeen).2
  = List.filter (passesGate last) (sidOf <$> subs).
Proof.
  revert newestSeen. induction subs as [|s subs IH]; intros newestSeen; [done|].
  simpl. unfold passesGate at 1.
  destruct (truthy (sidOf s)); simpl; [|apply IH].
  destruct (alreadySeen last (sidOf s)); simpl; [apply IH|].
  destruct (generate (mapSubmission s)).
  - specialize (IH (sidOf s)). destruct (pollLoop _ _ _ (sidOf s)) as [n evs].
    simpl in *. by rewrite IH.
  - specialize (IH newestSeen). destruct (pollLoop _ _ _ newestSeen) as [n evs].
    simpl in *. by rewrite IH.
  - specialize (IH newestSeen). destruct (pollLoop _ _ _ newestSeen) as [n evs].
    simpl in *. by rewrite IH.
Qed.

Lemma offered_app (xs ys : list event) : offered (xs ++ ys) = offered xs ++ offered ys.
Proof. unfold offered. apply omap_app. Qed.

Lemma processNew_offered (listed : list submission) (st : pollState) :
  offered (processNew generate (Some listed) st).2
  = List.filter (passesGate (readLastProcessed st)) (sidOf <$> rev listed).
Proof.
  unfold processNew. destruct listed as [|s0 listed]; [done|].
  set (subs := rev (s0 :: listed)).
  pose proof (pollLoop_offered (readLastProcessed st) subs (readLastProcessed st)) as H.
  destruct (pollLoop _ _ _ _) as [n evs]. simpl in H.
  destruct (truthy n && negb (n =? readLastProcessed st)%string); [|done].
  unfold writeLastProcessed. destruct (lastWritable st); simpl.
  - by rewrite app_nil_r.
  - rewrite offered_app. simpl. by rewrite app_nil_r.
Qed.

End PollFacts.

(** C10.  The watermark gate compares identifiers as strings: a
    submission that has an identifier is skipped exactly when the stored
    watermark is not empty and the identifier is at most the watermark in
    the lexicographic order of code units; a cycle hands to the generator
    the listed identifiers that pass this gate, oldest first; and the
    order is not the numeric one, since 999 is not below 1000 as text. *)
Theorem watermark_gate_is_lexicographic :
  (forall last sid : string,
      PollJotform.alreadySeen last sid = true <-> last <> "" /\ lexLe sid last)
  /\ (forall generate listed st,
      PollJotform.offered (PollJotform.processNew generate (Some listed) st).2
      = List.filter
          (fun sid => JsString.truthy sid
                      && negb (PollJotform.alreadySeen (PollJotform.readLastProcessed st) sid))
          (PollJotform.sidOf <$> rev listed))
  /\ PollJotform.alreadySeen "1000" "999" = false
  /\ PollJotform.alreadySeen "999" "1000" = true
  /\ lexLe "1000" "999" /\ ~ lexLe "999" "1000".
Proof.
  split; [|split; [|split; [|split; [|split]]]].
  - intros last sid. unfold PollJotform.alreadySeen.
    rewrite andb_true_iff, truthy_true, leStr_lexLe. done.
  - intros generate listed st. apply processNew_offered.
  - reflexivity.
  - reflexivity.
  - apply leStr_lexLe. reflexivity.
  - intros H. apply leStr_lexLe in H. discriminate H.
Qed.

(** ** The poller: a failed submission below a successful one *)

(** C1, evaluated on the code.  The list holds 101 and 102, no watermark
    is stored, generation fails for 101 and succeeds for 102.  The cycle
    stores 102 as the watermark, which is past 101, and the next cycle
    hands nothing to the generator: 101 is never offered again. *)
Theorem watermark_moves_past_failed_submission :
  let listed := Some [bareSubmission "102"; bareSubmission "101"] in
  let st0 := PollJotform.MkPoll None true in
  forall throws : bool,
    let cycle1 := PollJotform.processNew (failsOn "101" throws) listed st0 in
    PollJotform.offered cycle1.2 = ["101"; "102"]
    /\ (In (PollJotform.ErrGeneratorFailed "101") cycle1.2
        \/ In (PollJotform.WarnGeneratorFalse "101") cycle1.2)
    /\ PollJotform.lastFile cycle1.1 = Some "102"
    /\ PollJotform.alreadySeen "102" "101" = true
    /\ forall generate,
         PollJotform.offered (PollJotform.processNew generate listed cycle1.1).2 = [].
Proof.
  intros listed st0 throws cycle1.
  assert (Hst : cycle1.1 = PollJotform.MkPoll (Some "102") true)
    by (destruct throws; reflexivity).
  split; [by destruct throws|].
  split; [destruct throws; [left|right]; vm_compute; tauto|].
  split; [by rewrite Hst|].
  split; [reflexivity|].
  intros generate. rewrite Hst. unfold listed.
  rewrite processNew_offered. reflexivity.
Qed.

(** ** Dates: the zone offset cancels in the calendar components *)

Section ZoneFacts.
Import JsString Regex JsDate FillFromSheet.

Variable tza : Z.

Lemma newDate_zone (y m d : Z) : newDate tza y m d = inZone tza (newDate 0 y m d).
Proof. unfold newDate, inZone, UTC. simpl. f_equal. lia. Qed.

Lemma localCivil_zone (d : Date) : localCivil tza (inZone tza d) = localCivil 0 d.
Proof. unfold localCivil, inZone, LocalTime. simpl. do 2 f_equal. lia. Qed.

Lemma sameComponents_zone (d : Date) (y m dd : Z) :
  sameComponents tza (inZone tza d) y m dd = sameComponents 0 d y m dd.
Proof.
  unfold sameComponents, getFullYear, getMonth, getDate. by rewrite localCivil_zone.
Qed.

Lemma textCandidate_zone (day : Z) (month : option Z) (year : Z) :
  textCandidate tza day month year = parsedInZone tza <$> textCandidate 0 day month year.
Proof.
  unfold textCandidate. destruct month as [month|]; [|done].
  destruct (_ && _); [|done].
  rewrite newDate_zone, sameComponents_zone. by destruct (sameComponents 0 _ _ _ _).
Qed.

(** Resolution does not depend on the zone, up to the instant that the
    resolved local midnight denotes. *)
Lemma parseDateDeterministic_zone (s : string) :
  parseDateDeterministic tza s = parsedInZone tza (parseDateDeterministic 0 s).
Proof.
  unfold parseDateDeterministic. destruct (negb (truthy s)); [done|].
  destruct (exec false numericDmyRe (trim s)) as [m|].
  { destruct (_ && _); [|done].
    rewrite newDate_zone, sameComponents_zone. by destruct (sameComponents 0 _ _ _ _). }
  destruct (exec false isoRe (trim s)) as [m|].
  { rewrite newDate_zone, sameComponents_zone. by destruct (sameComponents 0 _ _ _ _). }
  destruct (exec true textDayFirstRe _) as [m|].
  { rewrite textCandidate_zone. destruct (textCandidate 0 _ _ _) as [r|]; [done|].
    cbn [fmap option_fmap option_map].
    destruct (exec true textMonthFirstRe _) as [m'|]; [|done].
    rewrite textCandidate_zone. by destruct (textCandidate 0 _ _ _). }
  destruct (exec true textMonthFirstRe _) as [m'|]; [|done].
  rewrite textCandidate_zone. by destruct (textCandidate 0 _ _ _).
Qed.

Lemma formatDateForFilename_zone (d : option Date) :
  formatDateForFilename tza (inZone tza <$> d) = formatDateForFilename 0 d.
Proof.
  destruct d as [d|]; [|done]. unfold formatDateForFilename. simpl.
  unfold getFullYear, getMonth, getDate. by rewrite localCivil_zone.
Qed.

Lemma normalizeRawDateForFilename_zone (raw : string) :
  normalizeRawDateForFilename tza raw = normalizeRawDateForFilename 0 raw.
Proof.
  unfold normalizeRawDateForFilename. destruct (negb (truthy raw)); [done|].
  destruct (exec false numericDmyRe (trim raw)) as [m|]; [|done].
  by rewrite newDate_zone, sameComponents_zone.
Qed.

(** The date token of a file name is the same in every zone. *)
Lemma safeDateOf_zone (raw : string) : safeDateOf tza raw = safeDateOf 0 raw.
Proof.
  unfold safeDateOf. rewrite parseDateDeterministic_zone, normalizeRawDateForFilename_zone.
  destruct (parseDateDeterministic 0 raw) as [[d|] k]; [|done].
  cbn [date parsedInZone fmap option_fmap option_map].
  by rewrite <- (formatDateForFilename_zone (Some d)).
Qed.

Lemma outputName_zone (data : SheetRow.templateFields) :
  outputName tza data = outputName 0 data.
Proof. unfold outputName. by rewrite safeDateOf_zone. Qed.

End ZoneFacts.

(** ** The writer: existing targets, forced writes and dry runs *)

Section CreateDocxFacts.
Import JsString Regex JsDate Fs SheetRow FillFromSheet.

Variable tza : Z.
Variable OUTPUT_DIR : string.
Variable renderDocx : string -> templateFields -> option string.

Local Abbreviation createDocx FORCE DRY := (FillFromSheet.createDocx tza OUTPUT_DIR FORCE DRY renderDocx).

Local Arguments FillFromSheet.outputName : simpl never.
Local Arguments FillFromSheet.safeDateOf : simpl never.
Local Arguments Regex.test : simpl never.
Local Arguments FillFromSheet.parseDateDeterministic : simpl never.
Local Arguments Fs.pathJoin : simpl never.

Lemma ensureOutputDir_exists (fs : FS) (name : string) :
  existsInOutput fs name = true -> ensureOutputDir fs = fs.
Proof. unfold existsInOutput, ensureOutputDir. by destruct (outdir fs). Qed.

Lemma ensureOutputDir_template (fs : FS) : template (ensureOutputDir fs) = template fs.
Proof. unfold ensureOutputDir. by destruct (outdir fs). Qed.

Lemma ensureOutputDir_entries (fs : FS) :
  outdir (ensureOutputDir fs) = Some (default ∅ (outdir fs)).
Proof. by destruct fs as [t [entries|]]. Qed.

Lemma existsInOutput_lookup (fs : FS) (name : string) :
  existsInOutput fs name = true <-> is_Some (default ∅ (outdir fs) !! name).
Proof.
  unfold existsInOutput. destruct (outdir fs) as [entries|]; simpl.
  - by rewrite bool_decide_eq_true.
  - rewrite lookup_empty. split; [done|]. by intros [? ?].
Qed.

Lemma token_check (data : templateFields) :
  negb (String.eqb (safeDateOf tza (DATE data)) "nodate")
  && negb (test false FINAL_DATE_REGEX (safeDateOf tza (DATE data)))
  = negb (tokenAccepted tza data).
Proof. unfold tokenAccepted. by rewrite negb_orb. Qed.

Lemma createDocx_skip (DRY : bool) (now : Z) (fs : FS) (data : templateFields) res fs' log :
  existsInOutput fs (outputName tza data) = true ->
  createDocx false DRY now fs data = (res, fs', log) ->
  fs' = fs /\ forall out, res = Returned out ->
     skipped out = true /\ path out = pathJoin OUTPUT_DIR (outputName tza data).
Proof.
  intros Hex. unfold FillFromSheet.createDocx.
  destruct (template fs) as [content|]; [|intros [= <- <- <-]; by split].
  rewrite (ensureOutputDir_exists _ _ Hex).
  destruct (renderDocx content data) as [buf|]; [|intros [= <- <- <-]; by split].
  rewrite token_check. destruct (tokenAccepted tza data); simpl.
  - rewrite Hex. simpl. intros [= <- <- <-]. split; [done|]. by intros out [= <-].
  - intros [= <- <- <-]. by split.
Qed.

Lemma writeOutputFile_ok (fs : FS) (name buf : string) (now : Z) (fs' : FS) :
  writeOutputFile fs name buf now = Returned fs' ->
  template fs' = template fs
  /\ outdir fs' = Some (<[name := File buf now]> (default ∅ (outdir fs))).
Proof.
  unfold writeOutputFile. destruct (outdir fs) as [entries|]; [|done].
  destruct (entries !! name) as [[]|]; intros [= <-]; done.
Qed.

(** What a call that returns leaves behind: the target exists, the
    template is still there, and no other name appeared. *)
Lemma createDocx_returned (FORCE DRY : bool) (now : Z) (fs : FS) (data : templateFields)
    out fs' log :
  createDocx FORCE DRY now fs data = (Returned out, fs', log) ->
  template fs' = template fs
  /\ path out = pathJoin OUTPUT_DIR (outputName tza data)
  /\ tokenAccepted tza data = true
  /\ (exists content, template fs = Some content /\ is_Some (renderDocx content data))
  /\ (dry out = false -> existsInOutput fs' (outputName tza data) = true)
  /\ (dry out = false ->
      dom (default ∅ (outdir fs')) = dom (default ∅ (outdir fs)) ∪ {[outputName tza data]}).
Proof.
  unfold FillFromSheet.createDocx.
  destruct (template fs) as [content|] eqn:Ht; [|intros [=]].
  destruct (renderDocx content data) as [buf|] eqn:Hr; [|intros [=]].
  rewrite token_check. destruct (tokenAccepted tza data); cbn [negb]; [|intros [=]].
  assert (forall fs2,
    writeOutputFile (ensureOutputDir fs) (outputName tza data) buf now = Returned fs2 ->
    template fs2 = Some content
    /\ existsInOutput fs2 (outputName tza data) = true
    /\ dom (default ∅ (outdir fs2)) = dom (default ∅ (outdir fs)) ∪ {[outputName tza data]})
    as Hwrite.
  { intros fs2 Hw. apply writeOutputFile_ok in Hw as [Hw1 Hw2].
    rewrite Hw1, ensureOutputDir_template. split; [exact Ht|]. split.
    - apply existsInOutput_lookup. rewrite Hw2. cbn [from_option id].
      rewrite lookup_insert_eq. by eexists.
    - rewrite Hw2, ensureOutputDir_entries. cbn [from_option id].
      rewrite dom_insert_L. set_solver. }
  assert (exists c, Some content = Some c /\ is_Some (renderDocx c data)) as Hc.
  { exists content. split; [reflexivity|]. rewrite Hr. by eexists. }
  destruct (existsInOutput (ensureOutputDir fs) (outputName tza data)) eqn:Hex;
    destruct FORCE; cbn [negb andb]; destruct DRY;
    try (destruct (writeOutputFile _ _ _ _) as [fs2|] eqn:Hw; [|intros [=]];
         destruct (Hwrite fs2 eq_refl) as (? & ? & ?));
    intros [= <- <- <-]; rewrite ?ensureOutputDir_template;
    repeat (split; [first [assumption | reflexivity | intros [=] | intros _; assumption]|]);
    try first [assumption | intros [=] | intros _; assumption].
  all: try assumption.
  all: apply existsInOutput_lookup in Hex;
    rewrite ensureOutputDir_entries in *; cbn [from_option id] in *;
    apply elem_of_dom in Hex; set_solver.
Qed.


Lemma createDocx_not_dry (FORCE : bool) (now : Z) (fs : FS) (data : templateFields)
    out fs' log :
  createDocx FORCE false now fs data = (Returned out, fs', log) -> dry out = false.
Proof.
  unfold FillFromSheet.createDocx.
  destruct (template fs); [|intros [=]].
  destruct (renderDocx _ data); [|intros [=]].
  destruct (_ && _); [intros [=]|].
  destruct (_ && _); [by intros [= <- <- <-]|].
  destruct (writeOutputFile _ _ _ _); [by intros [= <- <- <-]|intros [=]].
Qed.

Lemma createDocx_twice (now1 now2 : Z) (fs : FS) (data : templateFields) out1 fs1 log1 :
  createDocx false false now1 fs data = (Returned out1, fs1, log1) ->
  exists log2,
    createDocx false false now2 fs1 data
    = (Returned (MkResult true (path out1) false), fs1, log2).
Proof.
  intros H1. pose proof (createDocx_not_dry _ _ _ _ _ _ _ H1) as Hdry.
  pose proof (createDocx_returned _ _ _ _ _ _ _ _ H1)
    as (Ht & Hp & Htok & (content & Hc & [buf Hb]) & Hex & _).
  specialize (Hex Hdry).
  unfold FillFromSheet.createDocx.
  rewrite Ht, Hc, (ensureOutputDir_exists _ _ Hex), Hb, token_check, Htok, Hex, Hp.
  cbn [negb andb]. by eexists.
Qed.

Lemma createDocx_force (now : Z) (fs : FS) (data : templateFields) (content buf : string) :
  template fs = Some content ->
  renderDocx content data = Some buf ->
  tokenAccepted tza data = true ->
  (forall t, default ∅ (outdir fs) !! outputName tza data <> Some (Folder t)) ->
  exists log,
    createDocx true false now fs data
    = (Returned (MkResult false (pathJoin OUTPUT_DIR (outputName tza data)) false),
       MkFS (Some content)
            (Some (<[outputName tza data := File buf now]> (default ∅ (outdir fs)))),
       log).
Proof.
  intros Ht Hr Htok Hnf. unfold FillFromSheet.createDocx.
  rewrite Ht, Hr, token_check, Htok. cbn [negb]. rewrite andb_false_r.
  unfold writeOutputFile. rewrite ensureOutputDir_entries, ensureOutputDir_template, Ht.
  destruct (default ∅ (outdir fs) !! outputName tza data) as [[c t|t]|] eqn:Hl;
    [by eexists|by destruct (Hnf t)|by eexists].
Qed.

(** The first generation of a record: skip-if-exists writes the file when
    no entry of that name is there. *)
Lemma createDocx_first (now : Z) (fs : FS) (data : templateFields) (content buf : string) :
  template fs = Some content ->
  renderDocx content data = Some buf ->
  tokenAccepted tza data = true ->
  existsInOutput fs (outputName tza data) = false ->
  exists log,
    createDocx false false now fs data
    = (Returned (MkResult false (pathJoin OUTPUT_DIR (outputName tza data)) false),
       MkFS (Some content)
            (Some (<[outputName tza data := File buf now]> (default ∅ (outdir fs)))),
       log).
Proof.
  intros Ht Hr Htok Hex.
  assert (default ∅ (outdir fs) !! outputName tza data = None) as Hnone.
  { destruct (default ∅ (outdir fs) !! outputName tza data) as [nd|] eqn:E; [|done].
    assert (existsInOutput fs (outputName tza data) = true) as Hyes
      by (apply existsInOutput_lookup; rewrite E; by eexists).
    congruence. }
  assert (existsInOutput (ensureOutputDir fs) (outputName tza data) = false) as Hex'.
  { unfold existsInOutput. rewrite ensureOutputDir_entries, Hnone.
    apply bool_decide_eq_false. by intros [? ?]. }
  unfold FillFromSheet.createDocx. rewrite Ht, Hr, token_check, Htok. cbn [negb].
  rewrite Hex'. cbn [andb].
  unfold writeOutputFile. rewrite ensureOutputDir_entries, ensureOutputDir_template, Ht, Hnone.
  by eexists.
Qed.

(** C6.  Skip-if-exists ([FORCE] off): when the target exists the call
    leaves the file system as it was and, when it returns, reports
    skipped; when no entry of that name exists (and the template is
    read, the document rendered and the date token accepted) the call
    writes the file and reports not skipped; so after one generation
    that returned, a second one of the same record returns skipped with
    the same path and changes nothing, and the first added the one name
    and no other.  Force-overwrite ([FORCE] on, no dry run): once the
    template is read, the document rendered and the date token accepted,
    the file is written with the new content whether or not an entry of
    that name was there, and the call reports not skipped. *)
Theorem writer_skips_existing_and_force_rewrites :
  (forall DRY now fs data res fs' log,
      existsInOutput fs (outputName tza data) = true ->
      createDocx false DRY now fs data = (res, fs', log) ->
      fs' = fs
      /\ forall out, res = Returned out ->
           skipped out = true /\ path out = pathJoin OUTPUT_DIR (outputName tza data))
  /\ (forall now fs data content buf,
      template fs = Some content ->
      renderDocx content data = Some buf ->
      tokenAccepted tza data = true ->
      existsInOutput fs (outputName tza data) = false ->
      exists log,
        createDocx false false now fs data
        = (Returned (MkResult false (pathJoin OUTPUT_DIR (outputName tza data)) false),
           MkFS (Some content)
                (Some (<[outputName tza data := File buf now]> (default ∅ (outdir fs)))),
           log))
  /\ (forall now1 now2 fs data out1 fs1 log1,
      createDocx false false now1 fs data = (Returned out1, fs1, log1) ->
      existsInOutput fs1 (outputName tza data) = true
      /\ dom (default ∅ (outdir fs1)) = dom (default ∅ (outdir fs)) ∪ {[outputName tza data]}
      /\ exists log2,
           createDocx false false now2 fs1 data
           = (Returned (MkResult true (path out1) false), fs1, log2))
  /\ (forall now fs data content buf,
      template fs = Some content ->
      renderDocx content data = Some buf ->
      tokenAccepted tza data = true ->
      (forall t, default ∅ (outdir fs) !! outputName tza data <> Some (Folder t)) ->
      exists log,
        createDocx true false now fs data
        = (Returned (MkResult false (pathJoin OUTPUT_DIR (outputName tza data)) false),
           MkFS (Some content)
                (Some (<[outputName tza data := File buf now]> (default ∅ (outdir fs)))),
           log)).
Proof.
  split; [|split; [|split]].
  - intros DRY now fs data res fs' log. apply createDocx_skip.
  - intros now fs data content buf. apply createDocx_first.
  - intros now1 now2 fs data out1 fs1 log1 H1.
    pose proof (createDocx_not_dry _ _ _ _ _ _ _ H1) as Hdry.
    pose proof (createDocx_returned _ _ _ _ _ _ _ _ H1) as (_ & _ & _ & _ & Hex & Hdom).
    split; [by apply Hex|]. split; [by apply Hdom|].
    by apply (createDocx_twice now1 now2 fs data out1 fs1 log1).
  - intros now fs data content buf. apply createDocx_force.
Qed.

(** In a dry run no entry of the output folder is added, changed or
    removed by [createDocx]. *)
Lemma createDocx_dry_entries (FORCE : bool) (now : Z) (fs : FS) (data : templateFields) :
  default ∅ (outdir (createDocx FORCE true now fs data).1.2) = default ∅ (outdir fs).
Proof.
  unfold FillFromSheet.createDocx.
  destruct (template fs); [|done].
  destruct (renderDocx _ data); [|by cbn [fst snd]; rewrite ensureOutputDir_entries].
  destruct (_ && _); [by cbn [fst snd]; rewrite ensureOutputDir_entries|].
  destruct (_ && _); by cbn [fst snd]; rewrite ensureOutputDir_entries.
Qed.

End CreateDocxFacts.

(** The theorem on the record of the scenario, generated twice without
    [--force] into a folder that does not exist yet: the first call
    writes the one file, the second reports skipped and changes nothing. *)
Lemma writer_skips_existing_and_force_rewrites_witness :
  let data := SheetRow.mapSheetRowToTemplateFields scenarioRow in
  let render := fun (content : string) (d : SheetRow.templateFields) =>
                  Some (content +:+ " for " +:+ SheetRow.NAME d) in
  let fs := Fs.MkFS (Some "template") None in
  let fs1 := Fs.MkFS (Some "template")
               (Some (<["5-1-2026-J Smith-42.docx" := Fs.File "template for J Smith" 1000]> ∅)) in
  (exists log1,
     FillFromSheet.createDocx 0 "out" false false render 1000 fs data
     = (Fs.Returned (FillFromSheet.MkResult false "out/5-1-2026-J Smith-42.docx" false),
        fs1, log1))
  /\ (exists log2,
       FillFromSheet.createDocx 0 "out" false false render 2000 fs1 data
       = (Fs.Returned (FillFromSheet.MkResult true "out/5-1-2026-J Smith-42.docx" false),
          fs1, log2)).
Proof.
  intros data render fs fs1.
  destruct (writer_skips_existing_and_force_rewrites 0 "out" render)
    as (_ & Hfirst & Htwice & _).
  destruct (Hfirst 1000 fs data "template" "template for J Smith"
              eq_refl eq_refl ltac:(vm_compute; reflexivity) ltac:(vm_compute; reflexivity))
    as [log1 H1].
  assert (FillFromSheet.createDocx 0 "out" false false render 1000 fs data
          = (Fs.Returned (FillFromSheet.MkResult false "out/5-1-2026-J Smith-42.docx" false),
             fs1, log1)) as H1'.
  { rewrite H1. vm_compute. reflexivity. }
  split; [by exists log1|].
  destruct (Htwice 1000 2000 fs data _ _ _ H1') as (_ & _ & log2 & H2).
  exists log2. exact H2.
Defined.

(** C7, evaluated on the code.  A dry run on a machine that has the
    template and no output folder yet: both generators create the output
    folder before they reach the dry-run guard, so the file system after
    the call differs from the one before. *)
Theorem dry_run_creates_output_folder :
  forall tza OUTPUT_DIR FORCE renderDocx now content data,
    let fs0 := Fs.MkFS (Some content) None in
    (FillFromSheet.createDocx tza OUTPUT_DIR FORCE true renderDocx now fs0 data).1.2
      = Fs.MkFS (Some content) (Some ∅)
    /\ (LegacyGenerator.createDocx OUTPUT_DIR FORCE true renderDocx now fs0 data).1.2
      = Fs.MkFS (Some content) (Some ∅)
    /\ Fs.MkFS (Some content) (Some ∅) <> fs0.
Proof.
  intros tza OUTPUT_DIR FORCE renderDocx now content data fs0.
  split; [|split; [|done]].
  - unfold FillFromSheet.createDocx. cbn [Fs.template fs0].
    destruct (renderDocx content data); [|done].
    destruct (_ && _); [done|].
    by destruct FORCE.
  - unfold LegacyGenerator.createDocx. cbn [Fs.template fs0].
    destruct (renderDocx content data); [|done].
    by destruct FORCE.
Qed.

(** ** File names *)

Section FileNameFacts.
Import JsString Regex JsDate Fs SheetRow FillFromSheet.

Lemma replaceEach_dash (p : ascii -> bool) (s : string) :
  replaceEach p "-" s = mapChars (fun c => if p c then "-"%char else c) s.
Proof. induction s as [|c s IH]; [done|]. simpl. rewrite IH. by destruct (p c). Qed.

Lemma allChars_trimStart (p : ascii -> bool) (s : string) :
  allChars p s = true -> allChars p (trimStart s) = true.
Proof.
  induction s as [|c s IH]; [done|]. simpl.
  intros [Hc Hs]%andb_true_iff. destruct (isWhiteSpace c); [by apply IH|].
  simpl. by rewrite Hc, Hs.
Qed.

Lemma allChars_trimEnd (p : ascii -> bool) (s : string) :
  allChars p s = true -> allChars p (trimEnd s) = true.
Proof.
  induction s as [|c s IH]; [done|]. simpl.
  intros [Hc Hs]%andb_true_iff. specialize (IH Hs).
  destruct (trimEnd s) as [|c' t].
  - destruct (isWhiteSpace c); [done|]. simpl. by rewrite Hc.
  - change (allChars p (String c (String c' t))) with (p c && allChars p (String c' t)).
    by rewrite Hc, IH.
Qed.

Lemma allChars_mapChars (p : ascii -> bool) (f : ascii -> ascii) (s : string) :
  (forall c, p (f c) = true) -> allChars p (mapChars f s) = true.
Proof. intros Hf. induction s as [|c s IH]; [done|]. simpl. by rewrite Hf, IH. Qed.

Lemma dashIfHostile_safe (c : ascii) : negb (pathHostile (dashIfHostile c)) = true.
Proof. unfold dashIfHostile. destruct (pathHostile c) eqn:E; [done|]. by rewrite E. Qed.

Lemma safeFilename_chars (s : string) :
  safeFilename s = trim (mapChars dashIfHostile s).
Proof. unfold safeFilename. by rewrite replaceEach_dash. Qed.

Lemma safeFilename_no_hostile (s : string) :
  allChars (fun c => negb (pathHostile c)) (safeFilename s) = true.
Proof.
  rewrite safeFilename_chars. unfold trim.
  apply allChars_trimEnd, allChars_trimStart, allChars_mapChars, dashIfHostile_safe.
Qed.

End FileNameFacts.

(** C8 as stated fails.  For the record of the scenario the artifact is
    named with the blank of the name kept, not with an underscore; blanks
    inside a component are not collapsed; a hostile character is replaced
    by a dash, not removed. *)
Lemma scenario_name_keeps_the_blank :
  (FillFromSheet.createDocx 0 "out" false false (fun _ _ => Some "docx") 0
     (Fs.MkFS (Some "template") None)
     (SheetRow.mapSheetRowToTemplateFields scenarioRow)).1.1
  = Fs.Returned (FillFromSheet.MkResult false "out/5-1-2026-J Smith-42.docx" false)
  /\ "out/5-1-2026-J Smith-42.docx" <> "out/5-1-2026-J_Smith-42.docx"
  /\ FillFromSheet.safeFilename "J   Smith" = "J   Smith"
  /\ FillFromSheet.safeFilename "a/b" = "a-b".
Proof. split; [vm_compute; reflexivity|]. split; [discriminate|]. split; reflexivity. Qed.

(** C8, amended.  In every zone the date 5/1/26 of the scenario resolves
    to 5 January 2026 read day first, and the artifact of the record is
    [OUTPUT_DIR/5-1-2026-J Smith-42.docx].  In general [safeFilename]
    replaces each path-hostile character by a dash, one for one, and
    trims the blanks at both ends: its result holds no hostile character,
    and blanks inside are kept as they are. *)
Theorem scenario_artifact_name_and_sanitizer :
  forall tza : Z,
    (exists d,
        FillFromSheet.parseDateDeterministic tza "5/1/26"
        = FillFromSheet.MkParsed (Some d) (Some FillFromSheet.Kdmy)
        /\ JsDate.getFullYear tza d = 2026 /\ JsDate.getMonth tza d = 0
        /\ JsDate.getDate tza d = 5)
    /\ FillFromSheet.outputName tza (SheetRow.mapSheetRowToTemplateFields scenarioRow)
       = "5-1-2026-J Smith-42.docx"
    /\ (forall OUTPUT_DIR FORCE DRY renderDocx now fs out fs' log,
          FillFromSheet.createDocx tza OUTPUT_DIR FORCE DRY renderDocx now fs
            (SheetRow.mapSheetRowToTemplateFields scenarioRow) = (Fs.Returned out, fs', log) ->
          FillFromSheet.path out = Fs.pathJoin OUTPUT_DIR "5-1-2026-J Smith-42.docx")
    /\ (forall s,
          FillFromSheet.safeFilename s = JsString.trim (JsString.mapChars dashIfHostile s))
    /\ (forall s,
          JsString.allChars (fun c => negb (FillFromSheet.pathHostile c))
            (FillFromSheet.safeFilename s) = true).
Proof.
  intros tza.
  assert (Hname : FillFromSheet.outputName tza
                    (SheetRow.mapSheetRowToTemplateFields scenarioRow)
                  = "5-1-2026-J Smith-42.docx").
  { rewrite outputName_zone. vm_compute. reflexivity. }
  split; [|split; [exact Hname|split; [|split]]].
  - exists (inZone tza (JsDate.MkDate 1767571200000)). split.
    + rewrite parseDateDeterministic_zone.
      assert (FillFromSheet.parseDateDeterministic 0 "5/1/26"
              = FillFromSheet.MkParsed (Some (JsDate.MkDate 1767571200000))
                  (Some FillFromSheet.Kdmy)) as -> by (vm_compute; reflexivity).
      reflexivity.
    + unfold JsDate.getFullYear, JsDate.getMonth, JsDate.getDate.
      rewrite localCivil_zone. vm_compute. repeat split; reflexivity.
  - intros OUTPUT_DIR FORCE DRY renderDocx now fs out fs' log H.
    apply createDocx_returned in H as (_ & Hp & _). rewrite Hp, Hname. reflexivity.
  - apply safeFilename_chars.
  - apply safeFilename_no_hostile.
Qed.

(** ** The retention window *)

Section RetentionFacts.
Import JsString JsDate SheetRow FillFromSheet.

Variable tza : Z.
Variable DEBUG : bool.

Lemma filterLoop_kept (cutoff : Z) (rows kept : list sheetRow) (log : list logLine) :
  (filterLoop tza DEBUG cutoff rows kept log).1
  = kept ++ List.filter (withinWindow tza cutoff) rows.
Proof.
  revert kept log. induction rows as [|r rows IH]; intros kept log.
  - by rewrite app_nil_r.
  - cbn [filterLoop List.filter]. unfold rowDecision. fold (withinWindow tza cutoff r).
    rewrite IH. destruct (withinWindow tza cutoff r); [|done]. by rewrite <- app_assoc.
Qed.

Lemma daysFilter_kept (DAYS now : Z) (rows : list sheetRow) :
  (daysFilter tza DEBUG DAYS now rows).1
  = if 0 <? DAYS then List.filter (withinWindow tza (now - DAYS * 86400000)) rows else rows.
Proof.
  unfold daysFilter. destruct (0 <? DAYS); [|done].
  pose proof (filterLoop_kept (now - DAYS * 24 * 60 * 60 * 1000) rows [] []) as H.
  destruct (filterLoop _ _ _ _ _ _) as [kept log]. cbn [fst] in *. rewrite H.
  cbn [app]. do 2 f_equal. lia.
Qed.

Lemma withinWindow_spec (cutoff : Z) (r : sheetRow) :
  withinWindow tza cutoff r = true
  <-> exists d, date (parseDateDeterministic tza (dateStrOf r)) = Some d /\ cutoff <= getTime d.
Proof.
  unfold withinWindow. destruct (date _) as [d|].
  - rewrite Z.leb_le. split; [by exists d|]. by intros (d' & [= <-] & H).
  - split; [discriminate|]. by intros (d' & [=] & _).
Qed.

End RetentionFacts.

(** C5.  With [DAYS > 0] the filter keeps, in their order, exactly the
    rows whose date resolves to an instant at or after
    [now - DAYS * 86400000] milliseconds: a row is kept if and only if its
    resolved date exists and is not before that cutoff, so a date equal to
    the cutoff is kept and one a second (1000 ms) older is dropped.  With
    [DAYS <= 0] every row is kept. *)
Theorem retention_window_is_inclusive :
  forall (tza : Z) (DEBUG : bool) (DAYS now : Z) (rows : list SheetRow.sheetRow),
    let kept := (FillFromSheet.daysFilter tza DEBUG DAYS now rows).1 in
    let cutoff := now - DAYS * 86400 * 1000 in
    let resolved r :=
      FillFromSheet.date (FillFromSheet.parseDateDeterministic tza (FillFromSheet.dateStrOf r)) in
    (0 < DAYS ->
       kept = List.filter (withinWindow tza cutoff) rows
       /\ (forall r, In r kept <->
             In r rows /\ exists d, resolved r = Some d /\ cutoff <= JsDate.getTime d)
       /\ (forall r d, In r rows -> resolved r = Some d ->
             (JsDate.getTime d = cutoff -> In r kept)
             /\ (JsDate.getTime d = cutoff - 1000 -> ~ In r kept)))
    /\ (DAYS <= 0 -> kept = rows).
Proof.
  intros tza DEBUG DAYS now rows kept cutoff resolved.
  assert (Hk : kept = if 0 <? DAYS then List.filter (withinWindow tza cutoff) rows else rows).
  { unfold kept, cutoff. rewrite daysFilter_kept. by replace (DAYS * 86400 * 1000) with (DAYS * 86400000) by lia. }
  split.
  - intros Hpos. apply Z.ltb_lt in Hpos. rewrite Hpos in Hk.
    assert (Hin : forall r, In r kept <->
              In r rows /\ exists d, resolved r = Some d /\ cutoff <= JsDate.getTime d).
    { intros r. rewrite Hk, filter_In, withinWindow_spec. reflexivity. }
    split; [exact Hk|]. split; [exact Hin|].
    intros r d Hr Hd. split.
    + intros Ht. apply Hin. split; [exact Hr|]. exists d. split; [exact Hd|lia].
    + intros Ht [_ (d' & Hd' & Hle)]%Hin. rewrite Hd in Hd'. injection Hd' as <-. lia.
  - intros Hle. rewrite Hk. by destruct (Z.ltb_spec 0 DAYS); [lia|].
Qed.

(** The boundary on a concrete row: with a window of 7 days, the row dated
    05/01/2026 is kept when the run starts exactly 7 days after its local
    midnight, and dropped when the run starts one second later. *)
Example retention_boundary_example :
  let row := SheetRow.MkRow [] [("Date", "05/01/2026")] in
  (FillFromSheet.daysFilter 0 false 7 (1767571200000 + 7 * 86400000) [row]).1 = [row]
  /\ (FillFromSheet.daysFilter 0 false 7 (1767571200000 + 7 * 86400000 + 1000) [row]).1 = []
  /\ (FillFromSheet.daysFilter 0 false 0 (1767571200000 + 7 * 86400000 + 1000) [row]).1 = [row].
Proof. vm_compute. repeat split; reflexivity. Qed.

(** ** Resolution and the retention cutoff *)

Section CutoffFacts.
Import JsString JsDate SheetRow.

Variable tza : Z.
Variable nativeParse : string -> option Date.

Lemma legacy_sameComponents_zone (y m d a b c : Z) :
  LegacyGenerator.sameComponents tza (newDate tza y m d) a b c
  = LegacyGenerator.sameComponents 0 (newDate 0 y m d) a b c.
Proof.
  rewrite (newDate_zone tza).
  unfold LegacyGenerator.sameComponents, getFullYear, getMonth, getDate.
  by rewrite localCivil_zone.
Qed.

(** The candidates of a numeric string that reads as a date both ways. *)
Lemma parseDateCandidates_both (s : string) (m : gmap nat string) (p1 p2 year : Z) :
  truthy s = true ->
  Regex.exec false LegacyGenerator.numericRe (trim s) = Some m ->
  Number (Regex.group m 1) = p1 ->
  Number (Regex.group m 2) = p2 ->
  (if Number (Regex.group m 3) <? 100 then 2000 + Number (Regex.group m 3)
   else Number (Regex.group m 3)) = year ->
  (1 <=? p2) && (p2 <=? 12) && (1 <=? p1) && (p1 <=? 31) = true ->
  (1 <=? p1) && (p1 <=? 12) && (1 <=? p2) && (p2 <=? 31) = true ->
  LegacyGenerator.sameComponents 0 (newDate 0 year (p2 - 1) p1) year p2 p1 = true ->
  LegacyGenerator.sameComponents 0 (newDate 0 year (p1 - 1) p2) year p1 p2 = true ->
  let dmy := newDate tza year (p2 - 1) p1 in
  let mdy := newDate tza year (p1 - 1) p2 in
  let p := LegacyGenerator.parseDateCandidates tza nativeParse s in
  LegacyGenerator.findKind LegacyGenerator.Cdmy (LegacyGenerator.cands p)
    = Some (LegacyGenerator.MkCand LegacyGenerator.Cdmy dmy)
  /\ LegacyGenerator.findKind LegacyGenerator.Cmdy (LegacyGenerator.cands p)
    = Some (LegacyGenerator.MkCand LegacyGenerator.Cmdy mdy)
  /\ LegacyGenerator.date p = Some dmy
  /\ LegacyGenerator.chosenKind p = Some LegacyGenerator.Cdmy.
Proof.
  intros Hs Hm H1 H2 H3 Hg1 Hg2 Hc1 Hc2 dmy mdy p.
  unfold p, LegacyGenerator.parseDateCandidates.
  rewrite Hs, Hm. cbv zeta. cbn [negb]. rewrite H1, H2, H3, Hg1, Hg2.
  rewrite !legacy_sameComponents_zone, Hc1, Hc2. fold dmy mdy.
  destruct (nativeParse (trim s)) as [n|]; repeat split; reflexivity.
Qed.

(** In the older copy the reading of 05/01/2026 follows the cutoff,
    whatever the engine's own parser answers. *)
Lemma heuristic_choice_follows_cutoff :
  let jan5 := newDate tza 2026 0 5 in
  let may1 := newDate tza 2026 4 1 in
  forall cutoff,
    (cutoff <= getTime jan5 ->
       LegacyGenerator.chooseForFilter tza nativeParse cutoff "05/01/2026"
       = (Some jan5, Some LegacyGenerator.Cdmy, true))
    /\ (getTime jan5 < cutoff /\ cutoff <= getTime may1 ->
       LegacyGenerator.chooseForFilter tza nativeParse cutoff "05/01/2026"
       = (Some may1, Some LegacyGenerator.Cmdy, true)).
Proof.
  intros jan5 may1 cutoff.
  assert (Hlt : getTime jan5 < getTime may1).
  { unfold jan5, may1. rewrite (newDate_zone tza 2026 0 5), (newDate_zone tza 2026 4 1).
    unfold inZone, getTime. cbn [timeValue].
    assert (timeValue (newDate 0 2026 0 5) < timeValue (newDate 0 2026 4 1))
      by (vm_compute; reflexivity).
    lia. }
  pose proof (parseDateCandidates_both "05/01/2026"
              (<[3%nat := "2026"]> (<[2%nat := "01"]> (<[1%nat := "05"]> ∅))) 5 1 2026) as H.
  do 9 (let P := match type of H with ?P -> _ => P end in
        let HP := fresh in
        assert (HP : P) by (vm_compute; reflexivity); specialize (H HP); clear HP).
  destruct H as (Hf1 & Hf2 & Hd & Hk).
  change (newDate tza 2026 (1 - 1) 5) with jan5 in *.
  change (newDate tza 2026 (5 - 1) 1) with may1 in *.
  unfold LegacyGenerator.chooseForFilter. rewrite Hf1, Hf2, Hd, Hk.
  cbn [LegacyGenerator.cdate]. split; intros Hcut.
  - assert ((cutoff <=? getTime jan5) = true) as E1 by (apply Z.leb_le; lia).
    assert ((cutoff <=? getTime may1) = true) as E2 by (apply Z.leb_le; lia).
    rewrite E1, E2. cbn [andb negb]. rewrite E1. reflexivity.
  - assert ((cutoff <=? getTime jan5) = false) as E1 by (apply Z.leb_gt; lia).
    assert ((cutoff <=? getTime may1) = true) as E2 by (apply Z.leb_le; lia).
    rewrite E1, E2. cbn [andb negb]. rewrite E2. reflexivity.
Qed.

End CutoffFacts.

(** C4 as stated fails on the older copy: the same raw string, with the
    same parser of the engine, resolves to 5 January 2026 read day first
    under one cutoff and to 1 May 2026 read month first under a cutoff one
    millisecond later. *)
Lemma heuristic_resolution_depends_on_cutoff :
  LegacyGenerator.chooseForFilter 0 (monthFirstNative 0) 1767571200000 "05/01/2026"
  = (Some (JsDate.newDate 0 2026 0 5), Some LegacyGenerator.Cdmy, true)
  /\ LegacyGenerator.chooseForFilter 0 (monthFirstNative 0) 1767571200001 "05/01/2026"
  = (Some (JsDate.newDate 0 2026 4 1), Some LegacyGenerator.Cmdy, true)
  /\ JsDate.newDate 0 2026 0 5 <> JsDate.newDate 0 2026 4 1.
Proof.
  split; [vm_compute; reflexivity|]. split; [vm_compute; reflexivity|].
  intros H. vm_compute in H. discriminate H.
Qed.

(** C4, amended.  Under the deterministic policy of [fillFromSheet.js]
    resolution is a function of the raw string alone: what the retention
    filter resolves for a row is [parseDateDeterministic] of its date
    string, the same under every cutoff, and the zone only fixes which
    instant the resolved local midnight is, never the calendar date or the
    kind.  The older heuristic copy does consult the cutoff: when a string
    reads as a date both day first and month first, its filter takes the
    reading that falls inside the window, as 05/01/2026 shows. *)
Theorem deterministic_resolution_ignores_cutoff :
  (forall tza cutoff1 cutoff2 r,
      (FillFromSheet.rowDecision tza cutoff1 r).1 = (FillFromSheet.rowDecision tza cutoff2 r).1)
  /\ (forall tza cutoff r,
      (FillFromSheet.rowDecision tza cutoff r).1
      = FillFromSheet.parseDateDeterministic tza (FillFromSheet.dateStrOf r))
  /\ (forall tza s,
      FillFromSheet.parseDateDeterministic tza s
      = parsedInZone tza (FillFromSheet.parseDateDeterministic 0 s))
  /\ (forall tza nativeParse cutoff,
      let jan5 := JsDate.newDate tza 2026 0 5 in
      let may1 := JsDate.newDate tza 2026 4 1 in
      (cutoff <= JsDate.getTime jan5 ->
         LegacyGenerator.chooseForFilter tza nativeParse cutoff "05/01/2026"
         = (Some jan5, Some LegacyGenerator.Cdmy, true))
      /\ (JsDate.getTime jan5 < cutoff /\ cutoff <= JsDate.getTime may1 ->
         LegacyGenerator.chooseForFilter tza nativeParse cutoff "05/01/2026"
         = (Some may1, Some LegacyGenerator.Cmdy, true))).
Proof.
  split; [|split; [|split]].
  - reflexivity.
  - reflexivity.
  - intros tza s. apply parseDateDeterministic_zone.
  - intros tza nativeParse cutoff. apply heuristic_choice_follows_cutoff.
Qed.

(** ** Pruning the output folder *)

Section PruneFacts.
Import JsString Fs LegacyGenerator.

Variable OUTPUT_DIR : string.
Variable readdirSync : gmap string node -> list string.

Lemma insertNewestFirst_perm (x : entry) (l : list entry) :
  insertNewestFirst x l ≡ₚ x :: l.
Proof.
  induction l as [|y l IH]; [done|]. simpl.
  destruct (mtime x <? mtime y); [|done].
  rewrite IH. apply Permutation_swap.
Qed.

Lemma sortNewestFirst_perm (l : list entry) : sortNewestFirst l ≡ₚ l.
Proof.
  induction l as [|x l IH]; [done|]. unfold sortNewestFirst in *. simpl.
  by rewrite insertNewestFirst_perm, IH.
Qed.

Lemma insertNewestFirst_sorted (x : entry) (l : list entry) :
  StronglySorted notOlder l -> StronglySorted notOlder (insertNewestFirst x l).
Proof.
  induction l as [|y l IH]; intros Hs.
  - repeat constructor.
  - apply StronglySorted_inv in Hs as [Hl Hy]. simpl.
    destruct (Z.ltb_spec (mtime x) (mtime y)) as [Hlt|Hge].
    + constructor; [by apply IH|].
      rewrite insertNewestFirst_perm. constructor; [unfold notOlder; lia|done].
    + constructor; [by constructor|].
      constructor; [unfold notOlder; lia|].
      eapply Forall_impl; [exact Hy|]. unfold notOlder. intros z Hz. lia.
Qed.

Lemma sortNewestFirst_sorted (l : list entry) : StronglySorted notOlder (sortNewestFirst l).
Proof.
  induction l as [|x l IH]; [constructor|]. by apply insertNewestFirst_sorted.
Qed.

Lemma deleteLoop_dry (l : list entry) (fs : FS) : (deleteLoop true l fs).1 = fs.
Proof.
  induction l as [|f l IH]; [done|]. simpl.
  destruct (deleteLoop true l fs) as [fs' log]. by simpl in *.
Qed.

(** The deletions of the loop, name by name: a failure on one name leaves
    the others to be deleted. *)
Lemma deleteLoop_entries (l : list entry) (fs : FS) (entries : gmap string node) :
  outdir fs = Some entries ->
  exists entries',
    outdir (deleteLoop false l fs).1 = Some entries'
    /\ template (deleteLoop false l fs).1 = template fs
    /\ (forall n, n ∈ name <$> l -> entries' !! n = afterUnlink (entries !! n))
    /\ (forall n, n ∉ name <$> l -> entries' !! n = entries !! n).
Proof.
  revert fs entries. induction l as [|f l IH]; intros fs entries Hout.
  - exists entries. cbn [deleteLoop fst]. split; [done|]. split; [done|].
    split; [|done]. intros n Hn. rewrite fmap_nil in Hn. by apply not_elem_of_nil in Hn.
  - cbn [deleteLoop]. unfold unlinkOutputFile. rewrite Hout.
    destruct (entries !! name f) as [[c t|t]|] eqn:Hf.
    + destruct (IH (MkFS (template fs) (Some (delete (name f) entries)))
                  (delete (name f) entries) eq_refl) as (entries' & H1 & H2 & H3 & H4).
      destruct (deleteLoop false l _) as [fs' log]. cbn [fst] in *.
      exists entries'. split; [done|]. split; [done|]. split.
      * intros n Hn. destruct (decide (n ∈ name <$> l)) as [Hl|Hl].
        -- rewrite (H3 n Hl). destruct (decide (n = name f)) as [->|Hne].
           ++ by rewrite lookup_delete_eq, Hf.
           ++ by rewrite lookup_delete_ne.
        -- rewrite (H4 n Hl). rewrite fmap_cons in Hn.
           apply elem_of_cons in Hn as [->|Hn]; [|done].
           by rewrite lookup_delete_eq, Hf.
      * intros n Hn. rewrite fmap_cons in Hn. apply not_elem_of_cons in Hn as [Hne Hn].
        rewrite (H4 n Hn). by rewrite lookup_delete_ne.
    + destruct (IH fs entries Hout) as (entries' & H1 & H2 & H3 & H4).
      destruct (deleteLoop false l fs) as [fs' log]. cbn [fst] in *.
      exists entries'. split; [done|]. split; [done|]. split.
      * intros n Hn. destruct (decide (n ∈ name <$> l)) as [Hl|Hl]; [by apply H3|].
        rewrite (H4 n Hl). rewrite fmap_cons in Hn.
        apply elem_of_cons in Hn as [->|Hn]; [|done]. by rewrite Hf.
      * intros n Hn. rewrite fmap_cons in Hn. apply not_elem_of_cons in Hn as [Hne Hn].
        by apply H4.
    + destruct (IH fs entries Hout) as (entries' & H1 & H2 & H3 & H4).
      destruct (deleteLoop false l fs) as [fs' log]. cbn [fst] in *.
      exists entries'. split; [done|]. split; [done|]. split.
      * intros n Hn. destruct (decide (n ∈ name <$> l)) as [Hl|Hl]; [by apply H3|].
        rewrite (H4 n Hl). rewrite fmap_cons in Hn.
        apply elem_of_cons in Hn as [->|Hn]; [|done]. by rewrite Hf.
      * intros n Hn. rewrite fmap_cons in Hn. apply not_elem_of_cons in Hn as [Hne Hn].
        by apply H4.
Qed.

(** What the loop prints for each file it was asked to delete. *)
Lemma deleteLoop_log (l : list entry) (fs : FS) (entries : gmap string node) :
  outdir fs = Some entries ->
  NoDup (name <$> l) ->
  forall g, g ∈ l ->
    match entries !! name g with
    | Some (File _ _) => LogPruned (full g) ∈ (deleteLoop false l fs).2
    | _ => exists msg, WarnFailedToDelete (full g) msg ∈ (deleteLoop false l fs).2
    end.
Proof.
  revert fs entries. induction l as [|f l IH]; intros fs entries Hout Hnd g Hg.
  { by apply not_elem_of_nil in Hg. }
  rewrite fmap_cons in Hnd. apply NoDup_cons in Hnd as [Hf Hnd].
  cbn [deleteLoop]. unfold unlinkOutputFile. rewrite Hout.
  apply elem_of_cons in Hg as [->|Hg].
  - destruct (entries !! name f) as [[c t|t]|] eqn:Hl;
      destruct (deleteLoop false l _) as [fs' log]; cbn [snd].
    + apply elem_of_cons. by left.
    + eexists. apply elem_of_cons. by left.
    + eexists. apply elem_of_cons. by left.
  - assert (name g <> name f) as Hne.
    { intros E. apply Hf. rewrite <- E. by apply list_elem_of_fmap_2. }
    destruct (entries !! name f) as [[c t|t]|] eqn:Hl.
    + specialize (IH (MkFS (template fs) (Some (delete (name f) entries)))
                     (delete (name f) entries) eq_refl Hnd g Hg).
      rewrite lookup_delete_ne in IH by done.
      destruct (deleteLoop false l _) as [fs' log]; cbn [snd] in *.
      destruct (entries !! name g) as [[]|].
      * apply elem_of_cons. by right.
      * destruct IH as [msg IH]. exists msg. apply elem_of_cons. by right.
      * destruct IH as [msg IH]. exists msg. apply elem_of_cons. by right.
    + specialize (IH fs entries Hout Hnd g Hg).
      destruct (deleteLoop false l _) as [fs' log]; cbn [snd] in *.
      destruct (entries !! name g) as [[]|].
      * apply elem_of_cons. by right.
      * destruct IH as [msg IH]. exists msg. apply elem_of_cons. by right.
      * destruct IH as [msg IH]. exists msg. apply elem_of_cons. by right.
    + specialize (IH fs entries Hout Hnd g Hg).
      destruct (deleteLoop false l _) as [fs' log]; cbn [snd] in *.
      destruct (entries !! name g) as [[]|].
      * apply elem_of_cons. by right.
      * destruct IH as [msg IH]. exists msg. apply elem_of_cons. by right.
      * destruct IH as [msg IH]. exists msg. apply elem_of_cons. by right.
Qed.

Lemma docxEntries_names (entries : gmap string node) (l : list string) :
  name <$> omap (fun n => (fun nd => MkEntry n (pathJoin OUTPUT_DIR n) (mtimeOf nd))
                            <$> entries !! n) l
  = filter (fun n => is_Some (entries !! n)) l.
Proof.
  induction l as [|n l IH]; [done|]. cbn [omap list_omap].
  destruct (entries !! n) as [nd|] eqn:E; cbn [fmap option_fmap option_map].
  - rewrite filter_cons_True by (rewrite E; by eexists).
    rewrite fmap_cons. cbn [name]. by rewrite IH.
  - rewrite filter_cons_False by (rewrite E; by intros [? ?]). exact IH.
Qed.

(** The files that [pruneOutputDir] looks at: the entries of the folder
    whose name ends in [.docx], whatever the letter case, each once. *)
Lemma docxEntries_spec (entries : gmap string node) (f : entry) :
  listsFolder readdirSync entries ->
  f ∈ docxEntries OUTPUT_DIR readdirSync entries
  <-> exists nd, entries !! name f = Some nd
                 /\ endsWith (toLowerCase (name f)) ".docx" = true
                 /\ full f = pathJoin OUTPUT_DIR (name f)
                 /\ mtime f = mtimeOf nd.
Proof.
  intros Hl. unfold docxEntries. rewrite list_elem_of_omap. split.
  - intros (n & [Hd Hin]%list_elem_of_filter & Hf).
    destruct (entries !! n) as [nd|] eqn:E; [|done].
    cbn in Hf. injection Hf as <-. exists nd. by cbn.
  - intros (nd & Hlk & Hd & Hfull & Hm). exists (name f). split.
    + apply list_elem_of_filter. split; [done|]. unfold listsFolder in Hl. rewrite Hl.
      apply list_elem_of_fmap. exists (name f, nd). split; [done|].
      by apply elem_of_map_to_list.
    + rewrite Hlk. destruct f as [n fl mt]. cbn in *. by rewrite Hfull, Hm.
Qed.

Lemma docxEntries_NoDup (entries : gmap string node) :
  listsFolder readdirSync entries ->
  NoDup (name <$> docxEntries OUTPUT_DIR readdirSync entries).
Proof.
  intros Hl. unfold docxEntries. rewrite docxEntries_names.
  apply NoDup_filter, NoDup_filter. unfold listsFolder in Hl. rewrite Hl.
  apply NoDup_fst_map_to_list.
Qed.

Lemma pruneOutputDir_dry (K : Z) (fs : FS) :
  (pruneOutputDir OUTPUT_DIR true readdirSync K fs).1 = fs.
Proof.
  unfold pruneOutputDir. destruct (K <=? 0); [done|].
  destruct (outdir fs) as [entries|]; [|done].
  destruct (_ <=? K); [done|]. apply deleteLoop_dry.
Qed.

(** C9.  Prune as the mode that deletes ([DRY] off), for [K > 0], on a
    folder that its listing gives in any order: the files are the [.docx]
    entries of the folder, each once, newest first.  When there are at
    most [K] of them nothing changes.  When there are [N > K], the first
    [K] are kept as they are and the [N - K] others, each at least as
    old as every kept one, are deleted if they can be: a plain file is
    gone afterwards and reported pruned, an entry whose deletion fails
    stays, with a warning, and the entries after it are still deleted.
    Nothing else in the folder changes. *)
Theorem prune_deletes_all_but_the_newest :
  forall (K : Z) (fs : FS) (entries : gmap string node),
    0 < K ->
    outdir fs = Some entries ->
    listsFolder readdirSync entries ->
    let files := sortNewestFirst (docxEntries OUTPUT_DIR readdirSync entries) in
    let kept := take (Z.to_nat K) files in
    let toDelete := drop (Z.to_nat K) files in
    let after := pruneOutputDir OUTPUT_DIR false readdirSync K fs in
    (NoDup (name <$> files)
     /\ forall f, f ∈ files <->
          exists nd, entries !! name f = Some nd
                     /\ endsWith (toLowerCase (name f)) ".docx" = true
                     /\ full f = pathJoin OUTPUT_DIR (name f)
                     /\ mtime f = mtimeOf nd)
    /\ (Z.of_nat (length files) <= K -> after = (fs, []))
    /\ (K < Z.of_nat (length files) ->
        Z.of_nat (length kept) = K
        /\ Z.of_nat (length toDelete) = Z.of_nat (length files) - K
        /\ (forall f g, f ∈ kept -> g ∈ toDelete -> mtime g <= mtime f)
        /\ template after.1 = template fs
        /\ exists entries',
             outdir after.1 = Some entries'
             /\ (forall f, f ∈ kept -> entries' !! name f = entries !! name f)
             /\ (forall g, g ∈ toDelete ->
                   match entries !! name g with
                   | Some (File _ _) =>
                       entries' !! name g = None /\ LogPruned (full g) ∈ after.2
                   | other =>
                       entries' !! name g = other
                       /\ exists msg, WarnFailedToDelete (full g) msg ∈ after.2
                   end)
             /\ (forall n, n ∉ name <$> toDelete -> entries' !! n = entries !! n)).
Proof.
  intros K fs entries HK Hout Hlist files kept toDelete after.
  assert (Hperm : files ≡ₚ docxEntries OUTPUT_DIR readdirSync entries)
    by apply sortNewestFirst_perm.
  assert (Hafter : after = if Z.of_nat (length files) <=? K then (fs, [])
                           else deleteLoop false toDelete fs).
  { unfold after, pruneOutputDir. rewrite Hout.
    destruct (Z.leb_spec K 0); [lia|]. reflexivity. }
  split; [|split].
  { split; [rewrite Hperm; by apply docxEntries_NoDup|].
    intros f. rewrite Hperm. by apply docxEntries_spec. }
  { intros Hle. rewrite Hafter. by destruct (Z.leb_spec (Z.of_nat (length files)) K); [|lia]. }
  intros Hlt. rewrite Hafter.
  destruct (Z.leb_spec (Z.of_nat (length files)) K) as [|_]; [lia|].
  assert (Hsplit : files = kept ++ toDelete) by (symmetry; apply take_drop).
  assert (Hnd : NoDup (name <$> kept ++ toDelete)).
  { rewrite <- Hsplit, Hperm. by apply docxEntries_NoDup. }
  rewrite fmap_app in Hnd. apply NoDup_app in Hnd as (_ & Hdisj & Hnd2).
  split; [unfold kept; rewrite length_take; lia|].
  split; [unfold toDelete; rewrite length_drop; lia|].
  split.
  { intros f g Hf Hg.
    pose proof (sortNewestFirst_sorted (docxEntries OUTPUT_DIR readdirSync entries)) as Hs.
    fold files in Hs. rewrite Hsplit in Hs.
    exact (StronglySorted_app_1_elem_of _ _ _ _ _ Hs Hf Hg). }
  destruct (deleteLoop_entries toDelete fs entries Hout) as (entries' & H1 & H2 & H3 & H4).
  split; [exact H2|]. exists entries'. split; [exact H1|].
  split; [|split; [|exact H4]].
  - intros f Hf. apply H4, Hdisj. by apply list_elem_of_fmap_2.
  - intros g Hg.
    pose proof (deleteLoop_log toDelete fs entries Hout Hnd2 g Hg) as Hlog.
    pose proof (H3 (name g) (list_elem_of_fmap_2 name _ _ Hg)) as Hg'.
    destruct (entries !! name g) as [[c t|t]|]; by split.
Qed.

End PruneFacts.

(** The theorem on the sample folder, listed in the order opposite to
    the one of the map, with one file to retain: the newest document
    stays, the older documents are deleted, and the folder that cannot
    be unlinked stays while the file listed after it still goes. *)
Lemma prune_deletes_all_but_the_newest_witness :
  0 < 1
  /\ Fs.outdir (Fs.MkFS None (Some sampleFolder)) = Some sampleFolder
  /\ listsFolder listReversed sampleFolder
  /\ exists entries',
       Fs.outdir (LegacyGenerator.pruneOutputDir "out" false listReversed 1
                    (Fs.MkFS None (Some sampleFolder))).1 = Some entries'
       /\ entries' !! "b.DOCX" = Some (Fs.File "B" 30)
       /\ entries' !! "e.docx" = None
       /\ entries' !! "a.docx" = None
       /\ entries' !! "c.docx" = Some (Fs.Folder 5)
       /\ entries' !! "d.txt" = Some (Fs.File "D" 1).
Proof.
  assert (listsFolder listReversed sampleFolder) as Hlist by apply reverse_Permutation.
  split; [lia|]. split; [reflexivity|]. split; [exact Hlist|].
  destruct (prune_deletes_all_but_the_newest "out" listReversed 1
              (Fs.MkFS None (Some sampleFolder)) sampleFolder ltac:(lia) eq_refl Hlist)
    as (_ & _ & H).
  destruct (H ltac:(vm_compute; reflexivity))
    as (_ & _ & _ & _ & entries' & Hout & Hkept & Hdel & Hrest).
  exists entries'. split; [exact Hout|].
  split; [|split; [|split; [|split]]].
  - apply (Hkept (LegacyGenerator.MkEntry "b.DOCX" "out/b.DOCX" 30)).
    apply list_elem_of_In. vm_compute. tauto.
  - apply (Hdel (LegacyGenerator.MkEntry "e.docx" "out/e.docx" 20)).
    apply list_elem_of_In. vm_compute. tauto.
  - apply (Hdel (LegacyGenerator.MkEntry "a.docx" "out/a.docx" 10)).
    apply list_elem_of_In. vm_compute. tauto.
  - apply (Hdel (LegacyGenerator.MkEntry "c.docx" "out/c.docx" 5)).
    apply list_elem_of_In. vm_compute. tauto.
  - rewrite Hrest; [reflexivity|].
    intros Hin%list_elem_of_In. vm_compute in Hin. intuition discriminate.
Defined.

(** ** Regular expressions: the numeric pattern on its shape *)

Section RegexFacts.
Import JsString Regex FillFromSheet.

Local Arguments matchesSet : simpl never.
Local Arguments insert : simpl never.
Local Arguments String.append : simpl nomatch.

Lemma digit_cases (c : ascii) :
  isDigit c = true ->
  matchesSet false CsDigit c = true
  /\ matchesSet false sepSet c = false
  /\ isWhiteSpace c = false.
Proof.
  destruct c as [[] [] [] [] [] [] [] []]; vm_compute; try discriminate; auto.
Qed.

Lemma sep_cases (c : ascii) :
  isSepChar c = true ->
  matchesSet false sepSet c = true
  /\ matchesSet false CsDigit c = false
  /\ matchesSet false (CsChar "0") c = false.
Proof.
  destruct c as [[] [] [] [] [] [] [] []]; vm_compute; try discriminate; auto.
Qed.

Lemma zero_cases (c : ascii) :
  matchesSet false (CsChar "0") c = true -> c = "0"%char.
Proof.
  unfold matchesSet. cbn [inSet andb]. rewrite orb_false_r. intros H.
  apply Ascii.eqb_eq in H. by subst.
Qed.

Lemma bind_states (f : string -> string) (l : list (string * mstate)) :
  (l ≫= λ '(w2, st2), [(f w2, st2)]).*2 = l.*2.
Proof.
  induction l as [|[w st] l IH]; [done|].
  cbn [mbind list_bind fmap list_fmap snd app] in *. by rewrite IH.
Qed.

(** Symbolic evaluation of the matcher on input whose characters are
    known by their class only. *)
Ltac rx_eval :=
  repeat (simpl; unfold advance; simpl;
          rewrite ?andb_false_r, ?andb_true_r, ?app_nil_r, ?bind_states;
          repeat match goal with
                 | H : matchesSet _ _ _ = _ |- _ => rewrite H
                 end).

Lemma run_seq_states (ic : bool) (a k : regex) (st : mstate) :
  (run ic (RSeq a k) st).*2 = st1 ← (run ic a st).*2; (run ic k st1).*2.
Proof.
  cbn [run]. induction (run ic a st) as [|[w1 st1] l IH]; [done|].
  cbn [mbind list_bind fmap list_fmap snd] in *. rewrite fmap_app, IH. f_equal.
  induction (run ic k st1) as [|[w2 st2] l2 IH2]; [done|].
  cbn [mbind list_bind fmap list_fmap snd app] in *. by rewrite IH2.
Qed.

Lemma year_block (y : string) (b : bool) (caps : gmap nat string) :
  isDigits 2 4 y = true ->
  (run false (RSeq (RGroup 3 (RRep CsDigit 2 (Some 4%nat))) REol) (MState b y caps)).*2
  = [MState false "" (<[3%nat := y]> caps)].
Proof.
  unfold isDigits. intros [[Hd Hlo]%andb_true_iff Hhi]%andb_true_iff.
  destruct y as [|a [|b0 [|c [|d [|e y]]]]]; try discriminate;
    cbn [allChars] in Hd;
    repeat match goal with
           | H : _ && _ = true |- _ => apply andb_true_iff in H as [? ?]
           | H : isDigit _ = true |- _ => apply digit_cases in H as (? & _)
           end;
    by rx_eval.
Qed.

(** The block [0*(\d{1,2})[sep]] on one or two digits and a separator:
    every way it matches consumes the digits and the separator, and
    captures text with the number of the digits. *)
Lemma zeros_digits_sep_block (i : nat) (k : regex) (p : string) (s : ascii) (tail : string)
    (b : bool) (caps : gmap nat string) :
  isDigits 1 2 p = true ->
  isSepChar s = true ->
  exists c cs,
    Number c = Number p
    /\ (run false
          (RSeq (RRep (CsChar "0") 0 None)
             (RSeq (RGroup i (RRep CsDigit 1 (Some 2%nat))) (RSeq (RSet sepSet) k)))
          (MState b (p +:+ String s tail) caps)).*2
       = (run false k (MState false tail (<[i := c]> caps))).*2
         ++ (c' ← cs; (run false k (MState false tail (<[i := c']> caps))).*2).
Proof.
  unfold isDigits. intros [[Hd Hlo]%andb_true_iff Hhi]%andb_true_iff Hs.
  apply sep_cases in Hs as (Hs1 & Hs2 & Hs3).
  destruct p as [|a [|b0 [|c p]]]; try discriminate;
    cbn [allChars] in Hd;
    repeat match goal with
           | H : _ && _ = true |- _ => apply andb_true_iff in H as [? ?]
           | H : isDigit _ = true |- _ => apply digit_cases in H as (? & ? & _)
           end.
  - destruct (matchesSet false (CsChar "0") a) eqn:Ha.
    + apply zero_cases in Ha as ->. exists "0", [].
      split; [done|]. rewrite !run_seq_states. rx_eval. reflexivity.
    + exists (String a ""), []. split; [done|]. rewrite !run_seq_states. rx_eval.
      reflexivity.
  - destruct (matchesSet false (CsChar "0") a) eqn:Ha.
    + apply zero_cases in Ha as ->.
      destruct (matchesSet false (CsChar "0") b0) eqn:Hb.
      * apply zero_cases in Hb as ->. exists "0", ["00"].
        split; [done|]. rewrite !run_seq_states. rx_eval. reflexivity.
      * exists (String b0 ""), [String "0" (String b0 "")].
        split; [done|]. rewrite !run_seq_states. rx_eval. reflexivity.
    + exists (String a (String b0 "")), [].
      split; [done|]. rewrite !run_seq_states. rx_eval. reflexivity.
Qed.

Lemma execFrom_anchored_later (ic : bool) (k : regex) (s : string) :
  execFrom ic (RSeq RBol k) false s = None.
Proof. induction s as [|c s IH]; [done|]. exact IH. Qed.

(** A pattern that opens with [^] matches at index 0 or not at all. *)
Lemma exec_anchored (ic : bool) (k : regex) (s : string) :
  exec ic (RSeq RBol k) s = caps <$> head (run ic k (MState true s ∅)).*2.
Proof.
  unfold exec.
  assert (execFrom ic (RSeq RBol k) true s
          = match run ic k (MState true s ∅) with
            | (_, st) :: _ => Some (caps st)
            | [] => match s with
                    | String _ s' => execFrom ic (RSeq RBol k) false s'
                    | EmptyString => None
                    end
            end) as ->.
  { destruct s; cbn [execFrom run atStart mbind list_bind app];
      destruct (run ic k _) as [|[w st] l]; reflexivity. }
  destruct (run ic k _) as [|[w st] l]; [|done].
  destruct s; [done|]. apply execFrom_anchored_later.
Qed.

(** The numeric pattern on its shape: it matches, the first two groups
    hold the numbers of the first two parts, the third holds the year. *)
Lemma exec_numericDmy (p1 p2 y : string) (s1 s2 : ascii) :
  isDigits 1 2 p1 = true -> isDigits 1 2 p2 = true -> isDigits 2 4 y = true ->
  isSepChar s1 = true -> isSepChar s2 = true ->
  exists m,
    exec false numericDmyRe (p1 +:+ String s1 (p2 +:+ String s2 y)) = Some m
    /\ Number (group m 1) = Number p1
    /\ Number (group m 2) = Number p2
    /\ group m 3 = y.
Proof.
  intros H1 H2 Hy Hs1 Hs2. unfold numericDmyRe. cbn [rseq].
  rewrite exec_anchored.
  destruct (zeros_digits_sep_block 1
              (RSeq (RRep (CsChar "0") 0 None)
                 (RSeq (RGroup 2 (RRep CsDigit 1 (Some 2%nat)))
                    (RSeq (RSet sepSet) (RSeq (RGroup 3 (RRep CsDigit 2 (Some 4%nat))) REol))))
              p1 s1 (p2 +:+ String s2 y) true ∅ H1 Hs1) as (c1 & cs1 & Hc1 & ->).
  destruct (zeros_digits_sep_block 2
              (RSeq (RGroup 3 (RRep CsDigit 2 (Some 4%nat))) REol)
              p2 s2 y false (<[1%nat := c1]> ∅) H2 Hs2) as (c2 & cs2 & Hc2 & ->).
  rewrite (year_block y false _ Hy). cbn [app head fmap option_fmap option_map caps].
  eexists. split; [reflexivity|]. unfold group.
  rewrite lookup_insert_ne, lookup_insert_ne, lookup_insert_eq by done.
  rewrite lookup_insert_ne, lookup_insert_eq by done.
  rewrite lookup_insert_eq. cbn [default from_option id]. done.
Qed.

Lemma trimEnd_id (s : string) : endsNonBlank s = true -> trimEnd s = s.
Proof.
  induction s as [|c s IH]; [done|]. destruct s as [|c' s].
  - cbn. by destruct (isWhiteSpace c).
  - intros H. change (endsNonBlank (String c (String c' s))) with (endsNonBlank (String c' s)) in H.
    specialize (IH H). cbn [trimEnd] in *. by rewrite IH.
Qed.

Lemma endsNonBlank_app (s t : string) :
  endsNonBlank t = true -> endsNonBlank (s +:+ t) = true.
Proof.
  intros Ht. induction s as [|c s IH]; [done|].
  cbn [String.append endsNonBlank]. destruct (s +:+ t); [discriminate IH|exact IH].
Qed.

Lemma endsNonBlank_digits (y : string) :
  allChars isDigit y = true -> y <> "" -> endsNonBlank y = true.
Proof.
  induction y as [|c y IH]; [done|]. intros [Hc Hy]%andb_true_iff _.
  destruct y as [|c' y].
  - cbn. apply digit_cases in Hc as (_ & _ & ->). done.
  - apply IH; done.
Qed.

Lemma isDigits_nonempty (lo hi : nat) (p : string) :
  isDigits (S lo) hi p = true ->
  allChars isDigit p = true /\ exists c p', p = String c p' /\ isWhiteSpace c = false.
Proof.
  unfold isDigits. intros [[Hd Hlo]%andb_true_iff _]%andb_true_iff.
  split; [done|]. destruct p as [|c p]; [done|]. exists c, p. split; [done|].
  apply andb_true_iff in Hd as [Hc _]. by apply digit_cases in Hc as (_ & _ & ->).
Qed.

(** A string of the numeric shape has nothing to trim and is not empty. *)
Lemma numeric_shape_trim (p1 p2 y : string) (s1 s2 : ascii) :
  isDigits 1 2 p1 = true -> isDigits 2 4 y = true ->
  let s := p1 +:+ String s1 (p2 +:+ String s2 y) in
  truthy s = true /\ trim s = s.
Proof.
  intros H1 Hy s.
  apply isDigits_nonempty in H1 as (_ & c & p1' & -> & Hc).
  apply isDigits_nonempty in Hy as (Hy & c' & y' & Ey & _).
  split; [done|]. unfold trim, s. cbn [String.append trimStart]. rewrite Hc.
  apply trimEnd_id.
  change (String c (p1' +:+ String s1 (p2 +:+ String s2 y)))
    with (String c p1' +:+ String s1 (p2 +:+ String s2 y)).
  apply endsNonBlank_app.
  change (String s1 (p2 +:+ String s2 y)) with (String s1 p2 +:+ String s2 y).
  apply endsNonBlank_app.
  change (String s2 y) with (String s2 "" +:+ y).
  apply endsNonBlank_app, endsNonBlank_digits; [done|]. by rewrite Ey.
Qed.

(** What the resolver returns on a string of the numeric shape. *)
Lemma parse_numeric_shape (tza : Z) (p1 p2 y : string) (s1 s2 : ascii) :
  isDigits 1 2 p1 = true -> isDigits 1 2 p2 = true -> isDigits 2 4 y = true ->
  isSepChar s1 = true -> isSepChar s2 = true ->
  parseDateDeterministic tza (p1 +:+ String s1 (p2 +:+ String s2 y))
  = (if (1 <=? Number p2) && (Number p2 <=? 12) && (1 <=? Number p1) && (Number p1 <=? 31)
     then
       if sameComponents tza
            (JsDate.newDate tza (if Number y <? 100 then 2000 + Number y else Number y)
               (Number p2 - 1) (Number p1))
            (if Number y <? 100 then 2000 + Number y else Number y) (Number p2) (Number p1)
       then MkParsed
              (Some (JsDate.newDate tza (if Number y <? 100 then 2000 + Number y else Number y)
                       (Number p2 - 1) (Number p1)))
              (Some Kdmy)
       else noDate
     else noDate).
Proof.
  intros H1 H2 Hy Hs1 Hs2.
  destruct (numeric_shape_trim p1 p2 y s1 s2 H1 Hy) as [Ht Htrim].
  destruct (exec_numericDmy p1 p2 y s1 s2 H1 H2 Hy Hs1 Hs2) as (m & Hm & Hg1 & Hg2 & Hg3).
  unfold parseDateDeterministic.
  rewrite Ht, Htrim, Hm. cbn [negb]. cbv zeta. rewrite Hg1, Hg2, Hg3. reflexivity.
Qed.

End RegexFacts.

Lemma resolve_05_01_2026 (tza : Z) :
  exists d5,
    FillFromSheet.parseDateDeterministic tza "05/01/2026"
    = FillFromSheet.MkParsed (Some d5) (Some FillFromSheet.Kdmy)
    /\ JsDate.getDate tza d5 = 5 /\ JsDate.getMonth tza d5 + 1 = 1
    /\ JsDate.getFullYear tza d5 = 2026.
Proof.
  exists (inZone tza (JsDate.MkDate 1767571200000)). split.
  - rewrite parseDateDeterministic_zone.
    assert (FillFromSheet.parseDateDeterministic 0 "05/01/2026"
            = FillFromSheet.MkParsed (Some (JsDate.MkDate 1767571200000))
                (Some FillFromSheet.Kdmy)) as -> by (vm_compute; reflexivity).
    reflexivity.
  - unfold JsDate.getFullYear, JsDate.getMonth, JsDate.getDate.
    rewrite localCivil_zone. vm_compute. repeat split; reflexivity.
Qed.

Lemma parse_numeric_shape_components (tza : Z) (p1 p2 y : string) (s1 s2 : ascii) (d' : JsDate.Date) :
  isDigits 1 2 p1 = true -> isDigits 1 2 p2 = true -> isDigits 2 4 y = true ->
  isSepChar s1 = true -> isSepChar s2 = true ->
  FillFromSheet.date
    (FillFromSheet.parseDateDeterministic tza (p1 +:+ String s1 (p2 +:+ String s2 y))) = Some d' ->
  FillFromSheet.kind
    (FillFromSheet.parseDateDeterministic tza (p1 +:+ String s1 (p2 +:+ String s2 y)))
  = Some FillFromSheet.Kdmy
  /\ JsDate.getDate tza d' = JsString.Number p1
  /\ JsDate.getMonth tza d' = JsString.Number p2 - 1
  /\ JsDate.getFullYear tza d'
     = (if JsString.Number y <? 100 then 2000 + JsString.Number y else JsString.Number y).
Proof.
  intros H1 H2 Hy Hs1 Hs2.
  rewrite (parse_numeric_shape tza p1 p2 y s1 s2 H1 H2 Hy Hs1 Hs2).
  destruct (_ && _); [|intros Hd'; discriminate Hd'].
  destruct (FillFromSheet.sameComponents _ _ _ _ _) eqn:E; [|intros Hd'; discriminate Hd'].
  cbn [FillFromSheet.date FillFromSheet.kind]. intros [= <-].
  unfold FillFromSheet.sameComponents in E.
  apply andb_true_iff in E as [[E1 E2]%andb_true_iff E3].
  apply Z.eqb_eq in E1, E2, E3.
  split; [reflexivity|]. split; [exact E3|]. split; [exact E2|exact E1].
Qed.

(** C2.  Under the deterministic policy a string made of one or two
    digits, a separator among slash, dash, dot and blank, one or two
    digits, such a separator, and two to four digits is always read with
    the first part as the day and the second as the month: the resolver
    returns exactly the date of that day, month and year (two-digit years
    are 2000 + year) with kind dmy when these numbers pass the guards and
    the round trip, and none otherwise; so whatever it resolves has the
    first part as its day and the second as its month.  In particular
    05/01/2026 resolves to day 5, month 1 (January), year 2026. *)
Theorem numeric_dates_resolve_day_first :
  forall (tza : Z) (p1 p2 y : string) (s1 s2 : ascii),
    isDigits 1 2 p1 = true -> isDigits 1 2 p2 = true -> isDigits 2 4 y = true ->
    isSepChar s1 = true -> isSepChar s2 = true ->
    let day := JsString.Number p1 in
    let month := JsString.Number p2 in
    let year := if JsString.Number y <? 100 then 2000 + JsString.Number y
                else JsString.Number y in
    let d := JsDate.newDate tza year (month - 1) day in
    let r := FillFromSheet.parseDateDeterministic tza (p1 +:+ String s1 (p2 +:+ String s2 y)) in
    r = (if (1 <=? month) && (month <=? 12) && (1 <=? day) && (day <=? 31)
         then
           if FillFromSheet.sameComponents tza d year month day
           then FillFromSheet.MkParsed (Some d) (Some FillFromSheet.Kdmy)
           else FillFromSheet.noDate
         else FillFromSheet.noDate)
    /\ (forall d', FillFromSheet.date r = Some d' ->
          FillFromSheet.kind r = Some FillFromSheet.Kdmy
          /\ JsDate.getDate tza d' = day
          /\ JsDate.getMonth tza d' = month - 1
          /\ JsDate.getFullYear tza d' = year)
    /\ (exists d5,
          FillFromSheet.parseDateDeterministic tza "05/01/2026"
          = FillFromSheet.MkParsed (Some d5) (Some FillFromSheet.Kdmy)
          /\ JsDate.getDate tza d5 = 5 /\ JsDate.getMonth tza d5 + 1 = 1
          /\ JsDate.getFullYear tza d5 = 2026).
Proof.
  intros tza p1 p2 y s1 s2 H1 H2 Hy Hs1 Hs2 day month year d r.
  split; [exact (parse_numeric_shape tza p1 p2 y s1 s2 H1 H2 Hy Hs1 Hs2)|].
  split; [|apply resolve_05_01_2026].
  intros d'. exact (parse_numeric_shape_components tza p1 p2 y s1 s2 d' H1 H2 Hy Hs1 Hs2).
Qed.

(** The theorem on 05/01/2026 in the zone of UTC. *)
Lemma numeric_dates_resolve_day_first_witness :
  isDigits 1 2 "05" = true /\ isDigits 1 2 "01" = true /\ isDigits 2 4 "2026" = true
  /\ isSepChar "/" = true
  /\ FillFromSheet.parseDateDeterministic 0 "05/01/2026"
     = FillFromSheet.MkParsed (Some (JsDate.newDate 0 2026 0 5)) (Some FillFromSheet.Kdmy).
Proof.
  repeat (split; [reflexivity|]).
  destruct (numeric_dates_resolve_day_first 0 "05" "01" "2026" "/" "/"
              eq_refl eq_refl eq_refl eq_refl eq_refl) as (Hr & _).
  exact Hr.
Defined.


(** ** The round-trip check *)

Section RoundTripFacts.
Import JsString Regex JsDate FillFromSheet.

Local Arguments matchesSet : simpl never.

Lemma digit_is_no_letter (c : ascii) :
  matchesSet true CsDigit c = true -> matchesSet true letterSet c = false.
Proof.
  destruct c as [[] [] [] [] [] [] [] []]; vm_compute; try discriminate; auto.
Qed.

(** A match of a pattern that opens with [^] and a group of at least one
    character of a class starts with a character of that class. *)
Lemma exec_first_char (ic : bool) (i : nat) (cs : charset) (mn : nat) (mx : option nat)
    (k : regex) (s : string) (m : gmap nat string) :
  exec ic (RSeq RBol (RSeq (RGroup i (RRep cs (S mn) mx)) k)) s = Some m ->
  exists c s', s = String c s' /\ matchesSet ic cs c = true.
Proof.
  rewrite exec_anchored, run_seq_states. destruct s as [|c s'].
  - cbn [run repChars rest Nat.eqb fmap list_fmap]. by destruct mx as [[|]|].
  - intros H. exists c, s'. split; [done|].
    destruct (matchesSet ic cs c) eqn:E; [done|].
    cbn [run repChars rest Nat.eqb] in H. rewrite E in H. by destruct mx as [[|]|].
Qed.

(** The two textual patterns never match the same string. *)
Lemma text_patterns_exclusive (c : string) (m : gmap nat string) :
  exec true textDayFirstRe c = Some m -> exec true textMonthFirstRe c = None.
Proof.
  intros H. unfold textDayFirstRe in H. cbn [rseq] in H.
  apply exec_first_char in H as (a & c' & -> & Ha).
  destruct (exec true textMonthFirstRe (String a c')) as [m'|] eqn:E; [|done].
  unfold textMonthFirstRe in E. cbn [rseq] in E.
  apply exec_first_char in E as (a' & c'' & [= <- <-] & Ha').
  apply digit_is_no_letter in Ha. congruence.
Qed.

Lemma textCandidate_Some (tza day : Z) (month : option Z) (year : Z) (r : parsed) :
  textCandidate tza day month year = Some r ->
  exists mo, month = Some mo
    /\ r = MkParsed (Some (newDate tza year (mo - 1) day)) (Some Ktext)
    /\ sameComponents tza (newDate tza year (mo - 1) day) year mo day = true.
Proof.
  unfold textCandidate. destruct month as [mo|]; [|done].
  destruct (_ && _); [|done].
  destruct (sameComponents _ _ _ _ _) eqn:E; [|done].
  intros [= <-]. by exists mo.
Qed.

Lemma textCandidate_mismatch (tza day month year : Z) :
  sameComponents tza (newDate tza year (month - 1) day) year month day = false ->
  textCandidate tza day (Some month) year = None.
Proof. unfold textCandidate. intros ->. by destruct (_ && _). Qed.

Lemma sameComponents_true (tza : Z) (d : Date) (year month day : Z) :
  sameComponents tza d year month day = true ->
  getFullYear tza d = year /\ getMonth tza d = month - 1 /\ getDate tza d = day.
Proof.
  unfold sameComponents. intros [[E1 E2]%andb_true_iff E3]%andb_true_iff.
  apply Z.eqb_eq in E1, E2, E3. by repeat split.
Qed.

(** A mismatch after reconstruction gives none. *)
Lemma mismatch_gives_none (tza : Z) (s : string) (day month year : Z) :
  s <> "" ->
  shapeRead s day month year ->
  sameComponents tza (newDate tza year (month - 1) day) year month day = false ->
  parseDateDeterministic tza s = noDate.
Proof.
  intros Hs Hread Hbad. apply truthy_true in Hs.
  unfold parseDateDeterministic. rewrite Hs. cbn [negb].
  destruct Hread as [m Hm|m Hn Hm|m month Hn Hi Hm Hmo|m month Hn Hi Hm Hmo].
  - rewrite Hm. cbv zeta. unfold numericYear in Hbad. rewrite Hbad.
    by destruct (_ && _).
  - rewrite Hn, Hm. cbv zeta. by rewrite Hbad.
  - rewrite Hn, Hi. fold (cleanedOf s). rewrite Hm, Hmo.
    rewrite (textCandidate_mismatch _ _ _ _ Hbad).
    by rewrite (text_patterns_exclusive _ _ Hm).
  - rewrite Hn, Hi. fold (cleanedOf s). rewrite Hm, Hmo.
    rewrite (textCandidate_mismatch _ _ _ _ Hbad).
    destruct (exec true textDayFirstRe (cleanedOf s)) as [m1|] eqn:H1; [|done].
    apply text_patterns_exclusive in H1. congruence.
Qed.

(** A resolved date has the components that were read. *)
Lemma resolved_matches_read (tza : Z) (s : string) (d : Date) :
  date (parseDateDeterministic tza s) = Some d ->
  exists day month year,
    shapeRead s day month year
    /\ getFullYear tza d = year /\ getMonth tza d = month - 1 /\ getDate tza d = day.
Proof.
  unfold parseDateDeterministic. destruct (negb (truthy s)); [done|].
  destruct (exec false numericDmyRe (trim s)) as [m|] eqn:Hn.
  { cbv zeta. destruct (_ && _); [|done].
    destruct (sameComponents _ _ _ _ _) eqn:E; [|done].
    cbn [date]. intros [= <-]. do 3 eexists. split; [by apply ReadNumeric|].
    by apply sameComponents_true in E. }
  destruct (exec false isoRe (trim s)) as [m|] eqn:Hi.
  { cbv zeta. destruct (sameComponents _ _ _ _ _) eqn:E; [|done].
    cbn [date]. intros [= <-]. do 3 eexists. split; [by apply ReadIso|].
    by apply sameComponents_true in E. }
  fold (cleanedOf s).
  destruct (exec true textDayFirstRe (cleanedOf s)) as [m1|] eqn:H1.
  - destruct (textCandidate tza _ _ _) as [r|] eqn:Hc.
    + apply textCandidate_Some in Hc as (mo & Hmo & -> & E).
      cbn [date]. intros [= <-]. do 3 eexists. split; [by eapply ReadDayFirst|].
      by apply sameComponents_true in E.
    + by rewrite (text_patterns_exclusive _ _ H1).
  - destruct (exec true textMonthFirstRe (cleanedOf s)) as [m2|] eqn:H2; [|done].
    destruct (textCandidate tza _ _ _) as [r|] eqn:Hc; [|done].
    apply textCandidate_Some in Hc as (mo & Hmo & -> & E).
    cbn [date]. intros [= <-]. do 3 eexists. split; [by eapply ReadMonthFirst|].
    by apply sameComponents_true in E.
Qed.

End RoundTripFacts.

(** C3.  For every input string: whenever the date rebuilt from the day,
    month and year that were read does not show these same components,
    the resolver returns none; conversely whatever it resolves has exactly
    the components read, so no date is ever moved to a neighbouring one.
    In particular 31/04/2025 is read as day 31, month 4, year 2025, the
    rebuilt date is 1 May 2025, and the result is none. *)
Theorem mismatch_after_reconstruction_gives_none :
  forall tza : Z,
    (forall s day month year,
        s <> "" ->
        shapeRead s day month year ->
        FillFromSheet.sameComponents tza (JsDate.newDate tza year (month - 1) day)
          year month day = false ->
        FillFromSheet.parseDateDeterministic tza s = FillFromSheet.noDate)
    /\ (forall s d,
        FillFromSheet.date (FillFromSheet.parseDateDeterministic tza s) = Some d ->
        exists day month year,
          shapeRead s day month year
          /\ JsDate.getFullYear tza d = year /\ JsDate.getMonth tza d = month - 1
          /\ JsDate.getDate tza d = day)
    /\ shapeRead "31/04/2025" 31 4 2025
    /\ JsDate.localCivil tza (JsDate.newDate tza 2025 (4 - 1) 31) = (2025, 5, 1)
    /\ FillFromSheet.parseDateDeterministic tza "31/04/2025" = FillFromSheet.noDate.
Proof.
  intros tza.
  assert (Hread : shapeRead "31/04/2025" 31 4 2025).
  { assert (Hm : Regex.exec false FillFromSheet.numericDmyRe (JsString.trim "31/04/2025")
                 = Some (<[3%nat := "2025"]> (<[2%nat := "4"]>
                          (<[1%nat := "31"]> (∅ : gmap nat string)))))
      by (vm_compute; reflexivity).
    exact (ReadNumeric "31/04/2025" _ Hm). }
  assert (Hciv : JsDate.localCivil tza (JsDate.newDate tza 2025 (4 - 1) 31) = (2025, 5, 1)).
  { rewrite (newDate_zone tza), localCivil_zone. vm_compute. reflexivity. }
  split; [|split; [|split; [|split]]].
  - intros s day month year. apply mismatch_gives_none.
  - intros s d. apply resolved_matches_read.
  - exact Hread.
  - exact Hciv.
  - apply (mismatch_gives_none tza "31/04/2025" 31 4 2025); [discriminate|exact Hread|].
    unfold FillFromSheet.sameComponents, JsDate.getFullYear, JsDate.getMonth, JsDate.getDate.
    rewrite Hciv. reflexivity.
Qed.

(** The theorem on 31/04/2025 in the zone of UTC. *)
Lemma mismatch_after_reconstruction_witness :
  "31/04/2025" <> ""
  /\ shapeRead "31/04/2025" 31 4 2025
  /\ FillFromSheet.sameComponents 0 (JsDate.newDate 0 2025 (4 - 1) 31) 2025 4 31 = false
  /\ FillFromSheet.parseDateDeterministic 0 "31/04/2025" = FillFromSheet.noDate.
Proof.
  destruct (mismatch_after_reconstruction_gives_none 0) as (Hnone & _ & Hread & _).
  split; [discriminate|]. split; [exact Hread|].
  assert (Hbad : FillFromSheet.sameComponents 0 (JsDate.newDate 0 2025 (4 - 1) 31) 2025 4 31
                 = false) by (vm_compute; reflexivity).
  split; [exact Hbad|].
  exact (Hnone "31/04/2025" 31 4 2025 ltac:(discriminate) Hread Hbad).
Defined.

(** ** The calendar arithmetic behind [Date] *)

Section CalendarFacts.
Import JsDate.

Transparent JsDate.civilFromDays JsDate.daysFromCivil.

Ltac month_cases m :=
  let Hmonth := fresh "Hmonth" in
  assert (m = 1 \/ m = 2 \/ m = 3 \/ m = 4 \/ m = 5 \/ m = 6 \/ m = 7 \/ m = 8 \/ m = 9
          \/ m = 10 \/ m = 11 \/ m = 12) as Hmonth by lia;
  repeat destruct Hmonth as [Hmonth|Hmonth]; subst m.

Ltac div_lia := Z.to_euclidean_division_equations; lia.

(** Decide the comparisons between numerals that a fixed month leaves. *)
Ltac eval_tests :=
  repeat match goal with
         | |- context [?a =? ?b] =>
             let v := eval vm_compute in (a =? b) in
             match v with true => idtac | false => idtac end;
             change (a =? b) with v
         | |- context [?a <=? ?b] =>
             let v := eval vm_compute in (a <=? b) in
             match v with true => idtac | false => idtac end;
             change (a <=? b) with v
         | |- context [?a <? ?b] =>
             let v := eval vm_compute in (a <? b) in
             match v with true => idtac | false => idtac end;
             change (a <? b) with v
         end;
  cbn [orb andb negb fst snd].

Lemma daysFromCivil_day (y m d : Z) :
  daysFromCivil y m d = daysFromCivil y m 1 + d - 1.
Proof. unfold daysFromCivil. lia. Qed.

(** Every day number has a month in 1..12 and a day in 1..31. *)
Lemma civilFromDays_range (z : Z) :
  1 <= (civilFromDays z).1.2 <= 12 /\ 1 <= (civilFromDays z).2 <= 31.
Proof.
  unfold civilFromDays. cbv zeta. cbn [fst snd].
  set (doe := z + 719468 - (z + 719468) / 146097 * 146097).
  assert (0 <= doe < 146097) as Hdoe by (unfold doe; div_lia).
  clearbody doe.
  set (yoe := (doe - doe / 1460 + doe / 36524 - doe / 146096) / 365).
  assert (0 <= doe - (365 * yoe + yoe / 4 - yoe / 100) <= 365) as Hdoy
    by (unfold yoe; div_lia).
  set (doy := doe - (365 * yoe + yoe / 4 - yoe / 100)) in *. clearbody doy.
  destruct (Z.ltb_spec ((5 * doy + 2) / 153) 10); div_lia.
Qed.

Lemma isLeapYear_spec (y : Z) :
  isLeapYear y = true <-> (y mod 4 = 0 /\ y mod 100 <> 0) \/ y mod 400 = 0.
Proof.
  unfold isLeapYear. rewrite orb_true_iff, andb_true_iff, negb_true_iff, !Z.eqb_eq, Z.eqb_neq.
  reflexivity.
Qed.

Lemma era_split (era doe : Z) :
  0 <= doe < 146097 -> (era * 146097 + doe) / 146097 = era.
Proof. intros. div_lia. Qed.

(** The year of the era is found again from the day of the era; day 365
    of a year that starts in March exists when the next February has 29
    days. *)
Lemma yoe_of_doe (yoe doy : Z) :
  0 <= yoe < 400 -> 0 <= doy <= 365 ->
  (doy = 365 -> ((yoe + 1) mod 4 = 0 /\ (yoe + 1) mod 100 <> 0) \/ (yoe + 1) mod 400 = 0) ->
  let doe := yoe * 365 + yoe / 4 - yoe / 100 + doy in
  0 <= doe < 146097 /\ (doe - doe / 1460 + doe / 36524 - doe / 146096) / 365 = yoe.
Proof. intros Hy Hd Hl doe. unfold doe. split; div_lia. Qed.

(** The body of [civilFromDays] once the year of the era is known. *)
Lemma civilFromDays_in_year (era yoe doy : Z) :
  0 <= yoe < 400 -> 0 <= doy <= 365 ->
  (doy = 365 -> ((yoe + 1) mod 4 = 0 /\ (yoe + 1) mod 100 <> 0) \/ (yoe + 1) mod 400 = 0) ->
  civilFromDays (era * 146097 + (yoe * 365 + yoe / 4 - yoe / 100 + doy) - 719468)
  = let mp := (5 * doy + 2) / 153 in
    let m := if mp <? 10 then mp + 3 else mp - 9 in
    (if m <=? 2 then yoe + era * 400 + 1 else yoe + era * 400, m,
     doy - (153 * mp + 2) / 5 + 1).
Proof.
  intros Hy Hd Hl. destruct (yoe_of_doe yoe doy Hy Hd Hl) as [Hdoe Hyoe].
  unfold civilFromDays. cbv zeta.
  set (doe := yoe * 365 + yoe / 4 - yoe / 100 + doy) in *.
  replace (era * 146097 + doe - 719468 + 719468) with (era * 146097 + doe) by lia.
  rewrite (era_split era doe Hdoe).
  replace (era * 146097 + doe - era * 146097) with doe by lia.
  rewrite Hyoe.
  replace (doe - (365 * yoe + yoe / 4 - yoe / 100)) with doy by (unfold doe; lia).
  reflexivity.
Qed.

(** [daysFromCivil] split into era, year of the era and day of the year. *)
Lemma daysFromCivil_in_year (y m d : Z) :
  let y' := if m <=? 2 then y - 1 else y in
  let yoe := y' - y' / 400 * 400 in
  daysFromCivil y m d
  = y' / 400 * 146097
    + (yoe * 365 + yoe / 4 - yoe / 100 + ((153 * ((m + 9) mod 12) + 2) / 5 + d - 1)) - 719468.
Proof. reflexivity. Qed.

(** A date of the calendar is found again from its day number. *)
Lemma civilFromDays_daysFromCivil (y m d : Z) :
  1 <= m <= 12 -> 1 <= d <= daysInMonth y m ->
  civilFromDays (daysFromCivil y m d) = (y, m, d).
Proof.
  intros Hm Hd. unfold daysInMonth in Hd.
  pose proof (isLeapYear_spec y) as Hleap.
  rewrite daysFromCivil_in_year. cbv zeta.
  set (y' := if m <=? 2 then y - 1 else y).
  set (yoe := y' - y' / 400 * 400).
  assert (0 <= yoe < 400) as Hyoe by (unfold yoe; div_lia).
  set (doy := (153 * ((m + 9) mod 12) + 2) / 5 + d - 1).
  assert (0 <= doy <= 365
          /\ (doy = 365 ->
              ((yoe + 1) mod 4 = 0 /\ (yoe + 1) mod 100 <> 0) \/ (yoe + 1) mod 400 = 0)
          /\ (5 * doy + 2) / 153 = (m + 9) mod 12) as (Hdoy & Hl & Hmp).
  { unfold doy, yoe, y'.
    destruct (isLeapYear y);
      [assert ((y mod 4 = 0 /\ y mod 100 <> 0) \/ y mod 400 = 0) as Hly by (by apply Hleap)
      |assert (~ ((y mod 4 = 0 /\ y mod 100 <> 0) \/ y mod 400 = 0)) as Hly
         by (intros H; apply Hleap in H; discriminate H)];
      clear Hleap; month_cases m; cbn in Hd |- *;
      (split; [div_lia|split; [intros ?; first [exfalso; lia|div_lia]|div_lia]]). }
  rewrite (civilFromDays_in_year _ yoe doy Hyoe Hdoy Hl). cbv zeta. rewrite Hmp.
  unfold doy, yoe, y'. clear - Hm.
  month_cases m; f_equal; try f_equal; repeat case_match; div_lia.
Qed.

(** Past the last day of a month the day number is that of a day of the
    next month. *)
Lemma daysFromCivil_overflow (y m d : Z) :
  1 <= m <= 12 ->
  daysFromCivil y m (daysInMonth y m + d)
  = daysFromCivil (nextMonth y m).1 (nextMonth y m).2 d.
Proof.
  intros Hm. unfold daysInMonth, nextMonth.
  pose proof (isLeapYear_spec y) as Hleap.
  destruct (isLeapYear y);
    [assert ((y mod 4 = 0 /\ y mod 100 <> 0) \/ y mod 400 = 0) as Hly by (by apply Hleap)
    |assert (~ ((y mod 4 = 0 /\ y mod 100 <> 0) \/ y mod 400 = 0)) as Hly
       by (intros H; apply Hleap in H; discriminate H)];
    clear Hleap; month_cases m; unfold nextMonth; eval_tests; unfold daysFromCivil;
    cbv zeta; eval_tests; div_lia.
Qed.

(** The reconstruction returns the year, month and day it was given
    exactly for the days that the month has. *)
Lemma civil_round_trip_iff (y m d : Z) :
  1 <= m <= 12 -> 1 <= d <= 31 ->
  civilFromDays (daysFromCivil y m d) = (y, m, d) <-> d <= daysInMonth y m.
Proof.
  intros Hm Hd. split.
  - intros H. destruct (Z.le_gt_cases d (daysInMonth y m)) as [|Hgt]; [done|].
    exfalso.
    replace d with (daysInMonth y m + (d - daysInMonth y m)) in H by lia.
    rewrite daysFromCivil_overflow in H by done.
    assert (28 <= daysInMonth y m)
      by (unfold daysInMonth; repeat case_match; lia).
    rewrite civilFromDays_daysFromCivil in H.
    + apply (f_equal (fun t => t.1.2)) in H. unfold nextMonth in H.
      destruct (m =? 12) eqn:E; cbn [fst snd] in H; lia.
    + unfold nextMonth. destruct (m =? 12) eqn:E; cbn [fst snd]; lia.
    + assert (28 <= daysInMonth (nextMonth y m).1 (nextMonth y m).2)
        by (unfold daysInMonth; repeat case_match; lia).
      lia.
  - intros Hle. apply civilFromDays_daysFromCivil; [done|lia].
Qed.

Opaque JsDate.civilFromDays JsDate.daysFromCivil.

End CalendarFacts.

(** ** Strings: [trim], [String(n)] and [Number(s)] *)

Section DecimalFacts.
Import JsString.

Local Arguments String.append : simpl nomatch.

Lemma append_assoc (a b c : string) : (a +:+ b) +:+ c = a +:+ (b +:+ c).
Proof. induction a as [|x a IH]; [done|]. cbn [String.append]. by rewrite IH. Qed.

Lemma append_empty_r (a : string) : a +:+ "" = a.
Proof. induction a as [|x a IH]; [done|]. cbn [String.append]. by rewrite IH. Qed.

Lemma allChars_app (p : ascii -> bool) (a b : string) :
  allChars p (a +:+ b) = allChars p a && allChars p b.
Proof.
  induction a as [|x a IH]; [done|]. cbn [String.append allChars].
  by rewrite IH, andb_assoc.
Qed.

Lemma allChars_impl (p q : ascii -> bool) (s : string) :
  (forall c, p c = true -> q c = true) -> allChars p s = true -> allChars q s = true.
Proof.
  intros Hpq. induction s as [|c s IH]; [done|]. cbn [allChars].
  intros [Hc Hs]%andb_true_iff. by rewrite (Hpq c Hc), IH.
Qed.

Lemma length_app (a b : string) :
  String.length (a +:+ b) = (String.length a + String.length b)%nat.
Proof. induction a as [|x a IH]; [done|]. cbn [String.append String.length]. by rewrite IH. Qed.

Lemma trimEnd_idemp (s : string) : trimEnd (trimEnd s) = trimEnd s.
Proof.
  induction s as [|c s IH]; [done|]. cbn [trimEnd].
  destruct (trimEnd s) as [|a t] eqn:E.
  - destruct (isWhiteSpace c) eqn:Hc; [done|]. cbn [trimEnd]. by rewrite Hc.
  - change (trimEnd (String c (String a t)))
      with (match trimEnd (String a t) with
            | EmptyString => if isWhiteSpace c then EmptyString else String c EmptyString
            | u => String c u
            end).
    by rewrite IH.
Qed.

Lemma trimStart_cases (s : string) :
  trimStart s = "" \/ exists c t, trimStart s = String c t /\ isWhiteSpace c = false.
Proof.
  induction s as [|c s IH]; [by left|]. cbn [trimStart].
  destruct (isWhiteSpace c) eqn:Hc; [exact IH|]. right. by exists c, s.
Qed.

Lemma trimEnd_cons (c : ascii) (t : string) :
  isWhiteSpace c = false -> exists u, trimEnd (String c t) = String c u.
Proof.
  intros Hc. cbn [trimEnd]. destruct (trimEnd t) as [|a u].
  - rewrite Hc. by eexists.
  - by eexists.
Qed.

(** [trim] leaves a trimmed string as it is. *)
Lemma trim_idemp (s : string) : trim (trim s) = trim s.
Proof.
  unfold trim. destruct (trimStart_cases s) as [->|(c & t & -> & Hc)]; [done|].
  destruct (trimEnd_cons c t Hc) as [u Hu].
  rewrite Hu. cbn [trimStart]. rewrite Hc, <- Hu. apply trimEnd_idemp.
Qed.

Lemma digitOfZ_digit (k : Z) :
  0 <= k <= 9 -> isDigit (digitOfZ k) = true /\ digitVal (digitOfZ k) = k.
Proof.
  intros Hk.
  assert (k = 0 \/ k = 1 \/ k = 2 \/ k = 3 \/ k = 4 \/ k = 5 \/ k = 6 \/ k = 7 \/ k = 8 \/ k = 9)
    as H by lia.
  repeat destruct H as [H|H]; subst k; by vm_compute.
Qed.

Lemma log2_div10 (n : Z) : 10 <= n -> Z.log2 (n / 10) < Z.log2 n.
Proof.
  intros Hn. destruct (Z.log2_spec n ltac:(lia)) as [_ Hup].
  rewrite Z.pow_succ_r in Hup by apply Z.log2_nonneg.
  apply Z.log2_lt_pow2; Z.to_euclidean_division_equations; lia.
Qed.

Lemma digitsAcc_fuel (f1 f2 : nat) (n : Z) (acc : string) :
  0 <= n -> (Z.to_nat (Z.log2 n) < f1)%nat -> (Z.to_nat (Z.log2 n) < f2)%nat ->
  digitsAcc f1 n acc = digitsAcc f2 n acc.
Proof.
  revert f2 n acc. induction f1 as [|f1 IH]; intros f2 n acc Hn H1 H2; [lia|].
  destruct f2 as [|f2]; [lia|]. cbn [digitsAcc]. cbv zeta.
  destruct (Z.ltb_spec n 10) as [|Hge]; [done|].
  pose proof (log2_div10 n Hge).
  pose proof (Z.log2_nonneg (n / 10)).
  apply IH; [Z.to_euclidean_division_equations; lia|lia|lia].
Qed.

Lemma digitsAcc_app (f : nat) (n : Z) (acc : string) :
  digitsAcc f n acc = digitsAcc f n "" +:+ acc.
Proof.
  revert n acc. induction f as [|f IH]; intros n acc; [done|].
  cbn [digitsAcc]. cbv zeta. destruct (n <? 10); [done|].
  rewrite IH, (IH _ (String _ "")), append_assoc. done.
Qed.

(** [String(n)] digit by digit. *)
Lemma stringOfNat_step (n : Z) :
  0 <= n ->
  stringOfNat n
  = if n <? 10 then String (digitOfZ n) ""
    else stringOfNat (n / 10) +:+ String (digitOfZ (n mod 10)) "".
Proof.
  intros Hn. unfold stringOfNat at 1. cbn [digitsAcc]. cbv zeta.
  destruct (Z.ltb_spec n 10) as [Hlt|Hge].
  - by rewrite Z.mod_small by lia.
  - rewrite digitsAcc_app. f_equal. unfold stringOfNat.
    pose proof (log2_div10 n Hge).
    pose proof (Z.log2_nonneg (n / 10)).
    apply digitsAcc_fuel; [Z.to_euclidean_division_equations; lia|lia|lia].
Qed.

Lemma numberAcc_app (a : Z) (s : string) (c : ascii) :
  numberAcc a (s +:+ String c "") = numberAcc a s * 10 + digitVal c.
Proof. revert a. induction s as [|x s IH]; intros a; [done|]. cbn [String.append numberAcc]. apply IH. Qed.

Lemma numberAcc_nonneg (a : Z) (s : string) :
  0 <= a -> allChars isDigit s = true -> 0 <= numberAcc a s.
Proof.
  revert a. induction s as [|c s IH]; intros a Ha; [done|]. cbn [allChars numberAcc].
  intros [Hc Hs]%andb_true_iff. apply IH; [|done].
  unfold isDigit, between in Hc. unfold digitVal. lia.
Qed.

Lemma Number_nonneg (s : string) : allChars isDigit s = true -> 0 <= Number s.
Proof. apply numberAcc_nonneg. lia. Qed.

(** [String(n)] is made of decimal digits, and [Number] reads [n] back. *)
Lemma stringOfNat_spec (n : Z) :
  0 <= n -> allChars isDigit (stringOfNat n) = true /\ Number (stringOfNat n) = n.
Proof.
  intros Hn. pattern n. apply Zlt_0_ind; [|done]. clear n Hn. intros n IH Hn.
  rewrite stringOfNat_step by done.
  destruct (Z.ltb_spec n 10) as [Hlt|Hge].
  - destruct (digitOfZ_digit n ltac:(lia)) as [H1 H2]. cbn [allChars]. rewrite H1.
    split; [done|]. unfold Number. cbn [numberAcc]. lia.
  - destruct (IH (n / 10)) as [IH1 IH2]; [Z.to_euclidean_division_equations; lia|].
    destruct (digitOfZ_digit (n mod 10)) as [H1 H2]; [Z.to_euclidean_division_equations; lia|].
    rewrite allChars_app, IH1. cbn [allChars]. rewrite H1. split; [done|].
    unfold Number in *. rewrite numberAcc_app, IH2, H2.
    Z.to_euclidean_division_equations; lia.
Qed.

(** The number of digits of [String(n)] below 100000. *)
Lemma stringOfNat_length (n : Z) :
  0 <= n ->
  String.length (stringOfNat n)
  = (if n <? 10 then 1%nat else if n <? 100 then 2%nat else if n <? 1000 then 3%nat
     else if n <? 10000 then 4%nat else S (String.length (stringOfNat (n / 10))))
  /\ (10000 <= n -> (5 <= String.length (stringOfNat n))%nat).
Proof.
  intros Hn.
  assert (Hstep : forall k, 10 <= k ->
            String.length (stringOfNat k) = S (String.length (stringOfNat (k / 10)))).
  { intros k Hk. rewrite (stringOfNat_step k) by lia.
    destruct (Z.ltb_spec k 10); [lia|]. rewrite length_app. cbn [String.length]. lia. }
  assert (Hone : forall k, 0 <= k < 10 -> String.length (stringOfNat k) = 1%nat).
  { intros k Hk. rewrite (stringOfNat_step k) by lia. by destruct (Z.ltb_spec k 10); [|lia]. }
  assert (Htwo : forall k, 10 <= k < 100 -> String.length (stringOfNat k) = 2%nat).
  { intros k Hk. rewrite Hstep, Hone by (try lia; Z.to_euclidean_division_equations; lia). done. }
  assert (Hthree : forall k, 100 <= k < 1000 -> String.length (stringOfNat k) = 3%nat).
  { intros k Hk. rewrite Hstep, Htwo by (try lia; Z.to_euclidean_division_equations; lia). done. }
  assert (Hfour : forall k, 1000 <= k < 10000 -> String.length (stringOfNat k) = 4%nat).
  { intros k Hk. rewrite Hstep, Hthree by (try lia; Z.to_euclidean_division_equations; lia). done. }
  split.
  - repeat case_match; try lia; first [apply Hone|apply Htwo|apply Hthree|apply Hfour|apply Hstep]; lia.
  - pattern n. apply Zlt_0_ind; [|done]. clear n Hn. intros n IH Hn Hbig.
    rewrite Hstep by lia.
    destruct (Z.lt_ge_cases (n / 10) 10000) as [Hs|Hs].
    + rewrite Hfour by (Z.to_euclidean_division_equations; lia). lia.
    + specialize (IH (n / 10)).
      assert (5 <= String.length (stringOfNat (n / 10)))%nat
        by (apply IH; Z.to_euclidean_division_equations; lia).
      lia.
Qed.

Lemma stringOfInt_nonneg (n : Z) : 0 <= n -> stringOfInt n = stringOfNat n.
Proof. intros Hn. unfold stringOfInt. by destruct (Z.ltb_spec n 0); [lia|]. Qed.

(** [String(n)] holds digits and at most a sign. *)
Lemma stringOfInt_chars (n : Z) :
  allChars (fun c => isDigit c || Ascii.eqb c "-") (stringOfInt n) = true.
Proof.
  unfold stringOfInt. destruct (Z.ltb_spec n 0).
  - cbn [allChars]. rewrite orb_true_r. cbn [andb].
    apply (allChars_impl isDigit); [by intros c ->|]. apply stringOfNat_spec. lia.
  - apply (allChars_impl isDigit); [by intros c ->|]. by apply stringOfNat_spec.
Qed.

Lemma stringOfNat_truthy (n : Z) : 0 <= n -> truthy (stringOfNat n) = true.
Proof.
  intros Hn. rewrite stringOfNat_step by done. destruct (n <? 10); [done|].
  by destruct (stringOfNat (n / 10)).
Qed.

Lemma stringOfInt_truthy (n : Z) : truthy (stringOfInt n) = true.
Proof.
  unfold stringOfInt. destruct (Z.ltb_spec n 0); [done|]. by apply stringOfNat_truthy.
Qed.

End DecimalFacts.

(** ** Resolved dates and the calendar *)

Section CalendarDateFacts.
Import JsString Regex JsDate FillFromSheet.

Variable tza : Z.

Local Arguments String.append : simpl nomatch.

Ltac no_date :=
  let H := fresh in
  intros H; first [discriminate H | cbn in H; discriminate H].

(** The local calendar date of [new Date(y, m - 1, d)]. *)
Lemma localCivil_newDate (y m d : Z) :
  100 <= y -> 1 <= m <= 12 ->
  localCivil tza (newDate tza y (m - 1) d) = civilFromDays (daysFromCivil y m d).
Proof.
  intros Hy Hm. unfold localCivil, newDate, LocalTime, UTC, MakeDate, MakeDay, Day, msPerDay.
  cbn [timeValue].
  replace ((0 <=? y) && (y <=? 99)) with false by (symmetry; apply andb_false_iff; lia).
  replace (y + (m - 1) / 12) with y by (Z.to_euclidean_division_equations; lia).
  replace ((m - 1) mod 12 + 1) with m by (Z.to_euclidean_division_equations; lia).
  rewrite <- daysFromCivil_day. f_equal. generalize (daysFromCivil y m d). intros D.
  Z.to_euclidean_division_equations; lia.
Qed.

(** The round-trip check succeeds exactly on the days that the month has. *)
Lemma sameComponents_calendar (y m d : Z) :
  100 <= y -> 1 <= m <= 12 -> 1 <= d <= 31 ->
  sameComponents tza (newDate tza y (m - 1) d) y m d = (d <=? daysInMonth y m).
Proof.
  intros Hy Hm Hd. unfold sameComponents, getFullYear, getMonth, getDate.
  rewrite localCivil_newDate by done.
  pose proof (civil_round_trip_iff y m d Hm Hd) as Hiff.
  destruct (civilFromDays (daysFromCivil y m d)) as [[a b] c]. cbn [fst snd].
  destruct (Z.leb_spec d (daysInMonth y m)) as [Hle|Hgt].
  - apply Hiff in Hle. injection Hle as -> -> ->. by rewrite !Z.eqb_refl.
  - apply not_true_is_false. intros [[E1 E2]%andb_true_iff E3]%andb_true_iff.
    apply Z.eqb_eq in E1, E2, E3.
    assert (d <= daysInMonth y m); [|lia].
    apply Hiff. f_equal; [f_equal|]; lia.
Qed.

Lemma date_components_range (d : Date) :
  0 <= getMonth tza d <= 11 /\ 1 <= getDate tza d <= 31.
Proof.
  unfold getMonth, getDate, localCivil.
  pose proof (civilFromDays_range (Day (LocalTime tza (timeValue d)))). lia.
Qed.

(** A round-trip check that succeeds implies the guards on day and month. *)
Lemma sameComponents_guards (d : Date) (year month day : Z) :
  sameComponents tza d year month day = true ->
  (1 <=? month) && (month <=? 12) && (1 <=? day) && (day <=? 31) = true.
Proof.
  intros (_ & Hm & Hd)%sameComponents_true. pose proof (date_components_range d).
  rewrite !andb_true_iff, !Z.leb_le. lia.
Qed.

(** Whatever the resolver returns is the local midnight of the day it shows. *)
Lemma resolved_is_local_midnight (s : string) (d : Date) :
  date (parseDateDeterministic tza s) = Some d ->
  d = newDate tza (getFullYear tza d) (getMonth tza d + 1 - 1) (getDate tza d)
  /\ sameComponents tza d (getFullYear tza d) (getMonth tza d + 1) (getDate tza d) = true.
Proof.
  assert (Hgen : forall y m dd,
            sameComponents tza (newDate tza y (m - 1) dd) y m dd = true ->
            let d := newDate tza y (m - 1) dd in
            d = newDate tza (getFullYear tza d) (getMonth tza d + 1 - 1) (getDate tza d)
            /\ sameComponents tza d (getFullYear tza d) (getMonth tza d + 1) (getDate tza d)
               = true).
  { intros y m dd E d0. pose proof E as (E1 & E2 & E3)%sameComponents_true.
    fold d0 in E1, E2, E3. rewrite E1, E2, E3.
    replace (m - 1 + 1) with m by lia. split; [reflexivity|exact E]. }
  unfold parseDateDeterministic. destruct (negb (truthy s)); [no_date|].
  destruct (exec false numericDmyRe (trim s)) as [m|].
  { cbv zeta. destruct (_ && _); [|no_date].
    destruct (sameComponents _ _ _ _ _) eqn:E; [|no_date].
    cbn [date]. intros [= <-]. by apply Hgen. }
  destruct (exec false isoRe (trim s)) as [m|].
  { cbv zeta. destruct (sameComponents _ _ _ _ _) eqn:E; [|no_date].
    cbn [date]. intros [= <-]. by apply Hgen. }
  destruct (exec true textDayFirstRe _) as [m1|].
  - destruct (textCandidate tza _ _ _) as [r|] eqn:Hc.
    + apply textCandidate_Some in Hc as (mo & Hmo & -> & E).
      cbn [date]. intros [= <-]. by apply Hgen.
    + destruct (exec true textMonthFirstRe _) as [m2|]; [|no_date].
      destruct (textCandidate tza (Number (group m2 2)) _ _) as [r|] eqn:Hc2; [|no_date].
      apply textCandidate_Some in Hc2 as (mo & Hmo & -> & E).
      cbn [date]. intros [= <-]. by apply Hgen.
  - destruct (exec true textMonthFirstRe _) as [m2|]; [|no_date].
    destruct (textCandidate tza (Number (group m2 2)) _ _) as [r|] eqn:Hc2; [|no_date].
    apply textCandidate_Some in Hc2 as (mo & Hmo & -> & E).
    cbn [date]. intros [= <-]. by apply Hgen.
Qed.

(** When the resolver returns nothing, neither does the fallback that
    reads the numeric shape once more. *)
Lemma normalizeRaw_after_no_date (s : string) :
  date (parseDateDeterministic tza s) = None ->
  normalizeRawDateForFilename tza s = None.
Proof.
  unfold parseDateDeterministic, normalizeRawDateForFilename.
  destruct (negb (truthy s)); [reflexivity|].
  destruct (exec false numericDmyRe (trim s)) as [m|]; [|reflexivity].
  cbv zeta. destruct (sameComponents _ _ _ _ _) eqn:E; [|reflexivity].
  rewrite (sameComponents_guards _ _ _ _ E). no_date.
Qed.

Lemma truthy_app_l (a b : string) : truthy a = true -> truthy (a +:+ b) = true.
Proof. by destruct a. Qed.

(** The date token: the resolved date when there is one, [nodate] otherwise. *)
Lemma safeDateOf_resolved (s : string) :
  safeDateOf tza s
  = match date (parseDateDeterministic tza s) with
    | Some d => formatDateForFilename tza (Some d)
    | None => "nodate"
    end.
Proof.
  unfold safeDateOf.
  destruct (date (parseDateDeterministic tza s)) as [d|] eqn:Hd.
  - assert (truthy (formatDateForFilename tza (Some d)) = true) as Ht
      by apply truthy_app_l, stringOfInt_truthy.
    rewrite Ht. unfold orElse. by rewrite Ht.
  - cbn [truthy]. by rewrite (normalizeRaw_after_no_date s Hd).
Qed.

End CalendarDateFacts.

(** ** The date token of a file name *)

Section TokenFacts.
Import JsString Regex JsDate FillFromSheet.

Local Arguments matchesSet : simpl never.
Local Arguments insert : simpl never.
Local Arguments String.append : simpl nomatch.

Ltac rx_run :=
  repeat (simpl; unfold advance; simpl;
          rewrite ?andb_false_r, ?andb_true_r, ?app_nil_r, ?bind_states;
          repeat match goal with
                 | H : matchesSet _ _ _ = _ |- _ => rewrite H
                 end).

Lemma digit_no_dash (c : ascii) :
  isDigit c = true ->
  matchesSet false CsDigit c = true /\ matchesSet false (CsChar "-") c = false.
Proof.
  destruct c as [[] [] [] [] [] [] [] []]; vm_compute; try discriminate; auto.
Qed.

Lemma no_digit_cases (c : ascii) :
  isDigit c = false -> matchesSet false CsDigit c = false.
Proof. unfold matchesSet. cbn [inSet andb]. intros ->. reflexivity. Qed.

(** The block [\d{1,2}-] on one or two digits and a dash. *)
Lemma digits_dash_block (k : regex) (p tail : string) (b : bool) (caps : gmap nat string) :
  isDigits 1 2 p = true ->
  (run false (RSeq (RRep CsDigit 1 (Some 2%nat)) (RSeq (RLit "-") k))
     (MState b (p +:+ String "-" tail) caps)).*2
  = (run false k (MState false tail caps)).*2.
Proof.
  unfold isDigits. intros [[Hd Hlo]%andb_true_iff Hhi]%andb_true_iff.
  assert (matchesSet false (CsChar "-") "-" = true) as Hdash by reflexivity.
  assert (matchesSet false CsDigit "-" = false) as Hdash' by reflexivity.
  destruct p as [|a [|b0 [|c p]]]; try discriminate;
    cbn [allChars] in Hd;
    repeat match goal with
           | H : _ && _ = true |- _ => apply andb_true_iff in H as [? ?]
           | H : isDigit _ = true |- _ => apply digit_no_dash in H as (? & ?)
           end;
    rewrite !run_seq_states; rx_run; reflexivity.
Qed.

(** The block [\d{4}$]. *)
Lemma four_digits_block (c : string) (b : bool) (caps : gmap nat string) :
  (run false (RSeq (RRep CsDigit 4 (Some 4%nat)) REol) (MState b c caps)).*2
  = if isDigits 4 4 c then [MState false "" caps] else [].
Proof.
  unfold isDigits.
  destruct c as [|c1 [|c2 [|c3 [|c4 [|c5 c]]]]]; cbn [allChars String.length];
    repeat match goal with
           | |- context [isDigit ?x] =>
               is_var x; let E := fresh "E" in let E' := fresh "E" in
               destruct (isDigit x) eqn:E;
               [pose proof (proj1 (digit_no_dash x E)) as E'
               |pose proof (no_digit_cases x E) as E']; clear E
           end;
    rx_run; reflexivity.
Qed.

Lemma test_anchored (k : regex) (s : string) :
  test false (RSeq RBol k) s
  = match (run false k (MState true s ∅)).*2 with [] => false | _ => true end.
Proof.
  unfold test. rewrite exec_anchored. by destruct ((run false k _).*2).
Qed.

(** [FINAL_DATE_REGEX] on a token whose day and month have one or two
    digits: it matches exactly when the year has four digits. *)
Lemma final_regex_on_token (a b c : string) :
  isDigits 1 2 a = true -> isDigits 1 2 b = true ->
  test false FINAL_DATE_REGEX (a +:+ "-" +:+ b +:+ "-" +:+ c) = isDigits 4 4 c.
Proof.
  intros Ha Hb. unfold FINAL_DATE_REGEX. cbn [rseq]. rewrite test_anchored.
  change ("-" +:+ b +:+ "-" +:+ c) with (String "-" (b +:+ String "-" c)).
  rewrite (digits_dash_block _ a _ true ∅ Ha), (digits_dash_block _ b _ false ∅ Hb).
  rewrite four_digits_block. by destruct (isDigits 4 4 c).
Qed.

Lemma isDigits_small (n : Z) : 0 <= n < 100 -> isDigits 1 2 (stringOfInt n) = true.
Proof.
  intros Hn. rewrite stringOfInt_nonneg by lia. unfold isDigits.
  destruct (stringOfNat_spec n) as [-> _]; [lia|].
  destruct (stringOfNat_length n) as [-> _]; [lia|].
  by repeat case_match; try lia.
Qed.

Lemma isDigits_year (n : Z) : 10 <= n <= 9999 -> isDigits 2 4 (stringOfInt n) = true.
Proof.
  intros Hn. rewrite stringOfInt_nonneg by lia. unfold isDigits.
  destruct (stringOfNat_spec n) as [-> _]; [lia|].
  destruct (stringOfNat_length n) as [-> _]; [lia|].
  by repeat case_match; try lia.
Qed.

Lemma isDigits_four (n : Z) :
  isDigits 4 4 (stringOfInt n) = (1000 <=? n) && (n <=? 9999).
Proof.
  unfold stringOfInt. destruct (Z.ltb_spec n 0) as [Hneg|Hpos].
  - unfold isDigits. cbn [allChars]. change (isDigit "-") with false. cbn [andb].
    symmetry. apply andb_false_iff. left. apply Z.leb_gt. lia.
  - unfold isDigits. destruct (stringOfNat_spec n Hpos) as [-> _].
    destruct (stringOfNat_length n Hpos) as [Hlen Hbig].
    destruct (Z.leb_spec 1000 n), (Z.leb_spec n 9999); cbn [andb].
    + rewrite Hlen. by repeat case_match; try lia.
    + specialize (Hbig ltac:(lia)).
      destruct (String.length (stringOfNat n)) as [|[|[|[|[|k]]]]]; try lia. reflexivity.
    + rewrite Hlen. by repeat case_match; try lia.
    + lia.
Qed.

Variable tza : Z.

(** The token of a resolved date and the verdict of the integrity check. *)
Lemma token_of_resolved (s : string) (d : Date) :
  date (parseDateDeterministic tza s) = Some d ->
  safeDateOf tza s
  = stringOfInt (getDate tza d) +:+ "-" +:+ stringOfInt (getMonth tza d + 1) +:+ "-"
    +:+ stringOfInt (getFullYear tza d)
  /\ test false FINAL_DATE_REGEX (safeDateOf tza s)
     = (1000 <=? getFullYear tza d) && (getFullYear tza d <=? 9999).
Proof.
  intros Hd. rewrite safeDateOf_resolved, Hd. unfold formatDateForFilename.
  split; [reflexivity|].
  pose proof (date_components_range tza d) as [Hm Hday].
  rewrite final_regex_on_token by (apply isDigits_small; lia).
  apply isDigits_four.
Qed.

(** A token with a year of three or four digits resolves back. *)
Lemma token_resolves_back (s : string) (d : Date) :
  date (parseDateDeterministic tza s) = Some d ->
  100 <= getFullYear tza d <= 9999 ->
  parseDateDeterministic tza (formatDateForFilename tza (Some d))
  = MkParsed (Some d) (Some Kdmy).
Proof.
  intros Hd Hy. destruct (resolved_is_local_midnight tza s d Hd) as [Hmid Hsame].
  pose proof (date_components_range tza d) as [Hm Hday].
  unfold formatDateForFilename.
  set (D := getDate tza d) in *. set (M := getMonth tza d) in *.
  set (Y := getFullYear tza d) in *. clearbody D M Y.
  change ("-" +:+ stringOfInt (M + 1) +:+ "-" +:+ stringOfInt Y)
    with (String "-" (stringOfInt (M + 1) +:+ String "-" (stringOfInt Y))).
  rewrite parse_numeric_shape;
    [|by apply isDigits_small; lia|by apply isDigits_small; lia|by apply isDigits_year; lia
     |reflexivity|reflexivity].
  rewrite !stringOfInt_nonneg by lia.
  destruct (stringOfNat_spec D) as [_ ->]; [lia|].
  destruct (stringOfNat_spec (M + 1)) as [_ ->]; [lia|].
  destruct (stringOfNat_spec Y) as [_ ->]; [lia|].
  replace (Y <? 100) with false by (symmetry; apply Z.ltb_ge; lia).
  rewrite <- Hmid, Hsame, (sameComponents_guards tza d Y (M + 1) D Hsame). reflexivity.
Qed.

End TokenFacts.

(** ** Names of artifacts *)

Section NameFacts.
Import JsString Regex JsDate Fs SheetRow FillFromSheet.

Local Arguments String.append : simpl nomatch.

Lemma digit_or_dash_safe (c : ascii) :
  isDigit c || Ascii.eqb c "-" = true -> negb (pathHostile c) = true.
Proof.
  destruct c as [[] [] [] [] [] [] [] []]; vm_compute; try discriminate; auto.
Qed.

Lemma stringOfInt_safe (n : Z) :
  allChars (fun c => negb (pathHostile c)) (stringOfInt n) = true.
Proof.
  apply (allChars_impl (fun c => isDigit c || Ascii.eqb c "-")); [apply digit_or_dash_safe|].
  apply stringOfInt_chars.
Qed.

Lemma safeDateOf_safe (tza : Z) (s : string) :
  allChars (fun c => negb (pathHostile c)) (safeDateOf tza s) = true.
Proof.
  rewrite safeDateOf_resolved. destruct (date _) as [d|]; [|reflexivity].
  unfold formatDateForFilename. rewrite !allChars_app, !stringOfInt_safe. reflexivity.
Qed.

Lemma replaceEach_no_hostile (s : string) :
  allChars (fun c => negb (pathHostile c)) (replaceEach pathHostile "-" s) = true.
Proof.
  induction s as [|c s IH]; [done|]. cbn [replaceEach].
  destruct (pathHostile c) eqn:E.
  - cbn [String.append allChars]. by rewrite IH.
  - cbn [allChars]. by rewrite E, IH.
Qed.

End NameFacts.

(** X1.  [parseDateDeterministic] on a string of the numeric shape
    (one or two digits, a separator, one or two digits, a separator, two
    to four digits): the round-trip check through [Date] accepts exactly
    the days of the Gregorian calendar.  The string resolves, day first,
    when the month is 1..12 and the day is between 1 and the number of
    days of that month in that year, 29 February in leap years only; in
    every other case the result is none. *)
Theorem numeric_dates_resolve_exactly_on_calendar_days :
  forall (tza : Z) (p1 p2 y : string) (s1 s2 : ascii),
    isDigits 1 2 p1 = true -> isDigits 1 2 p2 = true -> isDigits 2 4 y = true ->
    isSepChar s1 = true -> isSepChar s2 = true ->
    let day := JsString.Number p1 in
    let month := JsString.Number p2 in
    let year := numericYear (JsString.Number y) in
    FillFromSheet.parseDateDeterministic tza (p1 +:+ String s1 (p2 +:+ String s2 y))
    = if (1 <=? month) && (month <=? 12) && (1 <=? day) && (day <=? daysInMonth year month)
      then FillFromSheet.MkParsed (Some (JsDate.newDate tza year (month - 1) day))
             (Some FillFromSheet.Kdmy)
      else FillFromSheet.noDate.
Proof.
  intros tza p1 p2 y s1 s2 H1 H2 Hy Hs1 Hs2 day month year.
  rewrite (parse_numeric_shape tza p1 p2 y s1 s2 H1 H2 Hy Hs1 Hs2).
  fold day month. change (if JsString.Number y <? 100 then 2000 + JsString.Number y
                          else JsString.Number y) with year.
  assert (100 <= year) as Hyear.
  { unfold year, numericYear.
    assert (0 <= JsString.Number y).
    { apply Number_nonneg. unfold isDigits in Hy.
      by apply andb_true_iff in Hy as [[? _]%andb_true_iff _]. }
    destruct (Z.ltb_spec (JsString.Number y) 100); lia. }
  assert (daysInMonth year month <= 31) as Hdim
    by (unfold daysInMonth; repeat case_match; lia).
  clearbody day month year.
  destruct (Z.leb_spec 1 month), (Z.leb_spec month 12), (Z.leb_spec 1 day); cbn [andb];
    try reflexivity.
  destruct (Z.leb_spec day 31) as [Hd|Hd].
  - by rewrite sameComponents_calendar by lia.
  - by destruct (Z.leb_spec day (daysInMonth year month)); [lia|].
Qed.

(** The theorem on 29 February of a leap year and of a common year. *)
Lemma numeric_dates_resolve_exactly_on_calendar_days_witness :
  (isDigits 1 2 "29" = true /\ isDigits 1 2 "02" = true /\ isDigits 2 4 "2024" = true
   /\ isDigits 2 4 "2025" = true /\ isSepChar "/" = true)
  /\ FillFromSheet.parseDateDeterministic 0 "29/02/2024"
     = FillFromSheet.MkParsed (Some (JsDate.newDate 0 2024 1 29)) (Some FillFromSheet.Kdmy)
  /\ FillFromSheet.parseDateDeterministic 0 "29/02/2025" = FillFromSheet.noDate.
Proof.
  split; [repeat split; reflexivity|]. split.
  - exact (numeric_dates_resolve_exactly_on_calendar_days 0 "29" "02" "2024" "/" "/"
             eq_refl eq_refl eq_refl eq_refl eq_refl).
  - exact (numeric_dates_resolve_exactly_on_calendar_days 0 "29" "02" "2025" "/" "/"
             eq_refl eq_refl eq_refl eq_refl eq_refl).
Defined.

(** X2.  The date token that [createDocx] puts in a file name is the
    formatted resolved date when [parseDateDeterministic] resolves one
    and [nodate] otherwise: whenever the resolver returns no date,
    [normalizeRawDateForFilename] returns null as well, so the second
    reading of the raw string never supplies a token. *)
Theorem date_token_is_resolved_date_or_nodate :
  forall (tza : Z) (s : string),
    FillFromSheet.safeDateOf tza s
    = match FillFromSheet.date (FillFromSheet.parseDateDeterministic tza s) with
      | Some d => FillFromSheet.formatDateForFilename tza (Some d)
      | None => "nodate"
      end
    /\ (FillFromSheet.date (FillFromSheet.parseDateDeterministic tza s) = None ->
        FillFromSheet.normalizeRawDateForFilename tza s = None).
Proof.
  intros tza s. split; [apply safeDateOf_resolved|apply normalizeRaw_after_no_date].
Qed.

(** X3.  The integrity check of [createDocx] on a resolved date: the
    token is day-month-year without padding, and [FINAL_DATE_REGEX]
    accepts it exactly when the year has four digits.  A date that
    resolves to a year below 1000 (or above 9999) makes [createDocx]
    throw the error of the invalid file name date, after the output
    folder was created and before anything is written. *)
Theorem date_token_accepted_iff_year_has_four_digits :
  forall (tza : Z) (s : string) (d : JsDate.Date),
    FillFromSheet.date (FillFromSheet.parseDateDeterministic tza s) = Some d ->
    let Y := JsDate.getFullYear tza d in
    FillFromSheet.safeDateOf tza s
    = JsString.stringOfInt (JsDate.getDate tza d) +:+ "-"
      +:+ JsString.stringOfInt (JsDate.getMonth tza d + 1) +:+ "-" +:+ JsString.stringOfInt Y
    /\ Regex.test false FillFromSheet.FINAL_DATE_REGEX (FillFromSheet.safeDateOf tza s)
       = (1000 <=? Y) && (Y <=? 9999)
    /\ forall OUTPUT_DIR FORCE DRY renderDocx now fs data content buf,
         SheetRow.DATE data = s ->
         Fs.template fs = Some content ->
         renderDocx content data = Some buf ->
         Y < 1000 \/ 9999 < Y ->
         FillFromSheet.createDocx tza OUTPUT_DIR FORCE DRY renderDocx now fs data
         = (Fs.Threw "Invalid filename date format - aborting", Fs.ensureOutputDir fs,
            [FillFromSheet.LogFatalFilenameDate (FillFromSheet.safeDateOf tza s)]).
Proof.
  intros tza s d Hd Y. destruct (token_of_resolved tza s d Hd) as [Htok Htest].
  split; [exact Htok|]. split; [exact Htest|].
  intros OUTPUT_DIR FORCE DRY renderDocx now fs data content buf Hs Ht Hr HY.
  unfold FillFromSheet.createDocx. rewrite Ht, Hr, Hs, Htest.
  assert (String.eqb (FillFromSheet.safeDateOf tza s) "nodate" = false) as ->.
  { apply String.eqb_neq. intros E.
    assert (JsString.allChars (fun c => JsString.isDigit c || Ascii.eqb c "-")
              (FillFromSheet.safeDateOf tza s) = true) as Hall
      by (rewrite Htok, !allChars_app, !stringOfInt_chars; reflexivity).
    rewrite E in Hall. discriminate Hall. }
  assert ((1000 <=? JsDate.getFullYear tza d) && (JsDate.getFullYear tza d <=? 9999) = false)
    as ->.
  { unfold Y in HY. apply andb_false_iff.
    destruct HY; [left|right]; apply Z.leb_gt; lia. }
  reflexivity.
Qed.

(** The theorem on 5/1/0100, which resolves to 5 January of the year 100. *)
Lemma date_token_accepted_iff_year_has_four_digits_witness :
  FillFromSheet.date (FillFromSheet.parseDateDeterministic 0 "5/1/0100")
  = Some (JsDate.newDate 0 100 0 5)
  /\ FillFromSheet.safeDateOf 0 "5/1/0100" = "5-1-100"
  /\ Regex.test false FillFromSheet.FINAL_DATE_REGEX (FillFromSheet.safeDateOf 0 "5/1/0100")
     = false.
Proof.
  assert (FillFromSheet.date (FillFromSheet.parseDateDeterministic 0 "5/1/0100")
          = Some (JsDate.newDate 0 100 0 5)) as Hd by (vm_compute; reflexivity).
  split; [exact Hd|].
  destruct (date_token_accepted_iff_year_has_four_digits 0 "5/1/0100" _ Hd) as (H1 & H2 & _).
  split.
  - rewrite H1. vm_compute. reflexivity.
  - rewrite H2. vm_compute. reflexivity.
Defined.

(** X4.  The date token of a file name resolves back to the date it
    was made from: for every date [d] that [parseDateDeterministic]
    resolves, of whatever shape, with a year of three or four digits,
    [parseDateDeterministic (formatDateForFilename d)] is [d] again, read
    day first. *)
Theorem date_token_resolves_back_to_its_date :
  forall (tza : Z) (s : string) (d : JsDate.Date),
    FillFromSheet.date (FillFromSheet.parseDateDeterministic tza s) = Some d ->
    100 <= JsDate.getFullYear tza d <= 9999 ->
    FillFromSheet.parseDateDeterministic tza (FillFromSheet.formatDateForFilename tza (Some d))
    = FillFromSheet.MkParsed (Some d) (Some FillFromSheet.Kdmy).
Proof. intros tza s d. apply token_resolves_back. Qed.

(** The theorem on a date written in words. *)
Lemma date_token_resolves_back_to_its_date_witness :
  FillFromSheet.parseDateDeterministic 0 "5th January 2026"
  = FillFromSheet.MkParsed (Some (JsDate.newDate 0 2026 0 5)) (Some FillFromSheet.Ktext)
  /\ FillFromSheet.formatDateForFilename 0 (Some (JsDate.newDate 0 2026 0 5)) = "5-1-2026"
  /\ FillFromSheet.parseDateDeterministic 0
       (FillFromSheet.formatDateForFilename 0 (Some (JsDate.newDate 0 2026 0 5)))
     = FillFromSheet.MkParsed (Some (JsDate.newDate 0 2026 0 5)) (Some FillFromSheet.Kdmy).
Proof.
  assert (FillFromSheet.parseDateDeterministic 0 "5th January 2026"
          = FillFromSheet.MkParsed (Some (JsDate.newDate 0 2026 0 5))
              (Some FillFromSheet.Ktext)) as Hp by (vm_compute; reflexivity).
  split; [exact Hp|]. split; [vm_compute; reflexivity|].
  apply (date_token_resolves_back_to_its_date 0 "5th January 2026").
  - rewrite Hp. reflexivity.
  - vm_compute. split; intros H; discriminate H.
Defined.

(** X5.  No artifact name holds a path-hostile character, whatever
    the record: the names that both generators compose contain no slash,
    backslash, question mark, percent sign, star, colon, bar, double
    quote or angle bracket, so [path.join(OUTPUT_DIR, name)] always names
    an entry of the output folder itself. *)
Theorem artifact_names_hold_no_path_character :
  (forall (tza : Z) (data : SheetRow.templateFields),
      JsString.allChars (fun c => negb (FillFromSheet.pathHostile c))
        (FillFromSheet.outputName tza data) = true)
  /\ (forall data : SheetRow.templateFields,
      JsString.allChars (fun c => negb (FillFromSheet.pathHostile c))
        (LegacyGenerator.outputName data) = true).
Proof.
  split.
  - intros tza data. unfold FillFromSheet.outputName.
    rewrite !allChars_app, safeDateOf_safe, !safeFilename_no_hostile. reflexivity.
  - intros data. unfold LegacyGenerator.outputName, LegacyGenerator.safeFilename.
    rewrite !allChars_app, !replaceEach_no_hostile. reflexivity.
Qed.

(** ** The poller: where the watermark ends up *)

Section WatermarkFacts.
Import JsString PollJotform.

Variable generate : gmap string string -> genOutcome.

Lemma default_last_cons {A} (n x : A) (l : list A) :
  default n (last (x :: l)) = default x (last l).
Proof.
  revert n x. induction l as [|y l IH]; intros n x; [done|].
  change (last (x :: y :: l)) with (last (y :: l)). by rewrite (IH n y), (IH x y).
Qed.

Lemma pollLoop_newest (mark : string) (subs : list submission) (n : string) :
  (pollLoop generate mark subs n).1
  = default n (last (sidOf <$> List.filter (succeeded generate mark) subs)).
Proof.
  revert n. induction subs as [|s subs IH]; intros n; [done|].
  cbn [pollLoop List.filter]. unfold succeeded at 1, passesGate.
  destruct (truthy (sidOf s)); cbn [negb andb]; [|apply IH].
  destruct (alreadySeen mark (sidOf s)); cbn [negb andb]; [apply IH|].
  destruct (generate (mapSubmission s)).
  - specialize (IH (sidOf s)). destruct (pollLoop _ _ _ (sidOf s)) as [n' evs].
    cbn [fst] in *. cbn [fmap list_fmap]. by rewrite default_last_cons.
  - specialize (IH n). destruct (pollLoop _ _ _ n) as [n' evs]. exact IH.
  - specialize (IH n). destruct (pollLoop _ _ _ n) as [n' evs]. exact IH.
Qed.

Lemma pollLoop_appended (mark : string) (subs : list submission) (n : string) :
  appended (pollLoop generate mark subs n).2
  = (fun s => sheetRowOf (mapSubmission s)) <$> List.filter (succeeded generate mark) subs.
Proof.
  revert n. induction subs as [|s subs IH]; intros n; [done|].
  cbn [pollLoop List.filter]. unfold succeeded at 1, passesGate.
  destruct (truthy (sidOf s)); cbn [negb andb]; [|apply IH].
  destruct (alreadySeen mark (sidOf s)); cbn [negb andb]; [apply IH|].
  destruct (generate (mapSubmission s)).
  - specialize (IH (sidOf s)). destruct (pollLoop _ _ _ (sidOf s)) as [n' evs].
    cbn [snd appended omap list_omap fmap list_fmap] in *. by rewrite <- IH.
  - specialize (IH n). destruct (pollLoop _ _ _ n) as [n' evs].
    cbn [snd appended omap list_omap] in *. exact IH.
  - specialize (IH n). destruct (pollLoop _ _ _ n) as [n' evs].
    cbn [snd appended omap list_omap] in *. exact IH.
Qed.

Lemma leStr_refl (s : string) : leStr s s = true.
Proof.
  unfold leStr, isLessThan.
  assert (isPrefix s s = true) as -> by (induction s; cbn; [done|by rewrite Ascii.eqb_refl]).
  done.
Qed.

(** An identifier that passes the gate is not empty and comes strictly
    after the watermark. *)
Lemma passesGate_after (mark sid : string) :
  passesGate mark sid = true -> sid <> "" /\ sid <> mark /\ isLessThan mark sid = true.
Proof.
  unfold passesGate, alreadySeen. intros [Hs Hg]%andb_true_iff.
  apply truthy_true in Hs. apply negb_true_iff in Hg. split; [done|].
  destruct mark as [|a mark].
  - split; [done|]. by destruct sid.
  - cbn [truthy andb] in Hg. split.
    + intros ->. by rewrite leStr_refl in Hg.
    + unfold leStr in Hg. by apply negb_false_iff in Hg.
Qed.

Lemma last_filter_passes {A} (p : A -> bool) (l : list A) (x : A) :
  last (List.filter p l) = Some x -> p x = true /\ In x l.
Proof.
  intros H. apply last_Some in H as [l' H].
  assert (In x (List.filter p l)) as Hin by (rewrite H; apply in_or_app; right; by left).
  apply filter_In in Hin. tauto.
Qed.

(** The state that a cycle leaves. *)
Lemma processNew_state (listed : list submission) (st : pollState) :
  (processNew generate (Some listed) st).1
  = match last (sidOf <$> List.filter (succeeded generate (readLastProcessed st)) (rev listed)) with
    | Some sid => if lastWritable st then MkPoll (Some sid) true else st
    | None => st
    end.
Proof.
  unfold processNew. destruct listed as [|s0 listed]; [done|].
  set (subs := rev (s0 :: listed)). set (mark := readLastProcessed st).
  pose proof (pollLoop_newest mark subs mark) as Hn.
  destruct (pollLoop generate mark subs mark) as [n evs]. cbn [fst] in Hn. subst n.
  destruct (last (sidOf <$> List.filter (succeeded generate mark) subs)) as [sid|] eqn:Hl.
  - cbn. rewrite fmap_last in Hl.
    destruct (last (List.filter _ subs)) as [s|] eqn:Hs; [|done].
    injection Hl as <-. apply last_filter_passes in Hs as [Hs _].
    unfold succeeded in Hs. apply andb_true_iff in Hs as [Hg _].
    apply passesGate_after in Hg as (Hne & Hmark & _).
    apply truthy_true in Hne. rewrite Hne.
    apply String.eqb_neq in Hmark. rewrite Hmark. cbn [negb andb].
    unfold writeLastProcessed. by destruct (lastWritable st).
  - cbn. rewrite String.eqb_refl, andb_false_r. done.
Qed.

End WatermarkFacts.

(** X6.  The watermark after a polling cycle.  Among the listed
    submissions, taken oldest first, consider those that pass the gate
    and for which the generator resolves to a truthy value.  When there
    is none the poll state is left as it was, so everything offered in
    this cycle is offered again by the next one; otherwise the file is
    rewritten (when it can be written) with the identifier of the last of
    them, whatever happened to the submissions before it. *)
Theorem watermark_is_last_successful_submission :
  forall (generate : gmap string string -> PollJotform.genOutcome)
         (listed : list PollJotform.submission) (st : PollJotform.pollState),
    let mark := PollJotform.readLastProcessed st in
    let finished := PollJotform.sidOf <$> List.filter (succeeded generate mark) (rev listed) in
    (PollJotform.processNew generate (Some listed) st).1
    = match last finished with
      | Some sid =>
          if PollJotform.lastWritable st then PollJotform.MkPoll (Some sid) true else st
      | None => st
      end
    /\ (finished = [] ->
        forall generate',
          PollJotform.offered
            (PollJotform.processNew generate' (Some listed)
               (PollJotform.processNew generate (Some listed) st).1).2
          = PollJotform.offered (PollJotform.processNew generate (Some listed) st).2).
Proof.
  intros generate listed st mark finished.
  pose proof (processNew_state generate listed st) as Hst. fold mark finished in Hst.
  split; [exact Hst|].
  intros Hnone. rewrite Hnone in Hst. cbn [last] in Hst. intros generate'.
  rewrite Hst, !processNew_offered. reflexivity.
Qed.

(** X7.  A polling cycle never lowers the watermark: either the poll
    state is left as it was, or the file now holds the identifier of a
    listed submission that is not empty and strictly greater, as a
    string, than the watermark that the cycle read. *)
Theorem watermark_file_only_moves_up :
  forall (generate : gmap string string -> PollJotform.genOutcome)
         (listed : option (list PollJotform.submission)) (st : PollJotform.pollState),
    let st' := (PollJotform.processNew generate listed st).1 in
    st' = st
    \/ exists s,
         st' = PollJotform.MkPoll (Some (PollJotform.sidOf s)) true
         /\ In s (default [] listed)
         /\ PollJotform.sidOf s <> ""
         /\ JsString.isLessThan (PollJotform.readLastProcessed st) (PollJotform.sidOf s) = true.
Proof.
  intros generate listed st st'. unfold st'. destruct listed as [listed|]; [|by left].
  rewrite processNew_state, fmap_last.
  destruct (last (List.filter _ (rev listed))) as [s|] eqn:Hs; [|by left].
  cbn [fmap option_fmap option_map]. destruct (PollJotform.lastWritable st); [|by left].
  right. exists s. apply last_filter_passes in Hs as [Hs Hin].
  unfold succeeded in Hs. apply andb_true_iff in Hs as [Hg _].
  apply passesGate_after in Hg as (Hne & _ & Hlt).
  split; [done|]. split; [by apply in_rev|]. by split.
Qed.

(** X8.  A row is appended to the sheet exactly for the submissions
    whose generation succeeded: the rows handed to [appendRowToSheet] in
    a cycle are those of the listed submissions, oldest first, that pass
    the gate and for which the generator resolves to a truthy value; a
    submission whose generation fails or throws appends nothing. *)
Theorem sheet_rows_follow_successful_generations :
  forall (generate : gmap string string -> PollJotform.genOutcome)
         (listed : list PollJotform.submission) (st : PollJotform.pollState),
    appended (PollJotform.processNew generate (Some listed) st).2
    = (fun s => PollJotform.sheetRowOf (PollJotform.mapSubmission s))
        <$> List.filter (succeeded generate (PollJotform.readLastProcessed st)) (rev listed).
Proof.
  intros generate listed st. unfold PollJotform.processNew.
  destruct listed as [|s0 listed]; [done|].
  set (subs := rev (s0 :: listed)). set (mark := PollJotform.readLastProcessed st).
  pose proof (pollLoop_appended generate mark subs mark) as H.
  destruct (PollJotform.pollLoop generate mark subs mark) as [n evs]. cbn [snd] in H.
  destruct (_ && _); [|exact H].
  unfold PollJotform.writeLastProcessed. destruct (PollJotform.lastWritable st); cbn [snd].
  - by rewrite app_nil_r.
  - unfold appended in *. rewrite omap_app. cbn [omap list_omap]. by rewrite app_nil_r.
Qed.

(** ** The submission object handed to the generator *)

Section MapFacts.
Import JsString PollJotform.

(** A map filled by successive assignments holds, under each key, the
    value of the last assignment to that key. *)
Lemma fold_insert_lookup {A} (key val : A -> string) (l : list A) (m0 : gmap string string)
    (k : string) :
  fold_left (fun acc x => <[key x := val x]> acc) l m0 !! k
  = match last (filter (fun x => key x = k) l) with
    | Some x => Some (val x)
    | None => m0 !! k
    end.
Proof.
  revert m0. induction l as [|x l IH]; intros m0; [done|].
  cbn [fold_left]. rewrite IH. destruct (decide (key x = k)) as [E|E].
  - rewrite filter_cons_True by done.
    destruct (filter _ l) as [|y fl] eqn:Hf; [cbn; by rewrite E, lookup_insert_eq|].
    change (last (x :: y :: fl)) with (last (y :: fl)).
    destruct (last (y :: fl)) eqn:El; [done|]. by apply last_None in El.
  - rewrite filter_cons_False by done.
    destruct (last _); [done|]. by rewrite lookup_insert_ne.
Qed.

(** The same for the assignments of [mapSubmission], which add no
    property under the key [__proto__]. *)
Lemma fold_setProp_lookup {A} (key val : A -> string) (l : list A) (m0 : gmap string string)
    (k : string) :
  k <> "__proto__" ->
  fold_left (fun acc x => setProp (key x) (val x) acc) l m0 !! k
  = match last (filter (fun x => key x = k) l) with
    | Some x => Some (val x)
    | None => m0 !! k
    end.
Proof.
  intros Hk. revert m0. induction l as [|x l IH]; intros m0; [done|].
  cbn [fold_left]. rewrite IH. unfold setProp.
  destruct (decide (key x = k)) as [E|E].
  - rewrite filter_cons_True by done.
    destruct (String.eqb_spec (key x) "__proto__") as [Ep|_]; [congruence|].
    destruct (filter _ l) as [|y fl] eqn:Hf; [cbn; by rewrite E, lookup_insert_eq|].
    change (last (x :: y :: fl)) with (last (y :: fl)).
    destruct (last (y :: fl)) eqn:El; [done|]. by apply last_None in El.
  - rewrite filter_cons_False by done.
    destruct (last _); [done|].
    destruct (String.eqb_spec (key x) "__proto__"); [done|]. by rewrite lookup_insert_ne.
Qed.

Lemma fold_setProp_proto {A} (key val : A -> string) (l : list A) (m0 : gmap string string) :
  fold_left (fun acc x => setProp (key x) (val x) acc) l m0 !! "__proto__" = m0 !! "__proto__".
Proof.
  revert m0. induction l as [|x l IH]; intros m0; [done|].
  cbn [fold_left]. rewrite IH. unfold setProp.
  destruct (String.eqb_spec (key x) "__proto__"); [done|]. by rewrite lookup_insert_ne.
Qed.

Lemma setOpt_lookup (k : string) (v : option string) (m : gmap string string) :
  setOpt k v m !! k = v.
Proof. destruct v; cbn; [apply lookup_insert_eq|apply lookup_delete_eq]. Qed.

Lemma setOpt_lookup_ne (k k' : string) (v : option string) (m : gmap string string) :
  k <> k' -> setOpt k v m !! k' = m !! k'.
Proof. intros Hne. destruct v; cbn; [by apply lookup_insert_ne|by apply lookup_delete_ne]. Qed.

End MapFacts.

(** X9.  What [mapSubmission] hands to the generator, seen through the
    own properties of the object.  The keys [_submission_id] and
    [_created_at] always hold the identifier and the creation time of
    the submission itself, also when an answer is named like one of
    them.  There is never a property [__proto__]: an answer so named is
    dropped.  Every other key holds the value of the last answer stored
    under it, where an answer is stored under its name, else its text,
    else [q] and its number, and its value is its answer, else its
    pretty format, else its text, else the empty string. *)
Theorem mapped_submission_keeps_its_identity :
  forall s : PollJotform.submission,
    PollJotform.mapSubmission s !! "_submission_id"
    = PollJotform.orOpt (PollJotform.submission_id s) (PollJotform.id s)
    /\ PollJotform.mapSubmission s !! "_created_at" = PollJotform.created_at s
    /\ PollJotform.mapSubmission s !! "__proto__" = None
    /\ forall (ans : list (string * PollJotform.answer)) (k : string),
         PollJotform.answers s = Some ans ->
         k <> "_submission_id" -> k <> "_created_at" -> k <> "__proto__" ->
         PollJotform.mapSubmission s !! k
         = answerValue <$> last (filter (fun ka => answerKey ka = k) ans).
Proof.
  intros s. unfold PollJotform.mapSubmission. split; [|split; [|split]].
  - rewrite setOpt_lookup_ne by done. apply setOpt_lookup.
  - apply setOpt_lookup.
  - rewrite !setOpt_lookup_ne by done. destruct (PollJotform.answers s) as [ans|].
    + rewrite (fold_setProp_proto answerKey answerValue ans ∅). apply lookup_empty.
    + rewrite !setOpt_lookup_ne by done. apply lookup_empty.
  - intros ans k Hans Hk1 Hk2 Hk3. rewrite !setOpt_lookup_ne by done. rewrite Hans.
    rewrite (fold_setProp_lookup answerKey answerValue ans ∅ k Hk3).
    destruct (last _); [done|]. apply lookup_empty.
Qed.

(** ** The generation loop *)

Section BatchFacts.
Import JsString Regex JsDate Fs SheetRow FillFromSheet.

Variable tza : Z.
Variable OUTPUT_DIR : string.
Variable renderDocx : string -> templateFields -> option string.

Local Abbreviation createDocx FORCE DRY :=
  (FillFromSheet.createDocx tza OUTPUT_DIR FORCE DRY renderDocx).
Local Abbreviation generateAll FORCE DRY :=
  (FillFromSheet.generateAll tza OUTPUT_DIR FORCE DRY renderDocx).
Local Abbreviation entriesOf fs := (default ∅ (outdir fs)).

Local Arguments FillFromSheet.outputName : simpl never.
Local Arguments FillFromSheet.safeDateOf : simpl never.
Local Arguments Regex.test : simpl never.
Local Arguments FillFromSheet.parseDateDeterministic : simpl never.
Local Arguments Fs.pathJoin : simpl never.
Local Arguments FillFromSheet.createDocx : simpl never.
Local Arguments SheetRow.mapSheetRowToTemplateFields : simpl never.

(** The four ways a call of [createDocx] ends. *)
Lemma createDocx_cases (FORCE DRY : bool) (now : Z) (fs : FS) (data : templateFields) :
  let name := outputName tza data in
  let r := createDocx FORCE DRY now fs data in
  template r.1.2 = template fs
  /\ ((exists e, r.1.1 = Threw e /\ (r.1.2 = fs \/ r.1.2 = ensureOutputDir fs))
      \/ (r.1.1 = Returned (MkResult true (pathJoin OUTPUT_DIR name) false)
          /\ FORCE = false /\ r.1.2 = fs /\ is_Some (entriesOf fs !! name))
      \/ (r.1.1 = Returned (MkResult false (pathJoin OUTPUT_DIR name) true)
          /\ DRY = true /\ r.1.2 = ensureOutputDir fs)
      \/ (exists buf,
            r.1.1 = Returned (MkResult false (pathJoin OUTPUT_DIR name) false)
            /\ DRY = false
            /\ template r.1.2 = template fs
            /\ outdir r.1.2 = Some (<[name := File buf now]> (entriesOf fs))
            /\ (FORCE = false -> entriesOf fs !! name = None))).
Proof.
  intros name r. unfold r, FillFromSheet.createDocx.
  destruct (template fs) as [content|] eqn:Ht;
    [|split; [done|left; exists "Template not found"; split; [done|by left]]].
  assert (template (ensureOutputDir fs) = Some content) as Hte
    by (by rewrite ensureOutputDir_template).
  destruct (renderDocx content data) as [buf|];
    [|split; [exact Hte|left; eexists; split; [done|by right]]].
  rewrite token_check. destruct (tokenAccepted tza data); cbn [negb];
    [|split; [exact Hte|left; eexists; split; [done|by right]]].
  fold name.
  destruct (existsInOutput (ensureOutputDir fs) name) eqn:Hex.
  - pose proof Hex as Hex'%existsInOutput_lookup.
    rewrite ensureOutputDir_entries in Hex'. cbn [default from_option id] in Hex'.
    assert (ensureOutputDir fs = fs) as Hens.
    { unfold ensureOutputDir. destruct (outdir fs) as [en|] eqn:Ho; [done|].
      cbn [default from_option id] in Hex'. rewrite lookup_empty in Hex'. by destruct Hex'. }
    destruct FORCE; cbn [negb andb].
    + destruct DRY.
      * split; [exact Hte|]. right. right. left. done.
      * unfold writeOutputFile. rewrite ensureOutputDir_entries, Hte.
        destruct (entriesOf fs !! name) as [[c t|t]|] eqn:Hl.
        -- split; [done|]. do 3 right. exists buf. cbn [fst snd template outdir].
           repeat split; try done.
        -- split; [exact Hte|].
           left. eexists. split; [done|by right].
        -- by destruct Hex'.
    + split; [exact Hte|]. right. left.
      cbn [fst snd]. rewrite Hens. done.
  - assert (entriesOf fs !! name = None) as Hnone.
    { destruct (entriesOf fs !! name) eqn:Hl; [|done].
      assert (existsInOutput (ensureOutputDir fs) name = true) as Hc; [|congruence].
      apply existsInOutput_lookup. rewrite ensureOutputDir_entries.
      cbn [default from_option id]. by rewrite Hl. }
    cbn [andb]. destruct DRY.
    + split; [exact Hte|]. right. right. left. done.
    + unfold writeOutputFile. rewrite ensureOutputDir_entries, Hte, Hnone.
      split; [done|]. do 3 right. exists buf. cbn [fst snd template outdir]. done.
Qed.

Lemma ensureOutputDir_idemp (fs : FS) : ensureOutputDir (ensureOutputDir fs) = ensureOutputDir fs.
Proof. by destruct fs as [t [en|]]. Qed.

Lemma entries_ensureOutputDir (fs : FS) : entriesOf (ensureOutputDir fs) = entriesOf fs.
Proof. by destruct fs as [t [en|]]. Qed.

(** One step of the loop. *)
Lemma generateAll_cons (FORCE DRY : bool) (now : Z) (fs : FS) (row : sheetRow)
    (more : list sheetRow) (c : nat) :
  generateAll FORCE DRY now fs (row :: more) c
  = match createDocx FORCE DRY now fs (mapSheetRowToTemplateFields row) with
    | (Returned out, fs', log) =>
        let '(res, fs'', log') :=
          generateAll FORCE DRY now fs' more (if skipped out then c else S c) in
        (res, fs'', log ++ log')
    | (Threw e, fs', log) => (Threw e, fs', log)
    end.
Proof. reflexivity. Qed.

(** The loop over two lists of rows, one after the other. *)
Lemma generateAll_app (FORCE DRY : bool) (now : Z) (fs : FS) (rows1 rows2 : list sheetRow)
    (c : nat) :
  generateAll FORCE DRY now fs (rows1 ++ rows2) c
  = match generateAll FORCE DRY now fs rows1 c with
    | (Returned c1, fs1, log1) =>
        let '(res, fs2, log2) := generateAll FORCE DRY now fs1 rows2 c1 in
        (res, fs2, log1 ++ log2)
    | (Threw e, fs1, log1) => (Threw e, fs1, log1)
    end.
Proof.
  revert fs c. induction rows1 as [|row rows1 IH]; intros fs c.
  - cbn [app FillFromSheet.generateAll]. by destruct (generateAll _ _ _ _ rows2 c) as [[[]]].
  - rewrite <- app_comm_cons, !generateAll_cons.
    destruct (createDocx FORCE DRY now fs _) as [[[out|e] fs'] log]; [|done].
    rewrite IH.
    destruct (generateAll FORCE DRY now fs' rows1 _) as [[[c1|e] fs1] log1]; [|done].
    destruct (generateAll FORCE DRY now fs1 rows2 c1) as [[res fs2] log2].
    by rewrite app_assoc.
Qed.

(** A dry run changes nothing but the existence of the output folder. *)
Lemma generateAll_dry (FORCE : bool) (now : Z) (fs : FS) (rows : list sheetRow) (c : nat) :
  (generateAll FORCE true now fs rows c).1.2 = fs
  \/ (generateAll FORCE true now fs rows c).1.2 = ensureOutputDir fs.
Proof.
  revert fs c. induction rows as [|row rows IH]; intros fs c; [by left|].
  rewrite generateAll_cons.
  pose proof (createDocx_cases FORCE true now fs (mapSheetRowToTemplateFields row)) as [_ Hc].
  cbv zeta in Hc.
  destruct (createDocx FORCE true now fs _) as [[res fs'] log]. cbn [fst snd] in Hc.
  assert (fs' = fs \/ fs' = ensureOutputDir fs) as Hfs.
  { destruct Hc as [(e & _ & H)|[(_ & _ & -> & _)|[(_ & _ & ->)|(buf & _ & H & _)]]];
      [done|by left|by right|done]. }
  destruct res as [out|e]; [|exact Hfs].
  specialize (IH fs' (if skipped out then c else S c)).
  destruct (generateAll FORCE true now fs' rows _) as [[res2 fs2] log2]. cbn [fst snd] in *.
  destruct Hfs as [->| ->]; [done|].
  rewrite ensureOutputDir_idemp in IH. right. by destruct IH.
Qed.

(** Without [--force] no entry that is there is changed or removed. *)
Lemma createDocx_keeps (DRY : bool) (now : Z) (fs : FS) (data : templateFields)
    (n : string) (x : node) :
  entriesOf fs !! n = Some x ->
  entriesOf (createDocx false DRY now fs data).1.2 !! n = Some x.
Proof.
  intros Hn.
  pose proof (createDocx_cases false DRY now fs data) as [_ Hc]. cbv zeta in Hc.
  destruct (createDocx false DRY now fs data) as [[res fs'] log]. cbn [fst snd] in *.
  destruct Hc as [(e & _ & [->| ->])|[(_ & _ & -> & _)|[(_ & _ & ->)|(buf & _ & _ & _ & Ho & Hnew)]]];
    rewrite ?entries_ensureOutputDir; try done.
  rewrite Ho. cbn [default from_option id]. specialize (Hnew eq_refl).
  rewrite lookup_insert_ne; [done|]. intros <-. congruence.
Qed.

Lemma generateAll_keeps (DRY : bool) (now : Z) (fs : FS) (rows : list sheetRow) (c : nat)
    (n : string) (x : node) :
  entriesOf fs !! n = Some x ->
  entriesOf (generateAll false DRY now fs rows c).1.2 !! n = Some x.
Proof.
  revert fs c. induction rows as [|row rows IH]; intros fs c Hn; [done|].
  rewrite generateAll_cons.
  pose proof (createDocx_keeps DRY now fs (mapSheetRowToTemplateFields row) n x Hn) as Hk.
  destruct (createDocx false DRY now fs _) as [[[out|e] fs'] log]; cbn [fst snd] in *; [|done].
  specialize (IH fs' (if skipped out then c else S c) Hk).
  by destruct (generateAll false DRY now fs' rows _) as [[res2 fs2] log2].
Qed.

(** What a run that returned says about each of its rows. *)
Lemma generateAll_returned (now : Z) (fs : FS) (rows : list sheetRow) (c n : nat)
    (fs1 : FS) (log : list logLine) :
  generateAll false false now fs rows c = (Returned n, fs1, log) ->
  template fs1 = template fs
  /\ size (entriesOf fs1) = (size (entriesOf fs) + (n - c))%nat
  /\ (c <= n)%nat
  /\ forall row, In row rows ->
       tokenAccepted tza (mapSheetRowToTemplateFields row) = true
       /\ (exists content, template fs = Some content
             /\ is_Some (renderDocx content (mapSheetRowToTemplateFields row)))
       /\ is_Some (entriesOf fs1 !! outputName tza (mapSheetRowToTemplateFields row)).
Proof.
  revert fs c log. induction rows as [|row rows IH]; intros fs c log.
  - cbn [FillFromSheet.generateAll]. intros [= <- <- <-].
    split; [done|]. split; [lia|]. split; [lia|]. intros row [].
  - rewrite generateAll_cons.
    pose proof (createDocx_cases false false now fs (mapSheetRowToTemplateFields row))
      as [Ht Hc]. cbv zeta in Hc.
    destruct (createDocx false false now fs _) as [[[out|e] fs'] log0] eqn:Hcall;
      [|intros H; discriminate H].
    pose proof (createDocx_returned tza OUTPUT_DIR renderDocx _ _ _ _ _ _ _ _ Hcall)
      as (_ & _ & Htok & Hrender & _).
    cbn [fst snd] in Ht, Hc.
    destruct (generateAll false false now fs' rows _) as [[res fs2] log2] eqn:Hrest.
    intros [= -> -> <-].
    pose proof (IH _ _ _ Hrest) as (Ht2 & Hsize & Hle & Hrows).
    assert (is_Some (entriesOf fs' !! outputName tza (mapSheetRowToTemplateFields row))
            /\ size (entriesOf fs') = (size (entriesOf fs) + (if skipped out then 0 else 1))%nat)
      as [Hhere Hsz].
    { destruct Hc as [(e & H & _)|[(H & _ & Hfs & Hex)|[(H & Hd & _)|(buf & H & _ & _ & Ho & Hnew)]]];
        try discriminate.
      - subst fs'. injection H as ->. cbn [skipped]. split; [done|lia].
      - injection H as ->. cbn [skipped]. rewrite Ho. cbn [default from_option id].
        split; [rewrite lookup_insert_eq; by eexists|].
        rewrite map_size_insert_None by (by apply Hnew). lia. }
    split; [congruence|]. split; [destruct (skipped out); lia|].
    split; [destruct (skipped out); lia|].
    intros r [<-|Hin].
    + split; [done|]. split; [done|].
      destruct Hhere as [x Hx].
      pose proof (generateAll_keeps false now fs' rows (if skipped out then c else S c) _ x Hx)
        as Hk.
      rewrite Hrest in Hk. cbn [fst snd] in Hk. eexists. exact Hk.
    + destruct (Hrows r Hin) as (H1 & (content & Hcont & H2) & H3).
      split; [done|]. split; [|done]. exists content. split; [congruence|done].
Qed.

(** A run over rows whose artifacts are all there skips every one. *)
Lemma generateAll_all_there (now : Z) (fs : FS) (rows : list sheetRow) (c : nat) :
  (forall row, In row rows ->
     tokenAccepted tza (mapSheetRowToTemplateFields row) = true
     /\ (exists content, template fs = Some content
           /\ is_Some (renderDocx content (mapSheetRowToTemplateFields row)))
     /\ is_Some (entriesOf fs !! outputName tza (mapSheetRowToTemplateFields row))) ->
  exists log, generateAll false false now fs rows c = (Returned c, fs, log).
Proof.
  revert c. induction rows as [|row rows IH]; intros c Hrows; [by eexists|].
  rewrite generateAll_cons.
  destruct (Hrows row (or_introl eq_refl)) as (Htok & (content & Hc & [buf Hb]) & Hex).
  apply existsInOutput_lookup in Hex.
  assert (createDocx false false now fs (mapSheetRowToTemplateFields row)
          = (Returned (MkResult true
                         (pathJoin OUTPUT_DIR (outputName tza (mapSheetRowToTemplateFields row)))
                         false), fs,
             [LogFilenameDebug (DATE (mapSheetRowToTemplateFields row))
                (kind (parseDateDeterministic tza (DATE (mapSheetRowToTemplateFields row))))
                (safeDateOf tza (DATE (mapSheetRowToTemplateFields row)))
                (pathJoin OUTPUT_DIR (outputName tza (mapSheetRowToTemplateFields row)))]
             ++ [LogSkipping
                   (pathJoin OUTPUT_DIR (outputName tza (mapSheetRowToTemplateFields row)))]))
    as ->.
  { unfold FillFromSheet.createDocx.
    rewrite Hc, (ensureOutputDir_exists _ _ Hex), Hb, token_check, Htok, Hex. reflexivity. }
  cbn [skipped].
  destruct (IH c) as [log Hlog]; [intros r Hr; apply Hrows; by right|].
  rewrite Hlog. by eexists.
Qed.

End BatchFacts.

(** X10.  A dry run of the generation loop of [fillFromSheet.js],
    whatever the rows and with or without [--force]: the file system
    afterwards is the one before or differs from it only in that the
    empty output folder was created; the template and every entry of the
    output folder are as they were. *)
Theorem dry_run_batch_only_creates_the_folder :
  forall tza OUTPUT_DIR FORCE renderDocx now fs rows generatedCount,
    let after :=
      (FillFromSheet.generateAll tza OUTPUT_DIR FORCE true renderDocx now fs rows
         generatedCount).1.2 in
    (after = fs \/ after = Fs.ensureOutputDir fs)
    /\ Fs.template after = Fs.template fs
    /\ default ∅ (Fs.outdir after) = default ∅ (Fs.outdir fs).
Proof.
  intros tza OUTPUT_DIR FORCE renderDocx now fs rows c after.
  pose proof (generateAll_dry tza OUTPUT_DIR renderDocx FORCE now fs rows c) as H.
  fold after in H. split; [exact H|].
  destruct H as [->| ->]; [done|].
  split; [apply ensureOutputDir_template|apply entries_ensureOutputDir].
Qed.

(** X11.  Without [--force] the generation loop never changes or
    removes an entry of the output folder: whatever was there under a
    name before the run, file or folder, is there unchanged after it,
    also when the run stops on an error. *)
Theorem without_force_no_entry_is_changed :
  forall tza OUTPUT_DIR DRY renderDocx now fs rows generatedCount name (x : Fs.node),
    default ∅ (Fs.outdir fs) !! name = Some x ->
    default ∅ (Fs.outdir
      (FillFromSheet.generateAll tza OUTPUT_DIR false DRY renderDocx now fs rows
         generatedCount).1.2) !! name = Some x.
Proof. intros tza OUTPUT_DIR DRY renderDocx now fs rows c name x. apply generateAll_keeps. Qed.

(** The theorem on a folder that holds a file under the name the row gets. *)
Lemma without_force_no_entry_is_changed_witness :
  let fs := Fs.MkFS (Some "template")
              (Some (<["5-1-2026-J Smith-42.docx" := Fs.File "old" 1]> ∅)) in
  default ∅ (Fs.outdir fs) !! "5-1-2026-J Smith-42.docx" = Some (Fs.File "old" 1)
  /\ default ∅ (Fs.outdir
       (FillFromSheet.generateAll 0 "out" false false plainRenderer 9 fs
          [scenarioRow; earlyYearRow] 0).1.2) !! "5-1-2026-J Smith-42.docx"
     = Some (Fs.File "old" 1).
Proof.
  intros fs. split; [reflexivity|].
  apply (without_force_no_entry_is_changed 0 "out" false plainRenderer 9 fs
           [scenarioRow; earlyYearRow] 0 "5-1-2026-J Smith-42.docx" (Fs.File "old" 1)).
  reflexivity.
Defined.

(** X12.  A run of the generation loop that returns, without
    [--force] and outside dry-run mode: the count it reports is the
    number of files it added to the output folder, and the artifact of
    every row is in the folder afterwards. *)
Theorem reported_count_is_number_of_new_files :
  forall tza OUTPUT_DIR renderDocx now fs rows (n : nat),
    let run := FillFromSheet.generateAll tza OUTPUT_DIR false false renderDocx now fs rows 0 in
    run.1.1 = Fs.Returned n ->
    size (default ∅ (Fs.outdir run.1.2)) = (size (default ∅ (Fs.outdir fs)) + n)%nat
    /\ (n <= length rows)%nat
    /\ forall row, In row rows ->
         is_Some (default ∅ (Fs.outdir run.1.2)
                  !! FillFromSheet.outputName tza (SheetRow.mapSheetRowToTemplateFields row)).
Proof.
  intros tza OUTPUT_DIR renderDocx now fs rows n run Hrun.
  destruct run as [[res fs1] log] eqn:E. cbn [fst snd] in *. subst res.
  pose proof (generateAll_returned tza OUTPUT_DIR renderDocx now fs rows 0 n fs1 log E)
    as (_ & Hsize & _ & Hrows).
  split; [lia|]. split.
  - assert (Hlen : forall rows fs c n fs1 log,
              FillFromSheet.generateAll tza OUTPUT_DIR false false renderDocx now fs rows c
              = (Fs.Returned n, fs1, log) -> (n <= c + length rows)%nat).
    { clear. induction rows as [|row rows IH]; intros fs c n fs1 log.
      - cbn. intros [= <- _ _]. lia.
      - rewrite generateAll_cons.
        destruct (FillFromSheet.createDocx _ _ _ _ _ _ _ _) as [[[out|e] fs'] log0];
          [|intros H; discriminate H].
        destruct (FillFromSheet.generateAll _ _ _ _ _ _ fs' rows _) as [[res fs2] log2] eqn:Hr.
        intros [= -> -> <-]. apply IH in Hr. cbn [length]. destruct (FillFromSheet.skipped out); lia. }
    apply Hlen in E. lia.
  - intros row Hin. by destruct (Hrows row Hin) as (_ & _ & H).
Qed.

(** The theorem on two rows that get the same name and one that gets another. *)
Lemma reported_count_is_number_of_new_files_witness :
  let rows := [scenarioRow; scenarioRow;
               SheetRow.MkRow [] [("Date", "6/1/26"); ("Name", "J Smith")]] in
  let run := FillFromSheet.generateAll 0 "out" false false plainRenderer 9
               (Fs.MkFS (Some "template") None) rows 0 in
  run.1.1 = Fs.Returned 2%nat
  /\ size (default ∅ (Fs.outdir run.1.2)) = 2%nat.
Proof.
  intros rows run.
  assert (run.1.1 = Fs.Returned 2%nat) as Hrun by (vm_compute; reflexivity).
  split; [exact Hrun|].
  destruct (reported_count_is_number_of_new_files 0 "out" plainRenderer 9
              (Fs.MkFS (Some "template") None) rows 2 Hrun) as (Hsize & _).
  exact Hsize.
Defined.

(** X13.  Generation is idempotent over a batch: after a run of the
    loop that returned (no [--force], no dry run), a second run over the
    same rows, at any later time, skips every row, reports a count of
    zero and leaves the file system exactly as the first run left it. *)
Theorem second_run_generates_nothing :
  forall tza OUTPUT_DIR renderDocx now1 now2 fs rows (n : nat),
    let run1 := FillFromSheet.generateAll tza OUTPUT_DIR false false renderDocx now1 fs rows 0 in
    run1.1.1 = Fs.Returned n ->
    exists log2,
      FillFromSheet.generateAll tza OUTPUT_DIR false false renderDocx now2 run1.1.2 rows 0
      = (Fs.Returned 0%nat, run1.1.2, log2).
Proof.
  intros tza OUTPUT_DIR renderDocx now1 now2 fs rows n run1 Hrun.
  destruct run1 as [[res fs1] log] eqn:E. cbn [fst snd] in *. subst res.
  pose proof (generateAll_returned tza OUTPUT_DIR renderDocx now1 fs rows 0 n fs1 log E)
    as (Ht & _ & _ & Hrows).
  apply generateAll_all_there. intros row Hin.
  destruct (Hrows row Hin) as (H1 & (content & Hc & H2) & H3).
  split; [done|]. split; [|done]. exists content. split; [congruence|done].
Qed.

(** The theorem on the record of the scenario. *)
Lemma second_run_generates_nothing_witness :
  let run1 := FillFromSheet.generateAll 0 "out" false false plainRenderer 9
                (Fs.MkFS (Some "template") None) [scenarioRow] 0 in
  run1.1.1 = Fs.Returned 1%nat
  /\ exists log2,
       FillFromSheet.generateAll 0 "out" false false plainRenderer 20 run1.1.2 [scenarioRow] 0
       = (Fs.Returned 0%nat, run1.1.2, log2).
Proof.
  intros run1.
  assert (run1.1.1 = Fs.Returned 1%nat) as Hrun by (vm_compute; reflexivity).
  split; [exact Hrun|].
  exact (second_run_generates_nothing 0 "out" plainRenderer 9 20
           (Fs.MkFS (Some "template") None) [scenarioRow] 1 Hrun).
Defined.

(** X14.  The first row on which [createDocx] throws ends the batch:
    the rows after it are never processed, and what the rows before it
    wrote stays written.  The loop over two lists of rows is the loop
    over the first followed by the loop over the second. *)
Theorem batch_stops_at_first_failure :
  forall tza OUTPUT_DIR FORCE DRY renderDocx now fs rows1 row rows2 c c1 fs1 log1 e fs2 log2,
    FillFromSheet.generateAll tza OUTPUT_DIR FORCE DRY renderDocx now fs rows1 c
    = (Fs.Returned c1, fs1, log1) ->
    FillFromSheet.createDocx tza OUTPUT_DIR FORCE DRY renderDocx now fs1
      (SheetRow.mapSheetRowToTemplateFields row) = (Fs.Threw e, fs2, log2) ->
    FillFromSheet.generateAll tza OUTPUT_DIR FORCE DRY renderDocx now fs (rows1 ++ row :: rows2) c
    = (Fs.Threw e, fs2, log1 ++ log2)
    /\ default ∅ (Fs.outdir fs2) = default ∅ (Fs.outdir fs1).
Proof.
  intros tza OUTPUT_DIR FORCE DRY renderDocx now fs rows1 row rows2 c c1 fs1 log1 e fs2 log2
    H1 H2.
  split.
  - rewrite generateAll_app, H1, generateAll_cons, H2. reflexivity.
  - pose proof (createDocx_cases tza OUTPUT_DIR renderDocx FORCE DRY now fs1
                  (SheetRow.mapSheetRowToTemplateFields row)) as [_ Hc].
    cbv zeta in Hc. rewrite H2 in Hc. cbn [fst snd] in Hc.
    destruct Hc as [(e' & _ & [->| ->])|[(H & _)|[(H & _)|(buf & H & _)]]]; try discriminate H.
    + reflexivity.
    + apply entries_ensureOutputDir.
Qed.

(** The theorem on the record of the scenario followed by a row dated in
    the year 100 and one more row. *)
Lemma batch_stops_at_first_failure_witness :
  let run := FillFromSheet.generateAll 0 "out" false false plainRenderer 9
               (Fs.MkFS (Some "template") None)
               ([scenarioRow] ++ earlyYearRow :: [scenarioRow]) 0 in
  run.1.1 = Fs.Threw "Invalid filename date format - aborting"
  /\ default ∅ (Fs.outdir run.1.2) !! "5-1-2026-J Smith-42.docx"
     = Some (Fs.File "docx of J Smith" 9).
Proof.
  intros run.
  edestruct (batch_stops_at_first_failure 0 "out" false false plainRenderer 9
               (Fs.MkFS (Some "template") None) [scenarioRow] earlyYearRow [scenarioRow] 0)
    as [Hrun Hsame].
  - vm_compute. reflexivity.
  - vm_compute. reflexivity.
  - unfold run. rewrite Hrun. cbn [fst snd]. split; [reflexivity|].
    vm_compute. reflexivity.
Defined.

(** X15.  The lock file of [fillFromSheet.js].  A run that finds the
    lock exits with code 1 and leaves everything as it was, the lock of
    the other run included.  A run that starts without a lock leaves no
    lock behind, whether the sheet could be read or not and whether
    generation returned or threw, as long as the lock file can be
    removed; and the files it leaves are those of the generation loop. *)
Theorem lock_blocks_a_second_run_and_is_released :
  forall tza OUTPUT_DIR FORCE DRY DEBUG DAYS LAST_N renderDocx pid lockWritable lockRemovable
         sheet now writeTime (w : GeneratorRun.world),
    let run := GeneratorRun.main tza OUTPUT_DIR FORCE DRY DEBUG DAYS LAST_N renderDocx pid
                 lockWritable lockRemovable sheet now writeTime w in
    (forall p, GeneratorRun.lock w = Some p -> run = (1, w, [GeneratorRun.ErrLockPresent]))
    /\ (GeneratorRun.lock w = None ->
        (lockRemovable = true \/ lockWritable = false) ->
        GeneratorRun.lock run.1.2 = None)
    /\ (GeneratorRun.lock w = None ->
        forall p, GeneratorRun.lock run.1.2 = Some p -> p = pid).
Proof.
  intros tza OUTPUT_DIR FORCE DRY DEBUG DAYS LAST_N renderDocx pid lockWritable lockRemovable
    sheet now writeTime w run.
  assert (Hrel : forall w', GeneratorRun.lock w' = None \/ GeneratorRun.lock w' = Some pid ->
            (forall p, GeneratorRun.lock (GeneratorRun.removeLock lockRemovable w') = Some p ->
                       p = pid /\ lockRemovable = false /\ GeneratorRun.lock w' = Some pid)
            /\ (GeneratorRun.lock (GeneratorRun.removeLock lockRemovable w') = None
                \/ GeneratorRun.lock (GeneratorRun.removeLock lockRemovable w') = Some pid)).
  { intros w' Hw'. unfold GeneratorRun.removeLock.
    destruct Hw' as [Hw'|Hw']; rewrite Hw'; [split; [intros p Hp; congruence|by left]|].
    destruct lockRemovable; cbn [GeneratorRun.lock].
    - split; [intros p Hp; discriminate Hp|by left].
    - split; [intros p Hp; split; [congruence|done]|by right]. }
  split; [|split].
  - intros p Hp. unfold run, GeneratorRun.main, GeneratorRun.startup. by rewrite Hp.
  - intros Hnone Hcan.
    destruct (GeneratorRun.lock run.1.2) as [p|] eqn:Hp; [|done]. exfalso. revert Hp.
    unfold run, GeneratorRun.main, GeneratorRun.startup. rewrite Hnone.
    set (w1 := if lockWritable then _ else w).
    assert (GeneratorRun.lock w1 = None \/ GeneratorRun.lock w1 = Some pid) as Hw1
      by (unfold w1; destruct lockWritable; [by right|by left]).
    assert (lockWritable = false -> GeneratorRun.lock w1 = None) as Hnw
      by (intros ->; exact Hnone).
    assert (Hone : forall w', GeneratorRun.lock w' = GeneratorRun.lock w1 ->
              GeneratorRun.lock (GeneratorRun.removeLock lockRemovable w') <> Some p).
    { intros w' Hw' Hp. destruct (Hrel w' ltac:(by rewrite Hw')) as [Hr _].
      destruct (Hr p Hp) as (_ & Hrem & Hl). destruct Hcan as [->| Hcan]; [done|].
      rewrite Hw', (Hnw Hcan) in Hl. discriminate Hl. }
    assert (Htwo : forall w', GeneratorRun.lock w' = GeneratorRun.lock w1 ->
              GeneratorRun.lock
                (GeneratorRun.removeLock lockRemovable (GeneratorRun.removeLock lockRemovable w'))
              <> Some p).
    { intros w' Hw' Hp.
      destruct (Hrel w' ltac:(by rewrite Hw')) as [Hr1 Hor].
      destruct (Hrel _ Hor) as [Hr _]. destruct (Hr p Hp) as (_ & Hrem & Hl).
      destruct (Hr1 pid Hl) as (_ & _ & Hl'). destruct Hcan as [->| Hcan]; [done|].
      rewrite Hw', (Hnw Hcan) in Hl'. discriminate Hl'. }
    destruct sheet as [rows|msg]; cbn [fst snd]; [|by apply Hone].
    destruct (length rows =? 0)%nat; cbn [fst snd]; [by apply Htwo|].
    destruct (FillFromSheet.daysFilter _ _ _ _ _) as [rows1 log1].
    destruct (FillFromSheet.generateAll _ _ _ _ _ _ _ _ _) as [[[n|e] fs'] log2]; cbn [fst snd].
    + by apply Htwo.
    + by apply Hone.
  - intros Hnone p.
    unfold run, GeneratorRun.main, GeneratorRun.startup. rewrite Hnone.
    set (w1 := if lockWritable then _ else w).
    assert (GeneratorRun.lock w1 = None \/ GeneratorRun.lock w1 = Some pid) as Hw1
      by (unfold w1; destruct lockWritable; [by right|by left]).
    assert (Hone : forall w', GeneratorRun.lock w' = GeneratorRun.lock w1 ->
              GeneratorRun.lock (GeneratorRun.removeLock lockRemovable w') = Some p -> p = pid).
    { intros w' Hw' Hp. destruct (Hrel w' ltac:(by rewrite Hw')) as [Hr _].
      by destruct (Hr p Hp). }
    assert (Htwo : forall w', GeneratorRun.lock w' = GeneratorRun.lock w1 ->
              GeneratorRun.lock
                (GeneratorRun.removeLock lockRemovable (GeneratorRun.removeLock lockRemovable w'))
              = Some p -> p = pid).
    { intros w' Hw' Hp.
      destruct (Hrel w' ltac:(by rewrite Hw')) as [_ Hor].
      destruct (Hrel _ Hor) as [Hr _]. by destruct (Hr p Hp). }
    destruct sheet as [rows|msg]; cbn [fst snd]; [|by apply Hone].
    destruct (length rows =? 0)%nat; cbn [fst snd]; [by apply Htwo|].
    destruct (FillFromSheet.daysFilter _ _ _ _ _) as [rows1 log1].
    destruct (FillFromSheet.generateAll _ _ _ _ _ _ _ _ _) as [[[n|e] fs'] log2]; cbn [fst snd].
    + by apply Htwo.
    + by apply Hone.
Qed.

(** ** Sheet rows: headers and fields *)

Section SheetFacts.
Import JsString SheetRow.

Local Arguments String.append : simpl nomatch.

Lemma lowerChar_alnum (c : ascii) :
  isAlnumLower (lowerChar c) = true -> lowerChar (lowerChar c) = lowerChar c.
Proof. destruct c as [[] [] [] [] [] [] [] []]; vm_compute; try discriminate; auto. Qed.

Lemma normalize_cons (c : ascii) (s : string) :
  normalize (String c s)
  = if isAlnumLower (lowerChar c) then String (lowerChar c) (normalize s) else normalize s.
Proof.
  unfold normalize, toLowerCase. cbn [mapChars replaceEach].
  by destruct (isAlnumLower (lowerChar c)).
Qed.

(** The normal form of a header holds lower-case letters and digits only,
    and normalising it once more changes nothing. *)
Lemma normalize_idemp (s : string) :
  allChars isAlnumLower (normalize s) = true /\ normalize (normalize s) = normalize s.
Proof.
  induction s as [|c s [IH1 IH2]]; [done|]. rewrite normalize_cons.
  destruct (isAlnumLower (lowerChar c)) eqn:E; [|done].
  cbn [allChars]. rewrite E, IH1. split; [done|].
  rewrite normalize_cons, (lowerChar_alnum c E), E, IH2. done.
Qed.

Lemma normRowOf_lookup (row : sheetRow) (k : string) :
  normRowOf row !! k
  = snd <$> last (filter (fun kv : string * string => normalize kv.1 = k) (props row)).
Proof.
  unfold normRowOf.
  rewrite (fold_insert_lookup (fun kv : string * string => normalize kv.1) snd (props row) ∅ k).
  destruct (last _); [done|apply lookup_empty].
Qed.

Lemma pickIn_trimmed (m : gmap string string) (names : list string) :
  trim (pickIn m names) = pickIn m names.
Proof.
  induction names as [|name names IH]; [done|]. cbn [pickIn].
  destruct (m !! normalize name) as [v|]; [|exact IH].
  destruct (truthy (trim v)); [apply trim_idemp|exact IH].
Qed.

Lemma pickByIndex_trimmed (row : sheetRow) (idx : nat) :
  trim (pickByIndex row idx) = pickByIndex row idx.
Proof. unfold pickByIndex. destruct (cells row !! idx); [apply trim_idemp|done]. Qed.

Lemma orElse_trimmed (a b : string) : trim a = a -> trim b = b -> trim (orElse a b) = orElse a b.
Proof. unfold orElse. by destruct (truthy a). Qed.

Lemma trimEnd_ends (s : string) : trimEnd s = "" \/ endsNonBlank (trimEnd s) = true.
Proof.
  induction s as [|c s IH]; [by left|]. cbn [trimEnd].
  destruct (trimEnd s) as [|a t] eqn:E.
  - destruct (isWhiteSpace c) eqn:Hc; [by left|]. right. cbn. by rewrite Hc.
  - right. destruct IH as [IH|IH]; [done|]. exact IH.
Qed.

(** A string that [trim] leaves as it is, and is not empty, starts and
    ends with a character that is not white space; and conversely. *)
Lemma trimmed_ends (s : string) :
  trim s = s -> s <> "" ->
  (exists c t, s = String c t /\ isWhiteSpace c = false) /\ endsNonBlank s = true.
Proof.
  unfold trim. intros Hs Hne.
  destruct (trimStart_cases s) as [E|(c & t & E & Hc)].
  - rewrite E in Hs. by subst s.
  - rewrite E in Hs. destruct (trimEnd_cons c t Hc) as [u Hu].
    split; [exists c, u; split; [congruence|done]|].
    destruct (trimEnd_ends (String c t)) as [H|H]; [congruence|]. by rewrite Hs in H.
Qed.

Lemma ends_trimmed (c : ascii) (t : string) :
  isWhiteSpace c = false -> endsNonBlank (String c t) = true -> trim (String c t) = String c t.
Proof. intros Hc He. unfold trim. cbn [trimStart]. rewrite Hc. by apply trimEnd_id. Qed.

Lemma joinComma_trimmed (parts : list string) :
  Forall (fun p => trim p = p /\ p <> "") parts ->
  trim (joinComma parts) = joinComma parts /\ (parts <> [] -> joinComma parts <> "").
Proof.
  induction 1 as [|p more [Hp Hne] Hmore [IH1 IH2]]; [done|].
  destruct more as [|q more]; [done|].
  change (joinComma (p :: q :: more)) with (p +:+ ", " +:+ joinComma (q :: more)).
  destruct (trimmed_ends p Hp Hne) as [(c & t & -> & Hc) _].
  destruct (trimmed_ends _ IH1 (IH2 ltac:(done))) as [_ He].
  split; [|done].
  change (String c t +:+ ", " +:+ joinComma (q :: more))
    with (String c (t +:+ ", " +:+ joinComma (q :: more))).
  apply ends_trimmed; [done|].
  change (String c (t +:+ ", " +:+ joinComma (q :: more)))
    with (String c t +:+ (", " +:+ joinComma (q :: more))).
  by apply endsNonBlank_app, endsNonBlank_app.
Qed.

Lemma truthy_parts (l : list string) :
  Forall (fun p => trim p = p) l ->
  Forall (fun p => trim p = p /\ p <> "") (filter (fun p => truthy p = true) l).
Proof.
  induction 1 as [|p l Hp Hl IH]; [constructor|].
  destruct (truthy p) eqn:E.
  - rewrite filter_cons_True by done. constructor; [|done].
    split; [done|]. by apply truthy_true.
  - rewrite filter_cons_False; [done|]. by rewrite E.
Qed.

End SheetFacts.

(** ** The row objects of [getRows] *)

Section RowObjectFacts.
Import JsString SheetRow.

Local Arguments String.append : simpl nomatch.

Lemma digit_normal (c : ascii) :
  isDigit c = true -> lowerChar c = c /\ isAlnumLower c = true.
Proof. destruct c as [[] [] [] [] [] [] [] []]; vm_compute; try discriminate; auto. Qed.

Lemma digits_normalize (s : string) : allChars isDigit s = true -> normalize s = s.
Proof.
  induction s as [|c s IH]; [done|]. cbn [allChars].
  intros [[Hc Ha]%digit_normal Hs]%andb_true_iff.
  by rewrite normalize_cons, Hc, Ha, IH.
Qed.

Lemma isArrayIndex_digits (k : string) : isArrayIndex k = true -> allChars isDigit k = true.
Proof.
  destruct k as [|c k]; [done|].
  destruct (Ascii.eqb_spec c "0") as [->|Hc].
  - destruct k; [done|discriminate].
  - intros H.
    assert (isArrayIndex (String c k)
            = allChars isDigit (String c k) && (Number (String c k) <=? 4294967294)) as E.
    { destruct c as [[] [] [] [] [] [] [] []]; try reflexivity. by destruct Hc. }
    rewrite E in H. by apply andb_true_iff in H as [H _].
Qed.

(** The normal form of an array index is the index itself. *)
Lemma isArrayIndex_normalize (k : string) : isArrayIndex k = true -> normalize k = k.
Proof. intros H. by apply digits_normalize, isArrayIndex_digits. Qed.

Variable N : string.
Hypothesis HN : isArrayIndex N = false.

Local Abbreviation sees := (fun kv : string * string => normalize kv.1 = N).

Lemma filter_setExisting_other (k v : string) (o : list (string * string)) :
  normalize k <> N -> filter sees (setExisting k v o) = filter sees o.
Proof.
  intros Hk. unfold setExisting. induction o as [|[k' v'] o IH]; [done|].
  rewrite fmap_cons. cbn [fst]. destruct (String.eqb_spec k' k) as [->|Hne].
  - rewrite !filter_cons_False by done. exact IH.
  - destruct (decide (normalize k' = N)) as [E|E].
    + rewrite !filter_cons_True by done. by rewrite IH.
    + rewrite !filter_cons_False by done. exact IH.
Qed.

Lemma filter_insertIndex_other (k v : string) (o : list (string * string)) :
  normalize k <> N -> filter sees (insertIndex k v o) = filter sees o.
Proof.
  intros Hk. induction o as [|[k' v'] o IH]; [cbn [insertIndex]; by rewrite filter_cons_False|].
  cbn [insertIndex fst]. destruct (_ && _).
  - destruct (decide (normalize k' = N)) as [E|E].
    + rewrite !filter_cons_True by done. by rewrite IH.
    + rewrite !filter_cons_False by done. exact IH.
  - by rewrite filter_cons_False.
Qed.

(** An assignment under a key of another normal form changes nothing
    that a lookup of [N] sees. *)
Lemma filter_setOwn_other (k v : string) (o : list (string * string)) :
  normalize k <> N -> filter sees (setOwn k v o) = filter sees o.
Proof.
  intros Hk. unfold setOwn. destruct (String.eqb k "__proto__"); [done|].
  destruct (hasKey k o); [by apply filter_setExisting_other|].
  destruct (isArrayIndex k); [by apply filter_insertIndex_other|].
  rewrite filter_app, filter_cons_False by done. by rewrite filter_nil, app_nil_r.
Qed.

Lemma hasKey_filter (k : string) (o : list (string * string)) :
  normalize k = N -> hasKey k (filter sees o) = hasKey k o.
Proof.
  intros Hk. unfold hasKey. induction o as [|[k' v'] o IH]; [done|].
  destruct (decide (normalize k' = N)) as [E|E].
  - rewrite filter_cons_True by done. cbn [existsb]. by rewrite IH.
  - rewrite filter_cons_False by done. cbn [existsb fst].
    destruct (String.eqb_spec k' k) as [->|_]; [done|]. exact IH.
Qed.

Lemma filter_setExisting_same (k v : string) (o : list (string * string)) :
  normalize k = N -> filter sees (setExisting k v o) = setExisting k v (filter sees o).
Proof.
  intros Hk. unfold setExisting. induction o as [|[k' v'] o IH]; [done|].
  rewrite fmap_cons. cbn [fst]. destruct (String.eqb_spec k' k) as [->|Hne].
  - rewrite !filter_cons_True by done. rewrite fmap_cons. cbn [fst].
    by rewrite String.eqb_refl, IH.
  - destruct (decide (normalize k' = N)) as [E|E].
    + rewrite !filter_cons_True by done. rewrite fmap_cons. cbn [fst].
      destruct (String.eqb_spec k' k); [done|]. by rewrite IH.
    + rewrite !filter_cons_False by done. exact IH.
Qed.

(** An assignment under a key of the normal form [N]: the property keeps
    its place when it is there, and comes last when it is new. *)
Lemma filter_setOwn_same (k v : string) (o : list (string * string)) :
  normalize k = N -> k <> "__proto__" ->
  filter sees (setOwn k v o)
  = if hasKey k (filter sees o) then setExisting k v (filter sees o)
    else filter sees o ++ [(k, v)].
Proof.
  intros Hk Hp. unfold setOwn.
  destruct (String.eqb_spec k "__proto__"); [done|].
  rewrite (hasKey_filter k o Hk).
  destruct (hasKey k o); [by apply filter_setExisting_same|].
  destruct (isArrayIndex k) eqn:Hi.
  { apply isArrayIndex_normalize in Hi as Hn. rewrite Hk in Hn. subst k. congruence. }
  rewrite filter_app, filter_cons_True by done. by rewrite filter_nil.
Qed.

Lemma firstSeen_snoc (l : list string) (k : string) :
  firstSeen (l ++ [k])
  = if bool_decide (k ∈ firstSeen l) then firstSeen l else firstSeen l ++ [k].
Proof. unfold firstSeen. by rewrite fold_left_app. Qed.

Lemma firstSeen_elem_of (l : list string) (k : string) : k ∈ firstSeen l <-> k ∈ l.
Proof.
  induction l as [|x l IH] using rev_ind; [done|].
  rewrite firstSeen_snoc, elem_of_app, list_elem_of_singleton.
  destruct (bool_decide_reflect (x ∈ firstSeen l)) as [Hx|Hx].
  - rewrite IH. split; [by left|]. intros [H| ->]; [done|]. by apply IH.
  - by rewrite elem_of_app, list_elem_of_singleton, IH.
Qed.

Lemma lastCell_snoc (m : list (string * string)) (k v k' : string) :
  lastCell (m ++ [(k, v)]) k' = if decide (k' = k) then Some v else lastCell m k'.
Proof.
  unfold lastCell. rewrite filter_app. destruct (decide (k' = k)) as [->|Hne].
  - rewrite filter_cons_True by done. rewrite filter_nil. by rewrite last_snoc.
  - rewrite filter_cons_False by (cbn; congruence). by rewrite filter_nil, app_nil_r.
Qed.

Lemma lastCell_is_Some (m : list (string * string)) (k : string) :
  k ∈ m.*1 -> is_Some (lastCell m k).
Proof.
  intros ([k' v] & Hk & Hin)%list_elem_of_fmap. cbn in Hk. subst k. unfold lastCell.
  assert ((k', v) ∈ filter (fun kv : string * string => kv.1 = k') m) as Hf
    by (by apply list_elem_of_filter).
  destruct (last (filter _ m)) as [kv|] eqn:El; [by eexists|].
  apply last_None in El. rewrite El in Hf. by apply not_elem_of_nil in Hf.
Qed.

Lemma hasKey_keyed (g : string -> string) (l : list string) (k : string) :
  hasKey k ((fun k' => (k', g k')) <$> l) = bool_decide (k ∈ l).
Proof.
  unfold hasKey. induction l as [|x l IH]; [done|].
  rewrite fmap_cons. cbn [existsb fst]. rewrite IH.
  destruct (String.eqb_spec x k) as [->|Hne].
  - symmetry. apply bool_decide_eq_true. by left.
  - cbn [orb]. apply bool_decide_ext. rewrite elem_of_cons. naive_solver.
Qed.

(** What a lookup of [N] sees of the row object: one property for each
    header text of the matching columns, in the order in which the texts
    are first seen, with the cell of the last column of that text. *)
Lemma rowObject_matching (header cells : list string) :
  filter sees (props (rowObject header cells))
  = (fun k => (k, default "" (lastCell (matchingColumns N (columns header cells)) k)))
      <$> firstSeen (matchingColumns N (columns header cells)).*1.
Proof.
  unfold rowObject. cbn [props]. generalize (columns header cells) as cols. clear header cells.
  intros cols. induction cols as [|[k v] cols IH] using rev_ind; [done|].
  rewrite fold_left_app. cbn [fold_left fst snd]. unfold matchingColumns in *.
  rewrite filter_app.
  destruct (String.eqb_spec k "__row") as [->|Hrow].
  { rewrite filter_cons_False by (cbn; naive_solver). by rewrite filter_nil, app_nil_r. }
  destruct (decide (k = "__proto__")) as [->|Hproto].
  { rewrite filter_cons_False by (cbn; naive_solver). by rewrite filter_nil, app_nil_r. }
  destruct (decide (normalize k = N)) as [Hk|Hk].
  - rewrite filter_cons_True by done. rewrite filter_nil.
    rewrite (filter_setOwn_same k v _ Hk Hproto), IH.
    set (m := filter _ cols). rewrite hasKey_keyed.
    replace ((m ++ [(k, v)]).*1) with (m.*1 ++ [k]) by (by rewrite fmap_app).
    rewrite firstSeen_snoc.
    destruct (bool_decide_reflect (k ∈ firstSeen m.*1)) as [Hin|Hin].
    + unfold setExisting. rewrite <- list_fmap_compose. apply list_fmap_ext.
      intros i k' _. cbn. rewrite lastCell_snoc.
      destruct (String.eqb_spec k' k) as [->|Hne]; [by rewrite decide_True|].
      by rewrite decide_False.
    + rewrite fmap_app. cbn [fmap list_fmap]. f_equal.
      * apply Forall_fmap_ext_1, Forall_forall. intros k' Hk'. rewrite lastCell_snoc.
        rewrite decide_False; [done|]. by intros ->.
      * by rewrite lastCell_snoc, decide_True.
  - rewrite filter_cons_False by (cbn; naive_solver). rewrite filter_nil, app_nil_r.
    by rewrite (filter_setOwn_other k v _ Hk).
Qed.

End RowObjectFacts.

(** X16.  Which column a field is read from when several headers have
    the same normal form (lower case, letters and digits only).  The
    row object of [getRows] holds one property for each header text, in
    the order in which the texts first appear, with the cell of the last
    column that carries the text, and a lookup sees the last property of
    the normal form.  So the value is the cell of the last column that
    carries the header text which first appears latest: with the headers
    Name, NAME, Name it is the cell of the second column, not of the
    last.  When all the matching columns carry one text, it is the cell
    of the last of them.  The field picked by one name is this value
    trimmed.  This holds for a name whose normal form is not a number
    (the properties with such a key are listed first) and is not
    [constructor] (which a plain object inherits). *)
Theorem colliding_headers_resolve_by_key_order :
  forall (header cells : list string) (name : string),
    SheetRow.isArrayIndex (SheetRow.normalize name) = false ->
    String.eqb (SheetRow.normalize name) "constructor" = false ->
    let m := matchingColumns (SheetRow.normalize name) (SheetRow.columns header cells) in
    let winner := last (firstSeen m.*1) in
    let row := SheetRow.rowObject header cells in
    SheetRow.normRowOf row !! SheetRow.normalize name = winner ≫= lastCell m
    /\ SheetRow.pickIn (SheetRow.normRowOf row) [name]
       = JsString.trim (default "" (winner ≫= lastCell m))
    /\ (forall k, Forall (fun kv : string * string => kv.1 = k) m ->
          winner ≫= lastCell m = snd <$> last m).
Proof.
  intros header cells name HN _ m winner row.
  assert (forall k, winner = Some k -> is_Some (lastCell m k)) as Hsome.
  { intros k Hk. apply lastCell_is_Some, firstSeen_elem_of.
    apply last_Some in Hk as [l' Hk]. rewrite Hk. apply elem_of_app. right. by left. }
  assert (SheetRow.normRowOf row !! SheetRow.normalize name = winner ≫= lastCell m) as Hlook.
  { rewrite normRowOf_lookup. unfold row.
    rewrite (rowObject_matching _ HN header cells). fold m.
    rewrite fmap_last. fold winner. destruct winner as [k|]; [|done].
    destruct (Hsome k eq_refl) as [v Hv]. cbn. by rewrite Hv. }
  split; [exact Hlook|]. split.
  - cbn [SheetRow.pickIn]. rewrite Hlook. destruct (winner ≫= lastCell m) as [v|]; [|done].
    cbn [default from_option id]. by destruct (JsString.trim v).
  - intros k Hall. destruct winner as [w|] eqn:Hw.
    + assert (w = k) as ->.
      { assert (w ∈ m.*1) as Hin.
        { apply firstSeen_elem_of. apply last_Some in Hw as [l' Hw]. rewrite Hw.
          apply elem_of_app. right. by left. }
        apply list_elem_of_fmap in Hin as (kv & -> & Hin).
        by apply (proj1 (Forall_forall _ _) Hall). }
      cbn. unfold lastCell. f_equal. f_equal.
      clear -Hall. induction Hall as [|kv l Hkv Hl IH]; [done|].
      rewrite filter_cons_True by done. by rewrite IH.
    + cbn. destruct m as [|[k0 v0] m'] eqn:Hm; [done|].
      exfalso. assert (k0 ∈ firstSeen ((k0, v0) :: m').*1) as Hin
        by (apply firstSeen_elem_of; left).
      unfold winner in Hw. apply last_None in Hw. rewrite Hw in Hin.
      by apply not_elem_of_nil in Hin.
Qed.

(** The theorem on the headers Name, NAME, Name: the field is read from
    the second column. *)
Lemma colliding_headers_resolve_by_key_order_witness :
  SheetRow.isArrayIndex (SheetRow.normalize "name") = false
  /\ String.eqb (SheetRow.normalize "name") "constructor" = false
  /\ SheetRow.pickIn (SheetRow.normRowOf (SheetRow.rowObject ["Name"; "NAME"; "Name"]
                                            ["a"; " b "; "c"])) ["name"] = "b"
  /\ SheetRow.pickIn (SheetRow.normRowOf (SheetRow.rowObject ["Name"; "Job"; "Name"]
                                            ["a"; "7"; "c"])) ["name"] = "c".
Proof.
  split; [reflexivity|]. split; [reflexivity|]. split.
  - destruct (colliding_headers_resolve_by_key_order ["Name"; "NAME"; "Name"]
                ["a"; " b "; "c"] "name" eq_refl eq_refl) as (_ & -> & _).
    vm_compute. reflexivity.
  - destruct (colliding_headers_resolve_by_key_order ["Name"; "Job"; "Name"]
                ["a"; "7"; "c"] "name" eq_refl eq_refl) as (_ & -> & _).
    vm_compute. reflexivity.
Defined.

(** X17.  Every field that [mapSheetRowToTemplateFields] returns is
    free of white space at both ends, whatever the sheet holds: [trim]
    leaves each of the sixteen fields as it is, the joined address
    included. *)
Theorem template_fields_are_trimmed :
  forall row : SheetRow.sheetRow,
    let d := SheetRow.mapSheetRowToTemplateFields row in
    Forall (fun f => JsString.trim f = f)
      [SheetRow.NAME d; SheetRow.DATE d; SheetRow.JOB_NO d; SheetRow.CUSTOMER d;
       SheetRow.ADDRESS d; SheetRow.WORKS_CARRIED_OUT d; SheetRow.HOURS d;
       SheetRow.WORK_STILL_TO_DO d; SheetRow.WORKED_WITH d; SheetRow.CERTIFICATE_SHARED d;
       SheetRow.MATERIALS d; SheetRow.SUPPLIER_O d; SheetRow.EXTRAS d; SheetRow.HOURS_EXTRA d;
       SheetRow.EXTRA_MATERIALS d; SheetRow.SUPPLIER d].
Proof.
  intros row d. unfold d, SheetRow.mapSheetRowToTemplateFields.
  cbn [SheetRow.NAME SheetRow.DATE SheetRow.JOB_NO SheetRow.CUSTOMER SheetRow.ADDRESS
       SheetRow.WORKS_CARRIED_OUT SheetRow.HOURS SheetRow.WORK_STILL_TO_DO SheetRow.WORKED_WITH
       SheetRow.CERTIFICATE_SHARED SheetRow.MATERIALS SheetRow.SUPPLIER_O SheetRow.EXTRAS
       SheetRow.HOURS_EXTRA SheetRow.EXTRA_MATERIALS SheetRow.SUPPLIER].
  repeat (apply Forall_cons; split);
    try apply pickIn_trimmed;
    try (apply orElse_trimmed; [apply pickByIndex_trimmed|apply pickIn_trimmed]);
    try done.
  apply joinComma_trimmed, truthy_parts.
  repeat (apply Forall_cons; split); try apply pickIn_trimmed. done.
Qed.

(** ** The older generator: candidates and the choice among them *)

Section HeuristicFacts.
Import JsString Regex JsDate LegacyGenerator.

Local Arguments matchesSet : simpl never.
Local Arguments insert : simpl never.
Local Arguments String.append : simpl nomatch.

Ltac rx_go :=
  repeat (simpl; unfold advance; simpl;
          rewrite ?andb_false_r, ?andb_true_r, ?app_nil_r, ?bind_states;
          repeat match goal with
                 | H : matchesSet _ _ _ = _ |- _ => rewrite H
                 end).

(** The block [(\d{1,2})[sep]] on one or two digits and a separator. *)
Lemma group_digits_sep_block (i : nat) (k : regex) (p : string) (s : ascii) (tail : string)
    (b : bool) (caps : gmap nat string) :
  isDigits 1 2 p = true ->
  isSepChar s = true ->
  (run false (RSeq (RGroup i (RRep CsDigit 1 (Some 2%nat))) (RSeq (RSet FillFromSheet.sepSet) k))
     (MState b (p +:+ String s tail) caps)).*2
  = (run false k (MState false tail (<[i := p]> caps))).*2.
Proof.
  unfold isDigits. intros [[Hd Hlo]%andb_true_iff Hhi]%andb_true_iff Hs.
  apply sep_cases in Hs as (Hs1 & Hs2 & _).
  destruct p as [|a [|b0 [|c p]]]; try discriminate;
    cbn [allChars] in Hd;
    repeat match goal with
           | H : _ && _ = true |- _ => apply andb_true_iff in H as [? ?]
           | H : isDigit _ = true |- _ => apply digit_cases in H as (? & ? & _)
           end;
    rewrite !run_seq_states; rx_go; reflexivity.
Qed.

(** The numeric pattern of the older copy on its shape: the groups hold
    the three parts as they are written. *)
Lemma exec_numericRe (p1 p2 y : string) (s1 s2 : ascii) :
  isDigits 1 2 p1 = true -> isDigits 1 2 p2 = true -> isDigits 2 4 y = true ->
  isSepChar s1 = true -> isSepChar s2 = true ->
  exists m,
    exec false numericRe (p1 +:+ String s1 (p2 +:+ String s2 y)) = Some m
    /\ group m 1 = p1 /\ group m 2 = p2 /\ group m 3 = y.
Proof.
  intros H1 H2 Hy Hs1 Hs2. unfold numericRe. cbn [rseq].
  rewrite exec_anchored.
  rewrite (group_digits_sep_block 1 _ p1 s1 _ true ∅ H1 Hs1).
  rewrite (group_digits_sep_block 2 _ p2 s2 _ false _ H2 Hs2).
  rewrite (year_block y false _ Hy). cbn [app head fmap option_fmap option_map caps].
  eexists. split; [reflexivity|]. unfold group.
  rewrite lookup_insert_ne, lookup_insert_ne, lookup_insert_eq by done.
  rewrite lookup_insert_ne, lookup_insert_eq by done.
  rewrite lookup_insert_eq. done.
Qed.

Variable tza : Z.
Variable nativeParse : string -> option Date.

(** The round-trip check is the same in both generators. *)
Lemma legacy_sameComponents_eq (d : Date) (year month day : Z) :
  LegacyGenerator.sameComponents tza d year month day
  = FillFromSheet.sameComponents tza d year month day.
Proof. reflexivity. Qed.

Lemma legacy_sameComponents_calendar (y m d : Z) :
  100 <= y ->
  (1 <=? m) && (m <=? 12) && (1 <=? d) && (d <=? 31) = true ->
  LegacyGenerator.sameComponents tza (newDate tza y (m - 1) d) y m d
  = (d <=? daysInMonth y m).
Proof.
  intros Hy Hg. rewrite !andb_true_iff, !Z.leb_le in Hg.
  rewrite legacy_sameComponents_eq. apply sameComponents_calendar; [done|lia|lia].
Qed.

(** [parseDateCandidates] chooses by [chooseOf] among its candidates. *)
Lemma parseDateCandidates_choice (s : string) :
  let p := parseDateCandidates tza nativeParse s in
  (date p, chosenKind p) = chooseOf (cands p).
Proof.
  unfold parseDateCandidates. destruct (negb (truthy s)); [reflexivity|]. cbv zeta.
  match goal with
  | |- context [match ?cs with [] => _ | _ :: _ => _ end] => generalize cs
  end.
  intros cs. destruct cs as [|c cs]; [reflexivity|].
  unfold chooseOf.
  destruct (findKind Cdmy (c :: cs)) eqn:E; cbn [date chosenKind cands]; rewrite E; reflexivity.
Qed.

(** The candidates of a string of the numeric shape. *)
Lemma parseDateCandidates_numeric (p1 p2 y : string) (s1 s2 : ascii) :
  isDigits 1 2 p1 = true -> isDigits 1 2 p2 = true -> isDigits 2 4 y = true ->
  isSepChar s1 = true -> isSepChar s2 = true ->
  let a := Number p1 in
  let b := Number p2 in
  let year := numericYear (Number y) in
  let s := p1 +:+ String s1 (p2 +:+ String s2 y) in
  cands (parseDateCandidates tza nativeParse s)
  = match nativeParse s with Some d => [MkCand Cnative d] | None => [] end
    ++ (if inCalendar year b a then [MkCand Cdmy (newDate tza year (b - 1) a)] else [])
    ++ (if inCalendar year a b then [MkCand Cmdy (newDate tza year (a - 1) b)] else []).
Proof.
  intros H1 H2 Hy Hs1 Hs2 a b year s.
  destruct (numeric_shape_trim p1 p2 y s1 s2 H1 Hy) as [Ht Htrim]. fold s in Ht, Htrim.
  destruct (exec_numericRe p1 p2 y s1 s2 H1 H2 Hy Hs1 Hs2) as (m & Hm & Hg1 & Hg2 & Hg3).
  fold s in Hm.
  assert (100 <= year) as Hyear.
  { unfold year, numericYear.
    assert (0 <= Number y).
    { apply Number_nonneg. unfold isDigits in Hy.
      by apply andb_true_iff in Hy as [[? _]%andb_true_iff _]. }
    destruct (Z.ltb_spec (Number y) 100); lia. }
  assert (daysInMonth year b <= 31 /\ daysInMonth year a <= 31) as [Hdb Hda]
    by (unfold daysInMonth; repeat case_match; lia).
  assert (Hvalid : forall mo dd, daysInMonth year mo <= 31 ->
            (if (1 <=? mo) && (mo <=? 12) && (1 <=? dd) && (dd <=? 31)
             then if LegacyGenerator.sameComponents tza (newDate tza year (mo - 1) dd) year mo dd
                  then true else false
             else false) = inCalendar year mo dd).
  { intros mo dd Hdim. unfold inCalendar.
    destruct ((1 <=? mo) && (mo <=? 12) && (1 <=? dd) && (dd <=? 31)) eqn:Hg.
    - rewrite legacy_sameComponents_calendar by done.
      apply andb_true_iff in Hg as [-> _]. by destruct (dd <=? daysInMonth year mo).
    - symmetry. apply andb_false_iff. apply andb_false_iff in Hg as [Hg|Hg]; [by left|].
      right. apply Z.leb_gt. apply Z.leb_gt in Hg. lia. }
  pose proof (Hvalid b a Hdb) as Hdmy. pose proof (Hvalid a b Hda) as Hmdy.
  unfold parseDateCandidates. rewrite Ht, Htrim, Hm. cbn [negb]. cbv zeta.
  rewrite Hg1, Hg2, Hg3. fold a b. change (if Number y <? 100 then 2000 + Number y else Number y)
    with year.
  clearbody a b year. clear Hvalid.
  destruct (nativeParse s) as [n|];
    destruct ((1 <=? b) && (b <=? 12) && (1 <=? a) && (a <=? 31));
    destruct ((1 <=? a) && (a <=? 12) && (1 <=? b) && (b <=? 31));
    repeat match goal with
           | |- context [LegacyGenerator.sameComponents tza ?d ?yy ?mm ?dd] =>
               destruct (LegacyGenerator.sameComponents tza d yy mm dd)
           end;
    rewrite <- ?Hdmy, <- ?Hmdy; reflexivity.
Qed.

End HeuristicFacts.

(** X18.  The retention filter of the older generator on a string
    that has both a day-first and a month-first candidate: the row is
    kept exactly when at least one of the two readings falls inside the
    window, and the reading it settles on is the month-first one only
    when that one is inside the window and the day-first one is not. *)
Theorem legacy_filter_keeps_row_if_either_reading_is_in_window :
  forall (tza : Z) (nativeParse : string -> option JsDate.Date) (cutoff : Z) (s : string)
         (cD cM : LegacyGenerator.candidate),
    let p := LegacyGenerator.parseDateCandidates tza nativeParse s in
    LegacyGenerator.findKind LegacyGenerator.Cdmy (LegacyGenerator.cands p) = Some cD ->
    LegacyGenerator.findKind LegacyGenerator.Cmdy (LegacyGenerator.cands p) = Some cM ->
    let dmyOk := cutoff <=? JsDate.getTime (LegacyGenerator.cdate cD) in
    let mdyOk := cutoff <=? JsDate.getTime (LegacyGenerator.cdate cM) in
    LegacyGenerator.chooseForFilter tza nativeParse cutoff s
    = (Some (LegacyGenerator.cdate (if mdyOk && negb dmyOk then cM else cD)),
       Some (if mdyOk && negb dmyOk then LegacyGenerator.Cmdy else LegacyGenerator.Cdmy),
       dmyOk || mdyOk).
Proof.
  intros tza nativeParse cutoff s cD cM p HD HM dmyOk mdyOk.
  pose proof (parseDateCandidates_choice tza nativeParse s) as Hch. cbv zeta in Hch.
  fold p in Hch.
  assert (LegacyGenerator.date p = Some (LegacyGenerator.cdate cD)
          /\ LegacyGenerator.chosenKind p = Some LegacyGenerator.Cdmy) as [Hd Hk].
  { unfold chooseOf in Hch. rewrite HD in Hch.
    destruct (LegacyGenerator.cands p); [discriminate HD|]. by injection Hch as -> ->. }
  unfold LegacyGenerator.chooseForFilter. fold p. rewrite HD, HM, Hd, Hk.
  unfold dmyOk, mdyOk. cbv zeta.
  destruct (cutoff <=? JsDate.getTime (LegacyGenerator.cdate cD)) eqn:E1,
    (cutoff <=? JsDate.getTime (LegacyGenerator.cdate cM)) eqn:E2;
    cbn [andb negb orb]; rewrite ?E1, ?E2; reflexivity.
Qed.

(** The theorem on 05/01/2026 with a cutoff between 5 January and 1 May 2026. *)
Lemma legacy_filter_keeps_row_if_either_reading_is_in_window_witness :
  LegacyGenerator.chooseForFilter 0 noNativeParse 1770000000000 "05/01/2026"
  = (Some (JsDate.newDate 0 2026 4 1), Some LegacyGenerator.Cmdy, true).
Proof.
  rewrite (legacy_filter_keeps_row_if_either_reading_is_in_window 0 noNativeParse
             1770000000000 "05/01/2026"
             (LegacyGenerator.MkCand LegacyGenerator.Cdmy (JsDate.newDate 0 2026 0 5))
             (LegacyGenerator.MkCand LegacyGenerator.Cmdy (JsDate.newDate 0 2026 4 1)));
    vm_compute; reflexivity.
Defined.

(** X19.  The heuristic policy of the older generator on a string of
    the numeric shape.  Its candidates are, in this order, the engine's
    own reading when the engine has one, the day-first reading when its
    month and day name a day of the calendar, and the month-first
    reading when that names a day of the calendar.  It settles on the
    day-first reading whenever that exists, else on the engine's, else
    on the month-first one, else on nothing. *)
Theorem heuristic_policy_on_numeric_dates :
  forall (tza : Z) (nativeParse : string -> option JsDate.Date) (p1 p2 y : string)
         (s1 s2 : ascii),
    isDigits 1 2 p1 = true -> isDigits 1 2 p2 = true -> isDigits 2 4 y = true ->
    isSepChar s1 = true -> isSepChar s2 = true ->
    let a := JsString.Number p1 in
    let b := JsString.Number p2 in
    let year := numericYear (JsString.Number y) in
    let s := p1 +:+ String s1 (p2 +:+ String s2 y) in
    let dmy := JsDate.newDate tza year (b - 1) a in
    let mdy := JsDate.newDate tza year (a - 1) b in
    let p := LegacyGenerator.parseDateCandidates tza nativeParse s in
    LegacyGenerator.cands p
    = match nativeParse s with
      | Some d => [LegacyGenerator.MkCand LegacyGenerator.Cnative d]
      | None => []
      end
      ++ (if inCalendar year b a then [LegacyGenerator.MkCand LegacyGenerator.Cdmy dmy] else [])
      ++ (if inCalendar year a b then [LegacyGenerator.MkCand LegacyGenerator.Cmdy mdy] else [])
    /\ (LegacyGenerator.date p, LegacyGenerator.chosenKind p)
       = if inCalendar year b a then (Some dmy, Some LegacyGenerator.Cdmy)
         else match nativeParse s with
              | Some d => (Some d, Some LegacyGenerator.Cnative)
              | None =>
                  if inCalendar year a b then (Some mdy, Some LegacyGenerator.Cmdy)
                  else (None, None)
              end.
Proof.
  intros tza nativeParse p1 p2 y s1 s2 H1 H2 Hy Hs1 Hs2 a b year s dmy mdy p.
  pose proof (parseDateCandidates_numeric tza nativeParse p1 p2 y s1 s2 H1 H2 Hy Hs1 Hs2)
    as Hc. cbv zeta in Hc. fold a b year s dmy mdy p in Hc.
  split; [exact Hc|].
  pose proof (parseDateCandidates_choice tza nativeParse s) as Hch. cbv zeta in Hch.
  fold p in Hch. rewrite Hch, Hc.
  by destruct (nativeParse s), (inCalendar year b a), (inCalendar year a b).
Qed.

(** The theorem on 12/25/2025, which has no day-first reading. *)
Lemma heuristic_policy_on_numeric_dates_witness :
  (isDigits 1 2 "12" = true /\ isDigits 1 2 "25" = true /\ isDigits 2 4 "2025" = true
   /\ isSepChar "/" = true)
  /\ (LegacyGenerator.date (LegacyGenerator.parseDateCandidates 0 noNativeParse "12/25/2025"),
      LegacyGenerator.chosenKind (LegacyGenerator.parseDateCandidates 0 noNativeParse "12/25/2025"))
     = (Some (JsDate.newDate 0 2025 11 25), Some LegacyGenerator.Cmdy).
Proof.
  split; [repeat split; reflexivity|].
  destruct (heuristic_policy_on_numeric_dates 0 noNativeParse "12" "25" "2025" "/" "/"
              eq_refl eq_refl eq_refl eq_refl eq_refl) as [_ H].
  exact H.
Defined.

(** ** The webhook receiver: numeric dates *)

Section WebhookFacts.
Import JsString Regex JsIso Webhook.

Local Arguments matchesSet : simpl never.
Local Arguments insert : simpl never.
Local Arguments String.append : simpl nomatch.

Ltac rx_web :=
  repeat (simpl; unfold advance; simpl;
          rewrite ?andb_false_r, ?andb_true_r, ?app_nil_r, ?bind_states;
          repeat match goal with
                 | H : matchesSet _ _ _ = _ |- _ => rewrite H
                 end).

Lemma digit_no_space (c : ascii) :
  isDigit c = true ->
  matchesSet false CsDigit c = true /\ matchesSet false CsSpace c = false.
Proof.
  destruct c as [[] [] [] [] [] [] [] []]; vm_compute; try discriminate; auto.
Qed.

(** [\s*] in front of a digit matches nothing. *)
Lemma space_star_before_digit (k : regex) (p : string) (b : bool) (caps : gmap nat string)
    (lo hi : nat) (tail : string) :
  isDigits (S lo) hi p = true ->
  (run false (RSeq (RRep CsSpace 0 None) k) (MState b (p +:+ tail) caps)).*2
  = (run false k (MState b (p +:+ tail) caps)).*2.
Proof.
  intros (_ & c & p' & -> & Hc)%isDigits_nonempty.
  assert (matchesSet false CsSpace c = false) as Hws
    by (unfold matchesSet; cbn [inSet andb]; by rewrite Hc).
  rewrite run_seq_states. cbn [String.append].
  cbn [run rest repChars Nat.eqb]. rewrite Hws.
  cbn [fmap list_fmap mbind list_bind app]. unfold advance. cbn [isEmpty atStart].
  rewrite andb_true_r, app_nil_r. by destruct b.
Qed.

(** The block [(\d{2,4})\s*$]. *)
Lemma year_space_block (y : string) (b : bool) (caps : gmap nat string) :
  isDigits 2 4 y = true ->
  (run false (RSeq (RGroup 3 (RRep CsDigit 2 (Some 4%nat))) (RSeq (RRep CsSpace 0 None) REol))
     (MState b y caps)).*2
  = [MState false "" (<[3%nat := y]> caps)].
Proof.
  unfold isDigits. intros [[Hd Hlo]%andb_true_iff Hhi]%andb_true_iff.
  destruct y as [|a [|b0 [|c [|d [|e y]]]]]; try discriminate;
    cbn [allChars] in Hd;
    repeat match goal with
           | H : _ && _ = true |- _ => apply andb_true_iff in H as [? ?]
           | H : isDigit _ = true |- _ => apply digit_no_space in H as (? & ?)
           end;
    rewrite !run_seq_states; by rx_web.
Qed.

Lemma exec_webhook_numericRe (p1 p2 y : string) (s1 s2 : ascii) :
  isDigits 1 2 p1 = true -> isDigits 1 2 p2 = true -> isDigits 2 4 y = true ->
  isSepChar s1 = true -> isSepChar s2 = true ->
  exists m,
    exec false numericRe (p1 +:+ String s1 (p2 +:+ String s2 y)) = Some m
    /\ group m 1 = p1 /\ group m 2 = p2 /\ group m 3 = y.
Proof.
  intros H1 H2 Hy Hs1 Hs2. unfold numericRe. cbn [rseq].
  rewrite exec_anchored.
  rewrite (space_star_before_digit _ p1 true ∅ 0 2 _ H1).
  rewrite (group_digits_sep_block 1 _ p1 s1 _ true ∅ H1 Hs1).
  rewrite (group_digits_sep_block 2 _ p2 s2 _ false _ H2 Hs2).
  rewrite (year_space_block y false _ Hy). cbn [app head fmap option_fmap option_map caps].
  eexists. split; [reflexivity|]. unfold group.
  rewrite lookup_insert_ne, lookup_insert_ne, lookup_insert_eq by done.
  rewrite lookup_insert_ne, lookup_insert_eq by done.
  rewrite lookup_insert_eq. done.
Qed.

End WebhookFacts.

(** X20.  [normalizeDateToISO] of the webhook receiver on a string of
    the numeric shape that the engine's own parser rejects.  A first
    part above 12 is the day; otherwise the first part is the month,
    unless [preferDM] is set (the receiver calls it without).  Years
    below 100 become 19xx above 50 and 20xx otherwise.  The result is
    [YYYY-MM-DD] with padding whenever the month is 1..12 and the day is
    1..31, with no check that the month has that day; otherwise null. *)
Theorem webhook_reads_numeric_dates_month_first :
  forall (nativeParse : string -> option Z) (preferDM : bool) (p1 p2 y : string)
         (s1 s2 : ascii),
    isDigits 1 2 p1 = true -> isDigits 1 2 p2 = true -> isDigits 2 4 y = true ->
    isSepChar s1 = true -> isSepChar s2 = true ->
    nativeParse (p1 +:+ String s1 (p2 +:+ String s2 y)) = None ->
    let a := JsString.Number p1 in
    let b := JsString.Number p2 in
    let y0 := JsString.Number y in
    let year := if y0 <? 100 then y0 + (if 50 <? y0 then 1900 else 2000) else y0 in
    let dayFirst := (12 <? a) || preferDM in
    let day := if dayFirst then a else b in
    let month := if dayFirst then b else a in
    Webhook.normalizeDateToISO nativeParse (p1 +:+ String s1 (p2 +:+ String s2 y)) preferDM
    = if (1 <=? month) && (month <=? 12) && (1 <=? day) && (day <=? 31)
      then Some (JsIso.padStart 4 (JsString.stringOfInt year) +:+ "-"
                 +:+ JsIso.padStart 2 (JsString.stringOfInt month) +:+ "-"
                 +:+ JsIso.padStart 2 (JsString.stringOfInt day))
      else None.
Proof.
  intros nativeParse preferDM p1 p2 y s1 s2 H1 H2 Hy Hs1 Hs2 Hnative a b y0 year dayFirst
    day month.
  destruct (numeric_shape_trim p1 p2 y s1 s2 H1 Hy) as [Ht Htrim].
  destruct (exec_webhook_numericRe p1 p2 y s1 s2 H1 H2 Hy Hs1 Hs2) as (m & Hm & Hg1 & Hg2 & Hg3).
  unfold Webhook.normalizeDateToISO. rewrite Ht, Htrim, Hnative, Hm. cbn [negb]. cbv zeta.
  rewrite Hg1, Hg2, Hg3. fold a b y0. fold year.
  unfold day, month, dayFirst. by destruct (12 <? a), preferDM.
Qed.

(** The theorem on 05/01/2026 and on 31/04/2025, as the receiver calls it. *)
Lemma webhook_reads_numeric_dates_month_first_witness :
  (isDigits 1 2 "05" = true /\ isDigits 1 2 "01" = true /\ isDigits 2 4 "2026" = true
   /\ isDigits 1 2 "31" = true /\ isDigits 1 2 "04" = true /\ isDigits 2 4 "2025" = true
   /\ isSepChar "/" = true)
  /\ Webhook.normalizeDateToISO (fun _ => None) "05/01/2026" false = Some "2026-05-01"
  /\ Webhook.normalizeDateToISO (fun _ => None) "31/04/2025" false = Some "2025-04-31".
Proof.
  split; [repeat split; reflexivity|]. split.
  - exact (webhook_reads_numeric_dates_month_first (fun _ => None) false "05" "01" "2026"
             "/" "/" eq_refl eq_refl eq_refl eq_refl eq_refl eq_refl).
  - exact (webhook_reads_numeric_dates_month_first (fun _ => None) false "31" "04" "2025"
             "/" "/" eq_refl eq_refl eq_refl eq_refl eq_refl eq_refl).
Defined.

(** ** fillTemplate.js and the call from the poller *)

Section FillTemplateFacts.
Import JsString Fs JsIso FillTemplate.

Local Arguments String.append : simpl nomatch.

(** A character that [safe] lets through. *)
Local Abbreviation plain := (fun c : ascii => negb (isWhiteSpace c) && negb (unsafeChar c)).

Lemma replaceRuns_plain (b : bool) (s : string) :
  allChars (fun c => negb (unsafeChar c)) s = true ->
  allChars plain (replaceRuns isWhiteSpace "_" b s) = true.
Proof.
  revert b. induction s as [|c s IH]; intros b; [done|]. cbn [allChars replaceRuns].
  intros [Hc Hs]%andb_true_iff. destruct (isWhiteSpace c) eqn:Hw.
  - destruct b; [by apply IH|]. cbn [String.append allChars]. by rewrite IH.
  - cbn [allChars]. by rewrite Hw, Hc, IH.
Qed.

Lemma replaceEach_unsafe (s : string) :
  allChars (fun c => negb (unsafeChar c)) (replaceEach unsafeChar "-" s) = true.
Proof.
  induction s as [|c s IH]; [done|]. cbn [replaceEach].
  destruct (unsafeChar c) eqn:E.
  - cbn [String.append allChars]. by rewrite IH.
  - cbn [allChars]. by rewrite E, IH.
Qed.

(** [safe] leaves neither white space nor a character of its class. *)
Lemma safe_plain (s : string) : allChars plain (safe s) = true.
Proof. apply replaceRuns_plain, replaceEach_unsafe. Qed.

(** [safe] changes nothing in a string that holds none of them. *)
Lemma safe_id (s : string) : allChars plain s = true -> safe s = s.
Proof.
  unfold safe. induction s as [|c s IH]; [done|]. cbn [allChars].
  intros [[Hw Hu]%andb_true_iff Hs]%andb_true_iff.
  apply negb_true_iff in Hw, Hu. cbn [replaceEach]. rewrite Hu.
  cbn [replaceRuns]. rewrite Hw. by rewrite IH.
Qed.

Lemma allChars_substring (p : ascii -> bool) (n m : nat) (s : string) :
  allChars p s = true -> allChars p (substring n m s) = true.
Proof.
  revert n m. induction s as [|c s IH]; intros n m Hs.
  - by destruct n, m.
  - cbn [allChars] in Hs. apply andb_true_iff in Hs as [Hc Hs].
    destruct n as [|n]; [destruct m as [|m]; [done|]|].
    + cbn [substring allChars]. by rewrite Hc, (IH 0%nat m).
    + cbn [substring]. by apply IH.
Qed.

Lemma allChars_zeros (p : ascii -> bool) (n : nat) :
  p "0"%char = true -> allChars p (zeros n) = true.
Proof. intros Hp. induction n as [|n IH]; [done|]. cbn. by rewrite Hp, IH. Qed.

Lemma digit_sign_plain (c : ascii) :
  isDigit c || Ascii.eqb c "-" = true -> plain c = true.
Proof. destruct c as [[] [] [] [] [] [] [] []]; vm_compute; try discriminate; auto. Qed.

Lemma padStart_plain (n : nat) (k : Z) : allChars plain (padStart n (stringOfInt k)) = true.
Proof.
  unfold padStart. rewrite allChars_app, allChars_zeros by done.
  apply (allChars_impl (fun c => isDigit c || Ascii.eqb c "-")); [apply digit_sign_plain|].
  apply stringOfInt_chars.
Qed.

(** The date of today as [toISOString] prints it goes through [safe]
    unchanged. *)
Lemma isoDate10_plain (t : Z) : allChars plain (isoDate10 t) = true.
Proof.
  unfold isoDate10, isoDatePart. apply allChars_substring.
  destruct (JsDate.civilFromDays (JsDate.Day t)) as [[y m] d]. cbv zeta.
  assert (forall s, allChars plain s = true ->
            allChars plain
              (s +:+ "-" +:+ padStart 2 (stringOfInt m) +:+ "-" +:+ padStart 2 (stringOfInt d))
            = true) as Hrest.
  { intros s Hs. rewrite !allChars_app, Hs, !padStart_plain. reflexivity. }
  apply Hrest. destruct (_ && _); [apply padStart_plain|].
  rewrite allChars_app, padStart_plain. by destruct (y <? 0).
Qed.

Variable OUTPUT_DIR : string.
Variable renderDocx : string -> worksheetData -> option string.

Lemma outputName_plain (data : worksheetData) : allChars plain (outputName data) = true.
Proof. unfold outputName. by rewrite !allChars_app, !safe_plain. Qed.

(** On the empty object every field is its fallback. *)
Lemma get_empty (keys : list string) (fallback : string) : get ∅ keys fallback = fallback.
Proof.
  induction keys as [|k keys IH]; [done|]. cbn [get]. unfold filled.
  by rewrite !lookup_empty.
Qed.

(** The name that a call without data gets. *)
Lemma outputName_no_data (now : Z) :
  outputName (dataOf ∅ now) = "worksheet_unknown_" +:+ isoDate10 now +:+ ".docx".
Proof.
  unfold outputName, dataOf. cbn [JOB_NO DATE]. rewrite !get_empty.
  rewrite (safe_id (isoDate10 now)) by apply isoDate10_plain. reflexivity.
Qed.

Lemma main_returned (mapped : gmap string string) (now : Z) (fs : FS) (path : string) :
  (main OUTPUT_DIR renderDocx mapped now fs).1.1 = Returned path ->
  path = pathJoin OUTPUT_DIR (outputName (dataOf mapped now)).
Proof.
  unfold main. destruct (template fs); [|intros H; discriminate H].
  destruct (renderDocx _ _); [|intros H; discriminate H].
  destruct (writeOutputFile _ _ _ _); cbn [fst]; [|intros H; discriminate H].
  by intros [= <-].
Qed.

End FillTemplateFacts.

(** X21.  The poller and [fillTemplate.js] together.  [generate] calls
    the export with the mapped submission only when the length of the
    function is positive; [main] of [fillTemplate.js] declares its
    parameter with a default value, so its length is 0 and it is called
    without arguments.  Hence, whenever [main] on the empty object
    returns, [generate] resolves to true whatever the submission holds,
    and the file system afterwards is the one that [main] on the empty
    object leaves: the artifact is [worksheet_unknown_] followed by the
    date of today, and nothing of the submission reaches it. *)
Theorem poller_calls_fillTemplate_without_the_submission :
  forall (OUTPUT_DIR : string)
         (renderDocx : string -> FillTemplate.worksheetData -> option string)
         (mapped : gmap string string) (now : Z) (fs : Fs.FS) (path : string),
    let noData := FillTemplate.main OUTPUT_DIR renderDocx ∅ now fs in
    noData.1.1 = Fs.Returned path ->
    PollGenerate.fnLength
      <$> PollGenerate.asFunction (PollGenerate.fillTemplateModule OUTPUT_DIR renderDocx)
    = Some 0%nat
    /\ PollGenerate.generate
         (Some (Some (PollGenerate.fillTemplateModule OUTPUT_DIR renderDocx)))
         (PollGenerate.fillTemplateCommand OUTPUT_DIR renderDocx) mapped now fs
       = (true, noData.1.2, [])
    /\ path = Fs.pathJoin OUTPUT_DIR ("worksheet_unknown_" +:+ JsIso.isoDate10 now +:+ ".docx").
Proof.
  intros OUTPUT_DIR renderDocx mapped now fs path noData Hret.
  split; [reflexivity|]. split.
  - unfold PollGenerate.generate, PollGenerate.fillTemplateModule, PollGenerate.candidates.
    subst noData. remember (FillTemplate.main OUTPUT_DIR renderDocx) as run eqn:Hrun.
    cbn. destruct (run ∅ now fs) as [[[p|e] fs'] log]; [reflexivity|discriminate Hret].
  - apply main_returned in Hret. by rewrite outputName_no_data in Hret.
Qed.

(** The theorem on a submission that names a job and a customer. *)
Lemma poller_calls_fillTemplate_without_the_submission_witness :
  let render := fun (content : string) (data : FillTemplate.worksheetData) =>
                  Some (FillTemplate.NAME data +:+ "/" +:+ FillTemplate.JOB_NO data) in
  let mapped : gmap string string := <["JOB_NO" := "42"]> (<["NAME" := "J Smith"]> ∅) in
  let fs := Fs.MkFS (Some "template") None in
  (FillTemplate.main "out" render ∅ 1767571200000 fs).1.1
  = Fs.Returned "out/worksheet_unknown_2026-01-05.docx"
  /\ (PollGenerate.generate (Some (Some (PollGenerate.fillTemplateModule "out" render)))
        (PollGenerate.fillTemplateCommand "out" render) mapped 1767571200000 fs).1.2
     = Fs.MkFS (Some "template")
         (Some (<["worksheet_unknown_2026-01-05.docx"
                  := Fs.File "No name provided/unknown" 1767571200000]> ∅)).
Proof.
  intros render mapped fs.
  assert ((FillTemplate.main "out" render ∅ 1767571200000 fs).1.1
          = Fs.Returned "out/worksheet_unknown_2026-01-05.docx") as Hret
    by (vm_compute; reflexivity).
  split; [exact Hret|].
  destruct (poller_calls_fillTemplate_without_the_submission "out" render mapped
              1767571200000 fs _ Hret) as (_ & -> & _).
  vm_compute. reflexivity.
Defined.

(** X22.  [fillTemplate.js] names and writes its artifact: the name
    holds no white space and none of the characters slash, backslash,
    colon, question mark, angle brackets, bar and double quote, whatever
    the data; and [main] always writes, replacing a file that is there
    under that name: once the template is read and the document
    rendered, the folder holds the new content under the name, with
    every other entry as it was. *)
Theorem fillTemplate_writes_a_safe_name_and_overwrites :
  forall (OUTPUT_DIR : string)
         (renderDocx : string -> FillTemplate.worksheetData -> option string)
         (mapped : gmap string string) (now : Z) (fs : Fs.FS),
    let data := FillTemplate.dataOf mapped now in
    let name := FillTemplate.outputName data in
    JsString.allChars
      (fun c => negb (JsString.isWhiteSpace c) && negb (FillTemplate.unsafeChar c)) name = true
    /\ forall content buf,
         Fs.template fs = Some content ->
         renderDocx content data = Some buf ->
         (forall t, default ∅ (Fs.outdir fs) !! name <> Some (Fs.Folder t)) ->
         FillTemplate.main OUTPUT_DIR renderDocx mapped now fs
         = (Fs.Returned (Fs.pathJoin OUTPUT_DIR name),
            Fs.MkFS (Some content) (Some (<[name := Fs.File buf now]> (default ∅ (Fs.outdir fs)))),
            [FillTemplate.LogGenerated (Fs.pathJoin OUTPUT_DIR name)]).
Proof.
  intros OUTPUT_DIR renderDocx mapped now fs data name.
  split; [apply outputName_plain|].
  intros content buf Ht Hr Hnf. unfold FillTemplate.main. rewrite Ht. fold data. rewrite Hr.
  fold name. unfold Fs.writeOutputFile.
  rewrite ensureOutputDir_entries, ensureOutputDir_template, Ht.
  destruct (default ∅ (Fs.outdir fs) !! name) as [[c t|t]|] eqn:Hl;
    [reflexivity|by destruct (Hnf t)|reflexivity].
Qed.

(** The theorem on a job whose number holds a slash and a blank, written
    over a file of that name. *)
Lemma fillTemplate_writes_a_safe_name_and_overwrites_witness :
  let render := fun (content : string) (data : FillTemplate.worksheetData) =>
                  Some (content +:+ ":" +:+ FillTemplate.JOB_NO data) in
  let mapped : gmap string string := <["job_no" := "A/7 b"]> (<["DATE" := "5 Jan"]> ∅) in
  let fs := Fs.MkFS (Some "template")
              (Some (<["worksheet_A-7_b_5_Jan.docx" := Fs.File "old" 5]> ∅)) in
  FillTemplate.main "out" render mapped 1767571200000 fs
  = (Fs.Returned "out/worksheet_A-7_b_5_Jan.docx",
     Fs.MkFS (Some "template")
       (Some (<["worksheet_A-7_b_5_Jan.docx" := Fs.File "template:A/7 b" 1767571200000]> ∅)),
     [FillTemplate.LogGenerated "out/worksheet_A-7_b_5_Jan.docx"]).
Proof.
  intros render mapped fs.
  destruct (fillTemplate_writes_a_safe_name_and_overwrites "out" render mapped
              1767571200000 fs) as [_ Hw].
  rewrite (Hw "template" "template:A/7 b" eq_refl eq_refl);
    [vm_compute; reflexivity|].
  intros t. vm_compute. discriminate.
Defined.
